(** * Sanctions screening front end: search page and results page

    A shallow embedding of the two Next.js pages of the repository
    ([pages/index.js], in its two revisions, and [pages/results.js], in
    its last two) and of the parts of the JavaScript run time they rely
    on: JSON values with the language's truthiness and property access,
    [JSON.stringify] and [JSON.parse], [String.prototype.trim],
    [toUpperCase] and [substring], the session storage and the [fetch]
    calls.

    Conventions.
    - A JavaScript string is held as the bytes of its UTF-8 form, a lone
      surrogate as the three bytes of its code unit; lengths and cuts
      count UTF-16 code units, white space and letter case are those of
      Unicode.
    - A number is an IEEE 754 double, [m * 2^e]; texts are read with
      rounding to the nearest double and doubles are printed by
      Number::toString. The two zeros are one value.
    - A JSON object is the list of its properties in the engine's order:
      array indices first, ascending, then the other names as inserted.
    - [undefined] is [None] in [jsval := option json]. *)

From Stdlib Require Import ZArith NArith String Ascii List Bool Lia.
From Stdlib Require Import DecimalString DecimalPos DecimalN DecimalFacts.
From stdpp Require Import gmap strings list.

Open Scope string_scope.


(* ================================================================== *)
(** * Numbers: IEEE 754 doubles and their decimal texts *)
(* ================================================================== *)

(** The Number values that reach the pages: the finite doubles, held as
    [m * 2^e], zero and the two infinities. The two zeros are one value:
    nothing the pages do tells them apart ([-0 === 0], both print as
    ["0"] and both are falsy). [NaN] does not occur: the pages do no
    arithmetic and JSON has no text for it. *)
Module Number.

Inductive number : Type :=
| Zero
| Finite (neg : bool) (m : positive) (e : Z)
| Infinite (neg : bool).

(** The doubles: 53 significant bits with the exponent in range, or fewer
    bits at the least exponent (the subnormals). *)
Definition canonical (x : number) : bool :=
  match x with
  | Finite _ m e =>
      ((2 ^ 52 <=? Zpos m) && (Zpos m <? 2 ^ 53) && (-1074 <=? e) && (e <=? 971)
       || (Zpos m <? 2 ^ 52) && (e =? -1074))%Z
  | _ => true
  end.

Definition finite (x : number) : bool :=
  match x with
  | Infinite _ => false
  | _ => true
  end.

Definition eqb (x y : number) : bool :=
  match x, y with
  | Zero, Zero => true
  | Finite n m e, Finite n' m' e' =>
      Bool.eqb n n' && (m =? m')%positive && (e =? e')%Z
  | Infinite n, Infinite n' => Bool.eqb n n'
  | _, _ => false
  end.

Definition negate (x : number) : number :=
  match x with
  | Zero => Zero
  | Finite n m e => Finite (negb n) m e
  | Infinite n => Infinite (negb n)
  end.

(** [n < x] for an integer [n]. *)
Definition ltb_Z (n : Z) (x : number) : bool :=
  match x with
  | Zero => (n <? 0)%Z
  | Finite neg m e =>
      let v := if neg then Zneg m else Zpos m in
      if (0 <=? e)%Z then (n <? v * 2 ^ e)%Z else (n * 2 ^ (- e) <? v)%Z
  | Infinite neg => negb neg
  end.

(** ** Rounding to the nearest double, ties to even *)

(** [N / (D * 2^e)] as quotient and remainder, with the divisor. *)
Definition scaled_div (N D e : Z) : Z * Z * Z :=
  if (0 <=? e)%Z then (N / (D * 2 ^ e), N mod (D * 2 ^ e), D * 2 ^ e)%Z
  else (N * 2 ^ (- e) / D, (N * 2 ^ (- e)) mod D, D)%Z.

(** The exponent at which [N / D] has 53 significant bits, not below the
    least exponent. *)
Definition exponent_of (N D : Z) : Z :=
  let e0 := (Z.log2 N - Z.log2 D - 52)%Z in
  let e1 := if (fst (fst (scaled_div N D e0)) <? 2 ^ 52)%Z then (e0 - 1)%Z else e0 in
  Z.max e1 (-1074).

(** The Number value of the positive rational [N / D]. *)
Definition round_rat (neg : bool) (N D : Z) : number :=
  let e := exponent_of N D in
  let '(q, r, d) := scaled_div N D e in
  let q' := match (2 * r ?= d)%Z with
            | Lt => q
            | Gt => (q + 1)%Z
            | Eq => if Z.even q then q else (q + 1)%Z
            end in
  if (q' =? 0)%Z then Zero
  else
    let (m, e') := if (q' =? 2 ^ 53)%Z then ((2 ^ 52)%Z, (e + 1)%Z) else (q', e) in
    if (971 <? e')%Z then Infinite neg else Finite neg (Z.to_pos m) e'.

(** The Number value of [d * 10^q]. *)
Definition of_decimal (neg : bool) (d : N) (q : Z) : number :=
  match d with
  | N0 => Zero
  | Npos p =>
      if (0 <=? q)%Z then round_rat neg (Zpos p * 10 ^ q) 1
      else round_rat neg (Zpos p) (10 ^ (- q))
  end.

(** The Number value of a natural number (the length of an array or of a
    string). *)
Definition of_nat (n : nat) : number :=
  match n with
  | O => Zero
  | S _ => round_rat false (Z.of_nat n) 1
  end.

(** ** Reading a JSON number *)

Definition digit_of_char (c : ascii) : option (Decimal.uint -> Decimal.uint) :=
  match nat_of_ascii c - 48, (48 <=? nat_of_ascii c)%nat with
  | 0, true => Some Decimal.D0
  | 1, _ => Some Decimal.D1
  | 2, _ => Some Decimal.D2
  | 3, _ => Some Decimal.D3
  | 4, _ => Some Decimal.D4
  | 5, _ => Some Decimal.D5
  | 6, _ => Some Decimal.D6
  | 7, _ => Some Decimal.D7
  | 8, _ => Some Decimal.D8
  | 9, _ => Some Decimal.D9
  | _, _ => None
  end.

(** The longest run of decimal digits at the head of [s]. *)
Fixpoint read_uint (s : string) : Decimal.uint * string :=
  match s with
  | EmptyString => (Decimal.Nil, EmptyString)
  | String c r =>
      match digit_of_char c with
      | Some d => let (u, r') := read_uint r in (d u, r')
      | None => (Decimal.Nil, s)
      end
  end.

(** The integer part of a number: one digit at least, no leading zero. *)
Definition valid_int (u : Decimal.uint) : bool :=
  match u with
  | Decimal.Nil => false
  | Decimal.D0 Decimal.Nil => true
  | Decimal.D0 _ => false
  | _ => true
  end.

Definition is_nil (u : Decimal.uint) : bool :=
  match u with
  | Decimal.Nil => true
  | _ => false
  end.

(** The fraction, when there is one: a point and one digit at least. *)
Definition read_fraction (s : string) : option (Decimal.uint * string) :=
  match s with
  | String c r =>
      if (c =? ".")%char then
        let (f, r') := read_uint r in
        if is_nil f then None else Some (f, r')
      else Some (Decimal.Nil, s)
  | EmptyString => Some (Decimal.Nil, s)
  end.

(** The exponent, when there is one: [e] or [E], a sign or none, and one
    digit at least. *)
Definition read_exponent (s : string) : option (Z * string) :=
  match s with
  | String c r =>
      if ((c =? "e") || (c =? "E"))%char then
        let (neg, r1) :=
          match r with
          | String g r' =>
              if (g =? "-")%char then (true, r')
              else if (g =? "+")%char then (false, r')
              else (false, r)
          | EmptyString => (false, r)
          end in
        let (x, r2) := read_uint r1 in
        if is_nil x then None
        else Some (if neg then (- Z.of_uint x)%Z else Z.of_uint x, r2)
      else Some (0%Z, s)
  | EmptyString => Some (0%Z, s)
  end.

(** A number at the head of [s], by the grammar of JSON, with the text
    that follows it. *)
Definition read (s : string) : option (number * string) :=
  let (neg, s1) :=
    match s with
    | String c r => if (c =? "-")%char then (true, r) else (false, s)
    | EmptyString => (false, s)
    end in
  let (u, r1) := read_uint s1 in
  if valid_int u then
    match read_fraction r1 with
    | Some (f, r2) =>
        match read_exponent r2 with
        | Some (x, r3) =>
            Some (of_decimal neg (N.of_uint (Decimal.app u f))
                    (x - Z.of_nat (Decimal.nb_digits f)), r3)
        | None => None
        end
    | None => None
    end
  else None.

(** ** Printing: Number::toString *)

Definition digits (p : positive) : string := NilEmpty.string_of_uint (Pos.to_uint p).

Fixpoint zeros (n : nat) : string :=
  match n with
  | O => EmptyString
  | S n' => String "0" (zeros n')
  end.

Fixpoint take (n : nat) (s : string) : string :=
  match n, s with
  | S n', String c r => String c (take n' r)
  | _, _ => EmptyString
  end.

Fixpoint drop (n : nat) (s : string) : string :=
  match n, s with
  | S n', String _ r => drop n' r
  | _, _ => s
  end.

(** The text of the decimal with the [k] digits [ds] and the value
    [0.ds * 10^n]: plain digits up to 21 places, a fraction down to
    [0.000001], the exponent form elsewhere. *)
Definition format (ds : string) (n : Z) : string :=
  let k := Z.of_nat (String.length ds) in
  if ((k <=? n) && (n <=? 21))%Z then ds ++ zeros (Z.to_nat (n - k))
  else if ((0 <? n) && (n <=? 21))%Z then
    take (Z.to_nat n) ds ++ "." ++ drop (Z.to_nat n) ds
  else if ((-6 <? n) && (n <=? 0))%Z then "0." ++ zeros (Z.to_nat (- n)) ++ ds
  else
    let e := (n - 1)%Z in
    (if (k =? 1)%Z then ds else take 1 ds ++ "." ++ drop 1 ds)
    ++ "e" ++ (if (e <? 0)%Z then "-" else "+") ++ digits (Z.to_pos (Z.abs e)).

(** [n] with [10^(n-1) <= m * 2^e < 10^n], from the number of digits of
    the integer part (or of the inverse) and one comparison. *)
Definition decimal_exponent (m : positive) (e : Z) : Z :=
  let N := if (0 <=? e)%Z then (Zpos m * 2 ^ e)%Z else Zpos m in
  let D := if (0 <=? e)%Z then 1%Z else (2 ^ (- e))%Z in
  if (D <=? N)%Z then
    Z.of_nat (Decimal.nb_digits (N.to_uint (Z.to_N (N / D))))%Z
  else
    let z := Z.of_nat (Decimal.nb_digits (N.to_uint (Z.to_N (D / N)))) in
    if (D <=? N * 10 ^ (z - 1))%Z then (2 - z)%Z else (1 - z)%Z.

(** The two decimals of [k] digits next to [m * 2^e], the nearer first
    (the even one on a tie), each as its digits and its exponent. *)
Definition neighbours (m : positive) (e n : Z) (k : nat) : list (string * Z) :=
  let p := (Z.of_nat k - n)%Z in
  let N := ((if (0 <=? e)%Z then Zpos m * 2 ^ e else Zpos m)
            * (if (0 <=? p)%Z then 10 ^ p else 1))%Z in
  let D := ((if (0 <=? e)%Z then 1 else 2 ^ (- e))
            * (if (0 <=? p)%Z then 1 else 10 ^ (- p)))%Z in
  let lo := (N / D)%Z in
  let r := (N mod D)%Z in
  let cand (s : Z) : list (string * Z) :=
    if (s =? 10 ^ Z.of_nat k)%Z then [(digits (Z.to_pos (10 ^ (Z.of_nat k - 1))), (n + 1)%Z)]
    else if (s <? 10 ^ (Z.of_nat k - 1))%Z then []
    else [(digits (Z.to_pos s), n)] in
  match (2 * r ?= D)%Z with
  | Lt => cand lo ++ cand (lo + 1)%Z
  | Gt => cand (lo + 1)%Z ++ cand lo
  | Eq => if Z.even lo then cand lo ++ cand (lo + 1)%Z
          else cand (lo + 1)%Z ++ cand lo
  end.

(** The text reads back as the double [m * 2^e]. *)
Definition reads_as (m : positive) (e : Z) (t : string) : bool :=
  match read t with
  | Some (y, EmptyString) => eqb y (Finite false m e)
  | _ => false
  end.

Fixpoint first_reading (m : positive) (e : Z) (l : list (string * Z)) : option string :=
  match l with
  | [] => None
  | (ds, n) :: l' =>
      if reads_as m e (format ds n) then Some (format ds n)
      else first_reading m e l'
  end.

(** The shortest decimal that reads back as the double: [k] digits are
    tried for [k = from, from + 1, ...]. *)
Fixpoint shortest (m : positive) (e n : Z) (from count : nat) : option string :=
  match count with
  | O => None
  | S count' =>
      match first_reading m e (neighbours m e n from) with
      | Some t => Some t
      | None => shortest m e n (S from) count'
      end
  end.

(** The exact decimal of [m * 2^e], which is [m * 5^(-e) * 10^e] below
    one. *)
Definition exact_text (m : positive) (e : Z) : string :=
  if (0 <=? e)%Z then digits (Z.to_pos (Zpos m * 2 ^ e))
  else digits (Z.to_pos (Zpos m * 5 ^ (- e))) ++ "e-" ++ digits (Z.to_pos (- e)).

(** Number::toString on a positive double: the shortest decimal that
    denotes it, of 17 digits at most. Seventeen digits tell any two
    doubles apart, so the exact decimal that closes the definition is
    never reached; it spares the definition that theorem. *)
Definition toString_pos (m : positive) (e : Z) : string :=
  match shortest m e (decimal_exponent m e) 1 17 with
  | Some t => t
  | None => exact_text m e
  end.

Definition toString (x : number) : string :=
  match x with
  | Zero => "0"
  | Finite false m e => toString_pos m e
  | Finite true m e => "-" ++ toString_pos m e
  | Infinite false => "Infinity"
  | Infinite true => "-Infinity"
  end.

(** What may follow a number: nothing, or a character that is no digit,
    no point and no exponent mark. *)
Definition number_end (s : string) : bool :=
  match s with
  | EmptyString => true
  | String c _ =>
      match digit_of_char c with
      | Some _ => false
      | None => negb ((c =? ".") || (c =? "e") || (c =? "E"))%char
      end
  end.

End Number.



(* ================================================================== *)
(** * Text: code points, UTF-8, white space and letter case *)
(* ================================================================== *)

(** A JavaScript string is a sequence of 16-bit code units. It is held
    here as the bytes of its UTF-8 form, one to four bytes for each code
    point; a surrogate that stands alone, which UTF-8 proper has no
    place for, is held as the three bytes that the same scheme gives
    its code unit (generalised UTF-8). A code point above [U+FFFF] counts
    for two code units. *)
Module Unicode.

Local Open Scope N_scope.

Definition byte (c : ascii) : N := N_of_ascii c.

(** A continuation byte, [10xxxxxx]. *)
Definition continuation (c : ascii) : bool := (128 <=? byte c) && (byte c <? 192).

(** The code point at the head of [s], its bytes and the text after it;
    [None] where [s] is empty or does not begin with the bytes of a code
    point. *)
Definition next (s : string) : option (N * string * string) :=
  match s with
  | EmptyString => None
  | String c r =>
      let b := byte c in
      if b <? 128 then Some (b, String c "", r)
      else if b <? 194 then None
      else if b <? 224 then
        match r with
        | String c1 r1 =>
            if continuation c1 then
              Some ((b - 192) * 64 + (byte c1 - 128), String c (String c1 ""), r1)
            else None
        | _ => None
        end
      else if b <? 240 then
        match r with
        | String c1 (String c2 r2) =>
            let cp := (b - 224) * 4096 + (byte c1 - 128) * 64 + (byte c2 - 128) in
            if continuation c1 && continuation c2 && (2048 <=? cp) then
              Some (cp, String c (String c1 (String c2 "")), r2)
            else None
        | _ => None
        end
      else if b <? 245 then
        match r with
        | String c1 (String c2 (String c3 r3)) =>
            let cp := (b - 240) * 262144 + (byte c1 - 128) * 4096
                      + (byte c2 - 128) * 64 + (byte c3 - 128) in
            if continuation c1 && continuation c2 && continuation c3
               && (65536 <=? cp) && (cp <=? 1114111) then
              Some (cp, String c (String c1 (String c2 (String c3 ""))), r3)
            else None
        | _ => None
        end
      else None
  end.

Definition chr (n : N) : ascii := ascii_of_N n.

(** The bytes of a code point (or of a lone surrogate). *)
Definition encode (cp : N) : string :=
  if cp <? 128 then String (chr cp) ""
  else if cp <? 2048 then
    String (chr (192 + cp / 64)) (String (chr (128 + cp mod 64)) "")
  else if cp <? 65536 then
    String (chr (224 + cp / 4096))
      (String (chr (128 + (cp / 64) mod 64)) (String (chr (128 + cp mod 64)) ""))
  else
    String (chr (240 + cp / 262144))
      (String (chr (128 + (cp / 4096) mod 64))
        (String (chr (128 + (cp / 64) mod 64)) (String (chr (128 + cp mod 64)) ""))).

Fixpoint encode_all (l : list N) : string :=
  match l with
  | [] => EmptyString
  | cp :: l' => encode cp +:+ encode_all l'
  end.

Definition is_surrogate (cp : N) : bool := (55296 <=? cp) && (cp <=? 57343).
Definition is_high_surrogate (cp : N) : bool := (55296 <=? cp) && (cp <=? 56319).
Definition is_low_surrogate (cp : N) : bool := (56320 <=? cp) && (cp <=? 57343).

(** The first code unit of a code point above [U+FFFF]. *)
Definition high_surrogate (cp : N) : N := 55296 + (cp - 65536) / 1024.

(** The code point of a surrogate pair. *)
Definition of_surrogates (hi lo : N) : N := 65536 + (hi - 55296) * 1024 + (lo - 56320).

(** WhiteSpace and LineTerminator of the language: TAB, LF, VT, FF, CR,
    SP, NBSP, the other space separators (category Zs), LS, PS and
    ZWNBSP. *)
Definition is_white (cp : N) : bool :=
  (9 <=? cp) && (cp <=? 13) || (cp =? 32) || (cp =? 160) || (cp =? 5760)
  || (8192 <=? cp) && (cp <=? 8202) || (cp =? 8232) || (cp =? 8233)
  || (cp =? 8239) || (cp =? 8287) || (cp =? 12288) || (cp =? 65279).

(** The upper case of the code points that have one of a single code
    point: runs [(first, last, step, shift)], every [step]-th code point
    from [first] to [last] going to itself plus [shift] (the simple
    upper-case mappings of Unicode 14.0). *)
Definition upper_runs : list (N * N * N * Z) :=
  [
   (97, 122, 1, (-32)%Z); (181, 181, 1, (743)%Z); (224, 246, 1, (-32)%Z);
   (248, 254, 1, (-32)%Z); (255, 255, 1, (121)%Z); (257, 303, 2, (-1)%Z);
   (305, 305, 1, (-232)%Z); (307, 311, 2, (-1)%Z); (314, 328, 2, (-1)%Z);
   (331, 375, 2, (-1)%Z); (378, 382, 2, (-1)%Z); (383, 383, 1, (-300)%Z);
   (384, 384, 1, (195)%Z); (387, 389, 2, (-1)%Z); (392, 392, 1, (-1)%Z);
   (396, 396, 1, (-1)%Z); (402, 402, 1, (-1)%Z); (405, 405, 1, (97)%Z);
   (409, 409, 1, (-1)%Z); (410, 410, 1, (163)%Z); (414, 414, 1, (130)%Z);
   (417, 421, 2, (-1)%Z); (424, 424, 1, (-1)%Z); (429, 429, 1, (-1)%Z);
   (432, 432, 1, (-1)%Z); (436, 438, 2, (-1)%Z); (441, 441, 1, (-1)%Z);
   (445, 445, 1, (-1)%Z); (447, 447, 1, (56)%Z); (453, 453, 1, (-1)%Z);
   (454, 454, 1, (-2)%Z); (456, 456, 1, (-1)%Z); (457, 457, 1, (-2)%Z);
   (459, 459, 1, (-1)%Z); (460, 460, 1, (-2)%Z); (462, 476, 2, (-1)%Z);
   (477, 477, 1, (-79)%Z); (479, 495, 2, (-1)%Z); (498, 498, 1, (-1)%Z);
   (499, 499, 1, (-2)%Z); (501, 501, 1, (-1)%Z); (505, 543, 2, (-1)%Z);
   (547, 563, 2, (-1)%Z); (572, 572, 1, (-1)%Z); (575, 576, 1, (10815)%Z);
   (578, 578, 1, (-1)%Z); (583, 591, 2, (-1)%Z); (592, 592, 1, (10783)%Z);
   (593, 593, 1, (10780)%Z); (594, 594, 1, (10782)%Z); (595, 595, 1, (-210)%Z);
   (596, 596, 1, (-206)%Z); (598, 599, 1, (-205)%Z); (601, 601, 1, (-202)%Z);
   (603, 603, 1, (-203)%Z); (604, 604, 1, (42319)%Z); (608, 608, 1, (-205)%Z);
   (609, 609, 1, (42315)%Z); (611, 611, 1, (-207)%Z); (613, 613, 1, (42280)%Z);
   (614, 614, 1, (42308)%Z); (616, 616, 1, (-209)%Z); (617, 617, 1, (-211)%Z);
   (618, 618, 1, (42308)%Z); (619, 619, 1, (10743)%Z); (620, 620, 1, (42305)%Z);
   (623, 623, 1, (-211)%Z); (625, 625, 1, (10749)%Z); (626, 626, 1, (-213)%Z);
   (629, 629, 1, (-214)%Z); (637, 637, 1, (10727)%Z); (640, 640, 1, (-218)%Z);
   (642, 642, 1, (42307)%Z); (643, 643, 1, (-218)%Z); (647, 647, 1, (42282)%Z);
   (648, 648, 1, (-218)%Z); (649, 649, 1, (-69)%Z); (650, 651, 1, (-217)%Z);
   (652, 652, 1, (-71)%Z); (658, 658, 1, (-219)%Z); (669, 669, 1, (42261)%Z);
   (670, 670, 1, (42258)%Z); (837, 837, 1, (84)%Z); (881, 883, 2, (-1)%Z);
   (887, 887, 1, (-1)%Z); (891, 893, 1, (130)%Z); (940, 940, 1, (-38)%Z);
   (941, 943, 1, (-37)%Z); (945, 961, 1, (-32)%Z); (962, 962, 1, (-31)%Z);
   (963, 971, 1, (-32)%Z); (972, 972, 1, (-64)%Z); (973, 974, 1, (-63)%Z);
   (976, 976, 1, (-62)%Z); (977, 977, 1, (-57)%Z); (981, 981, 1, (-47)%Z);
   (982, 982, 1, (-54)%Z); (983, 983, 1, (-8)%Z); (985, 1007, 2, (-1)%Z);
   (1008, 1008, 1, (-86)%Z); (1009, 1009, 1, (-80)%Z); (1010, 1010, 1, (7)%Z);
   (1011, 1011, 1, (-116)%Z); (1013, 1013, 1, (-96)%Z); (1016, 1016, 1, (-1)%Z);
   (1019, 1019, 1, (-1)%Z); (1072, 1103, 1, (-32)%Z); (1104, 1119, 1, (-80)%Z);
   (1121, 1153, 2, (-1)%Z); (1163, 1215, 2, (-1)%Z); (1218, 1230, 2, (-1)%Z);
   (1231, 1231, 1, (-15)%Z); (1233, 1327, 2, (-1)%Z); (1377, 1414, 1, (-48)%Z);
   (4304, 4346, 1, (3008)%Z); (4349, 4351, 1, (3008)%Z); (5112, 5117, 1, (-8)%Z);
   (7296, 7296, 1, (-6254)%Z); (7297, 7297, 1, (-6253)%Z); (7298, 7298, 1, (-6244)%Z);
   (7299, 7300, 1, (-6242)%Z); (7301, 7301, 1, (-6243)%Z); (7302, 7302, 1, (-6236)%Z);
   (7303, 7303, 1, (-6181)%Z); (7304, 7304, 1, (35266)%Z); (7545, 7545, 1, (35332)%Z);
   (7549, 7549, 1, (3814)%Z); (7566, 7566, 1, (35384)%Z); (7681, 7829, 2, (-1)%Z);
   (7835, 7835, 1, (-59)%Z); (7841, 7935, 2, (-1)%Z); (7936, 7943, 1, (8)%Z);
   (7952, 7957, 1, (8)%Z); (7968, 7975, 1, (8)%Z); (7984, 7991, 1, (8)%Z);
   (8000, 8005, 1, (8)%Z); (8017, 8023, 2, (8)%Z); (8032, 8039, 1, (8)%Z);
   (8048, 8049, 1, (74)%Z); (8050, 8053, 1, (86)%Z); (8054, 8055, 1, (100)%Z);
   (8056, 8057, 1, (128)%Z); (8058, 8059, 1, (112)%Z); (8060, 8061, 1, (126)%Z);
   (8112, 8113, 1, (8)%Z); (8126, 8126, 1, (-7205)%Z); (8144, 8145, 1, (8)%Z);
   (8160, 8161, 1, (8)%Z); (8165, 8165, 1, (7)%Z); (8526, 8526, 1, (-28)%Z);
   (8560, 8575, 1, (-16)%Z); (8580, 8580, 1, (-1)%Z); (9424, 9449, 1, (-26)%Z);
   (11312, 11359, 1, (-48)%Z); (11361, 11361, 1, (-1)%Z); (11365, 11365, 1, (-10795)%Z);
   (11366, 11366, 1, (-10792)%Z); (11368, 11372, 2, (-1)%Z); (11379, 11379, 1, (-1)%Z);
   (11382, 11382, 1, (-1)%Z); (11393, 11491, 2, (-1)%Z); (11500, 11502, 2, (-1)%Z);
   (11507, 11507, 1, (-1)%Z); (11520, 11557, 1, (-7264)%Z); (11559, 11559, 1, (-7264)%Z);
   (11565, 11565, 1, (-7264)%Z); (42561, 42605, 2, (-1)%Z); (42625, 42651, 2, (-1)%Z);
   (42787, 42799, 2, (-1)%Z); (42803, 42863, 2, (-1)%Z); (42874, 42876, 2, (-1)%Z);
   (42879, 42887, 2, (-1)%Z); (42892, 42892, 1, (-1)%Z); (42897, 42899, 2, (-1)%Z);
   (42900, 42900, 1, (48)%Z); (42903, 42921, 2, (-1)%Z); (42933, 42947, 2, (-1)%Z);
   (42952, 42954, 2, (-1)%Z); (42961, 42961, 1, (-1)%Z); (42967, 42969, 2, (-1)%Z);
   (42998, 42998, 1, (-1)%Z); (43859, 43859, 1, (-928)%Z); (43888, 43967, 1, (-38864)%Z);
   (65345, 65370, 1, (-32)%Z); (66600, 66639, 1, (-40)%Z); (66776, 66811, 1, (-40)%Z);
   (66967, 66977, 1, (-39)%Z); (66979, 66993, 1, (-39)%Z); (66995, 67001, 1, (-39)%Z);
   (67003, 67004, 1, (-39)%Z); (68800, 68850, 1, (-64)%Z); (71872, 71903, 1, (-32)%Z);
   (93792, 93823, 1, (-32)%Z); (125218, 125251, 1, (-34)%Z)
  ].

(** The code points whose upper case is several code points (Unicode
    SpecialCasing, the mappings that hold in every context and language). *)
Definition upper_special : list (N * list N) :=
  [
   (223, [83; 83]); (329, [700; 78]); (496, [74; 780]);
   (912, [921; 776; 769]); (944, [933; 776; 769]); (1415, [1333; 1362]);
   (7830, [72; 817]); (7831, [84; 776]); (7832, [87; 778]);
   (7833, [89; 778]); (7834, [65; 702]); (8016, [933; 787]);
   (8018, [933; 787; 768]); (8020, [933; 787; 769]); (8022, [933; 787; 834]);
   (8064, [7944; 921]); (8065, [7945; 921]); (8066, [7946; 921]);
   (8067, [7947; 921]); (8068, [7948; 921]); (8069, [7949; 921]);
   (8070, [7950; 921]); (8071, [7951; 921]); (8072, [7944; 921]);
   (8073, [7945; 921]); (8074, [7946; 921]); (8075, [7947; 921]);
   (8076, [7948; 921]); (8077, [7949; 921]); (8078, [7950; 921]);
   (8079, [7951; 921]); (8080, [7976; 921]); (8081, [7977; 921]);
   (8082, [7978; 921]); (8083, [7979; 921]); (8084, [7980; 921]);
   (8085, [7981; 921]); (8086, [7982; 921]); (8087, [7983; 921]);
   (8088, [7976; 921]); (8089, [7977; 921]); (8090, [7978; 921]);
   (8091, [7979; 921]); (8092, [7980; 921]); (8093, [7981; 921]);
   (8094, [7982; 921]); (8095, [7983; 921]); (8096, [8040; 921]);
   (8097, [8041; 921]); (8098, [8042; 921]); (8099, [8043; 921]);
   (8100, [8044; 921]); (8101, [8045; 921]); (8102, [8046; 921]);
   (8103, [8047; 921]); (8104, [8040; 921]); (8105, [8041; 921]);
   (8106, [8042; 921]); (8107, [8043; 921]); (8108, [8044; 921]);
   (8109, [8045; 921]); (8110, [8046; 921]); (8111, [8047; 921]);
   (8114, [8122; 921]); (8115, [913; 921]); (8116, [902; 921]);
   (8118, [913; 834]); (8119, [913; 834; 921]); (8124, [913; 921]);
   (8130, [8138; 921]); (8131, [919; 921]); (8132, [905; 921]);
   (8134, [919; 834]); (8135, [919; 834; 921]); (8140, [919; 921]);
   (8146, [921; 776; 768]); (8147, [921; 776; 769]); (8150, [921; 834]);
   (8151, [921; 776; 834]); (8162, [933; 776; 768]); (8163, [933; 776; 769]);
   (8164, [929; 787]); (8166, [933; 834]); (8167, [933; 776; 834]);
   (8178, [8186; 921]); (8179, [937; 921]); (8180, [911; 921]);
   (8182, [937; 834]); (8183, [937; 834; 921]); (8188, [937; 921]);
   (64256, [70; 70]); (64257, [70; 73]); (64258, [70; 76]);
   (64259, [70; 70; 73]); (64260, [70; 70; 76]); (64261, [83; 84]);
   (64262, [83; 84]); (64275, [1348; 1350]); (64276, [1348; 1333]);
   (64277, [1348; 1339]); (64278, [1358; 1350]); (64279, [1348; 1341])
  ].

Fixpoint find_special (cp : N) (l : list (N * list N)) : option (list N) :=
  match l with
  | [] => None
  | (k, v) :: l' => if k =? cp then Some v else find_special cp l'
  end.

Fixpoint find_run (cp : N) (l : list (N * N * N * Z)) : option N :=
  match l with
  | [] => None
  | (first, last, step, shift) :: l' =>
      if (first <=? cp) && (cp <=? last) && ((cp - first) mod step =? 0)
      then Some (Z.to_N (Z.of_N cp + shift))
      else find_run cp l'
  end.

(** The upper case of a code point, [None] when it is the code point
    itself. *)
Definition upper (cp : N) : option (list N) :=
  match find_special cp upper_special with
  | Some v => Some v
  | None => option_map (fun u => [u]) (find_run cp upper_runs)
  end.

End Unicode.


(* ================================================================== *)
(** * JavaScript values *)
(* ================================================================== *)

Module JS.

Unset Elimination Schemes.
Inductive json : Type :=
| JNull
| JBool (b : bool)
| JNum (n : Number.number)
| JStr (s : string)
| JArr (items : list json)
| JObj (props : list (string * json)).
Set Elimination Schemes.

(** Induction on values, through the elements of arrays and the values of
    properties. *)
Section JsonInduction.
Variable P : json -> Prop.
Hypothesis Hnull : P JNull.
Hypothesis Hbool : forall b, P (JBool b).
Hypothesis Hnum : forall n, P (JNum n).
Hypothesis Hstr : forall s, P (JStr s).
Hypothesis Harr : forall l, Forall P l -> P (JArr l).
Hypothesis Hobj : forall o, Forall (fun kv => P (snd kv)) o -> P (JObj o).

Fixpoint json_ind (v : json) : P v :=
  match v with
  | JNull => Hnull
  | JBool b => Hbool b
  | JNum n => Hnum n
  | JStr s => Hstr s
  | JArr l =>
      Harr l ((fix go (l : list json) : Forall P l :=
                 match l with
                 | [] => @List.Forall_nil _ P
                 | x :: l' => @List.Forall_cons _ P x l' (json_ind x) (go l')
                 end) l)
  | JObj o =>
      Hobj o ((fix go (o : list (string * json))
                 : Forall (fun kv => P (snd kv)) o :=
                 match o with
                 | [] => @List.Forall_nil _ _
                 | kv :: o' =>
                     @List.Forall_cons _ (fun kv => P (snd kv)) kv o'
                       (json_ind (snd kv)) (go o')
                 end) o)
  end.
End JsonInduction.

(** A value that may be [undefined]. *)
Definition jsval : Type := option json.

(** How an evaluation ends: with a value, with a [TypeError] (property
    access on [null] or [undefined], call of something that is not a
    function), or on a coercion this embedding does not cover (the numeric
    value of a string or of an array). *)
Inductive outcome (A : Type) : Type :=
| Done (a : A)
| Throws
| Unmodelled.
Arguments Done {A} a.
Arguments Throws {A}.
Arguments Unmodelled {A}.

Definition bind {A B} (m : outcome A) (f : A -> outcome B) : outcome B :=
  match m with
  | Done a => f a
  | Throws => Throws
  | Unmodelled => Unmodelled
  end.

Notation "'let!' x ':=' m 'in' k" := (bind m (fun x => k))
  (at level 10, x name, m at level 100, k at level 200).

Fixpoint mapM {A B} (f : A -> outcome B) (l : list A) : outcome (list B) :=
  match l with
  | [] => Done []
  | a :: l' => let! b := f a in let! bs := mapM f l' in Done (b :: bs)
  end.

(** ToBoolean. *)
Definition truthy (v : json) : bool :=
  match v with
  | JNull => false
  | JBool b => b
  | JNum n => negb (Number.eqb n Number.Zero)
  | JStr s => negb (s =? "")
  | JArr _ => true
  | JObj _ => true
  end.

Definition truthy_val (v : jsval) : bool :=
  match v with
  | Some x => truthy x
  | None => false
  end.

(** [a || b] and [a && b] on values. *)
Definition js_or (a b : jsval) : jsval := if truthy_val a then a else b.
Definition js_and (a b : jsval) : jsval := if truthy_val a then b else a.

(** Own property of an object, by name. *)
Fixpoint lookup_prop (k : string) (o : list (string * json)) : jsval :=
  match o with
  | [] => None
  | (k', v) :: o' => if (k' =? k) then Some v else lookup_prop k o'
  end.

(** The array index that a property name is: the decimal text, without
    leading zero, of an integer up to [2^32 - 2]. *)
Definition array_index (k : string) : option N :=
  let (u, r) := Number.read_uint k in
  match r with
  | EmptyString =>
      if Number.valid_int u && (N.of_uint u <=? 4294967294)%N
      then Some (N.of_uint u) else None
  | _ => None
  end.

(** [o[k] = v] where [k] is the array index [i]: an existing property
    keeps its place, a new one goes after the smaller indices. *)
Fixpoint set_index (i : N) (k : string) (v : json) (o : list (string * json))
  : list (string * json) :=
  match o with
  | [] => [(k, v)]
  | (k', v') :: o' =>
      if (k' =? k) then (k', v) :: o'
      else
        match array_index k' with
        | Some j =>
            if (j <? i)%N then (k', v') :: set_index i k v o'
            else (k, v) :: (k', v') :: o'
        | None => (k, v) :: (k', v') :: o'
        end
  end.

(** [o[k] = v] for any other name: an existing property keeps its place,
    a new one goes last. *)
Fixpoint set_named (k : string) (v : json) (o : list (string * json))
  : list (string * json) :=
  match o with
  | [] => [(k, v)]
  | (k', v') :: o' =>
      if (k' =? k) then (k', v) :: o' else (k', v') :: set_named k v o'
  end.

(** [o[k] = v] on an object. *)
Definition obj_set (k : string) (v : json) (o : list (string * json))
  : list (string * json) :=
  match array_index k with
  | Some i => set_index i k v o
  | None => set_named k v o
  end.

(** ** Strings *)

(** [s.length]: the number of code units. *)
Fixpoint length_from (fuel : nat) (s : string) : nat :=
  match fuel with
  | O => O
  | S fuel' =>
      match Unicode.next s with
      | Some (cp, _, r) =>
          (if (cp <? 65536)%N then 1 else 2) + length_from fuel' r
      | None =>
          match s with
          | String _ r => S (length_from fuel' r)
          | EmptyString => O
          end
      end
  end.

Definition utf16_length (s : string) : nat := length_from (String.length s) s.

Fixpoint upper_from (fuel : nat) (s : string) : string :=
  match fuel with
  | O => EmptyString
  | S fuel' =>
      match Unicode.next s with
      | Some (cp, bytes, r) =>
          match Unicode.upper cp with
          | Some l => Unicode.encode_all l +:+ upper_from fuel' r
          | None => bytes +:+ upper_from fuel' r
          end
      | None =>
          match s with
          | String c r => String c (upper_from fuel' r)
          | EmptyString => EmptyString
          end
      end
  end.

(** [s.toUpperCase()]: every code point goes to its upper case, in full
    (one code point may give several). *)
Definition toUpperCase (s : string) : string := upper_from (String.length s) s.

Fixpoint trimStart_from (fuel : nat) (s : string) : string :=
  match fuel with
  | O => s
  | S fuel' =>
      match Unicode.next s with
      | Some (cp, _, r) =>
          if Unicode.is_white cp then trimStart_from fuel' r else s
      | None => s
      end
  end.

Definition trimStart (s : string) : string := trimStart_from (String.length s) s.

(** [s] is one white-space code point. *)
Definition white_char (s : string) : bool :=
  match Unicode.next s with
  | Some (cp, _, EmptyString) => Unicode.is_white cp
  | _ => false
  end.

Fixpoint trimEnd (s : string) : string :=
  match s with
  | EmptyString => EmptyString
  | String c r =>
      let t := trimEnd r in
      if white_char (String c t) then EmptyString else String c t
  end.

(** [s.trim()]. *)
Definition trim (s : string) : string := trimEnd (trimStart s).

(** [s.substring(0, n)]: the first [n] code units; a code point of two
    code units cut in the middle leaves its first one, a lone
    surrogate. *)
Fixpoint substring0 (n : nat) (s : string) : string :=
  match n with
  | O => EmptyString
  | S n' =>
      match Unicode.next s with
      | Some (cp, bytes, r) =>
          if (cp <? 65536)%N then bytes +:+ substring0 n' r
          else
            match n' with
            | O => Unicode.encode (Unicode.high_surrogate cp)
            | S n'' => bytes +:+ substring0 n'' r
            end
      | None =>
          match s with
          | String c r => String c (substring0 n' r)
          | EmptyString => EmptyString
          end
      end
  end.

(** ** Property access and coercions *)

(** [v.k] for a data property name [k]: [null.k] throws; strings and
    arrays have a [length]; numbers and booleans have no data property. *)
Definition get (v : json) (k : string) : outcome jsval :=
  match v with
  | JNull => Throws
  | JObj o => Done (lookup_prop k o)
  | JArr l => if (k =? "length") then Done (Some (JNum (Number.of_nat (List.length l))))
              else Done None
  | JStr s => if (k =? "length") then Done (Some (JNum (Number.of_nat (utf16_length s))))
              else Done None
  | JBool _ | JNum _ => Done None
  end.

(** [v.k] where [v] itself may be [undefined]. *)
Definition get_val (v : jsval) (k : string) : outcome jsval :=
  match v with
  | Some x => get x k
  | None => Throws
  end.

(** [v?.k]: [undefined] when [v] is [null] or [undefined]. *)
Definition get_opt (v : jsval) (k : string) : outcome jsval :=
  match v with
  | None | Some JNull => Done None
  | Some x => get x k
  end.

(** [x > n] for an integer literal [n]: ToNumber of [undefined] is NaN,
    of [null] is 0, of a boolean 0 or 1. *)
Definition js_gt (x : jsval) (n : Z) : outcome bool :=
  match x with
  | None => Done false
  | Some JNull => Done (n <? 0)%Z
  | Some (JBool b) => Done (n <? (if b then 1 else 0))%Z
  | Some (JNum z) => Done (Number.ltb_Z n z)
  | Some (JObj _) => Done false
  | Some (JStr _) | Some (JArr _) => Unmodelled
  end.

(** [x === "lit"]. *)
Definition is_str (x : jsval) (lit : string) : bool :=
  match x with
  | Some (JStr s) => (s =? lit)
  | _ => false
  end.

Fixpoint join (sep : string) (l : list string) : string :=
  match l with
  | [] => ""
  | [x] => x
  | x :: l' => x +:+ sep +:+ join sep l'
  end.

(** ToString on a JSON value: an array joins its elements with a comma,
    [null] elements giving the empty string; an object gives
    ["[object Object]"]. *)
Fixpoint to_string (v : json) : string :=
  match v with
  | JNull => "null"
  | JBool true => "true"
  | JBool false => "false"
  | JNum n => Number.toString n
  | JStr s => s
  | JArr l =>
      join "," (List.map (fun x => match x with JNull => "" | _ => to_string x end) l)
  | JObj _ => "[object Object]"
  end.

Definition to_string_val (v : jsval) : string :=
  match v with
  | Some x => to_string x
  | None => "undefined"
  end.

(** [Array.prototype.join] on JSON elements. *)
Definition join_values (sep : string) (l : list json) : string :=
  join sep (List.map (fun x => match x with JNull => "" | _ => to_string x end) l).

End JS.
Export JS.


(* ================================================================== *)
(** * JSON text: [JSON.stringify] and [JSON.parse] *)
(* ================================================================== *)

Module JSON.

Definition dquote : ascii := ascii_of_nat 34.
Definition backslash : ascii := ascii_of_nat 92.

Definition hex_char (n : N) : ascii :=
  if (n <? 10)%N then ascii_of_N (48 + n) else ascii_of_N (87 + n).

(** The four hexadecimal digits of a code unit, in lower case. *)
Definition hex4_text (n : N) : string :=
  String (hex_char (n / 4096))
    (String (hex_char ((n / 256) mod 16))
      (String (hex_char ((n / 16) mod 16)) (String (hex_char (n mod 16)) ""))).

(** QuoteJSONString on one character below [U+0080]: the two-character
    escapes, [\u00XX] for the other control characters, the character
    itself otherwise. *)
Definition escape_char (c : ascii) : string :=
  let n := nat_of_ascii c in
  if (c =? dquote)%char then String backslash (String dquote "")
  else if (c =? backslash)%char then String backslash (String backslash "")
  else if (n =? 8)%nat then String backslash "b"
  else if (n =? 9)%nat then String backslash "t"
  else if (n =? 10)%nat then String backslash "n"
  else if (n =? 12)%nat then String backslash "f"
  else if (n =? 13)%nat then String backslash "r"
  else if (n <? 32)%nat then String backslash (String "u" (hex4_text (N.of_nat n)))
  else String c "".

(** The code unit of the surrogate that the three bytes are, when they
    are one. *)
Definition surrogate_unit (c c1 c2 : ascii) : option N :=
  if ((Unicode.byte c =? 237) && (160 <=? Unicode.byte c1)
      && (Unicode.byte c1 <=? 191) && Unicode.continuation c2)%N
  then Some (55296 + (Unicode.byte c1 - 160) * 64 + (Unicode.byte c2 - 128))%N
  else None.

(** QuoteJSONString on the characters of a string: a surrogate that
    stands alone is written as its [\uXXXX] escape, every other code
    point above [U+007F] as it is. *)
Fixpoint escape (s : string) : string :=
  match s with
  | EmptyString => EmptyString
  | String c r =>
      match r with
      | String c1 (String c2 r') =>
          match surrogate_unit c c1 c2 with
          | Some u => String backslash (String "u" (hex4_text u)) +:+ escape r'
          | None => escape_char c +:+ escape r
          end
      | _ => escape_char c +:+ escape r
      end
  end.

Definition quote (s : string) : string :=
  String dquote (escape s +:+ String dquote "").

(** What follows the first element of an array, and the first property of
    an object, [pr] printing the values. *)
Fixpoint elems_rest (pr : json -> string) (l : list json) : string :=
  match l with
  | [] => "]"
  | y :: l' => "," +:+ pr y +:+ elems_rest pr l'
  end.

Fixpoint members_rest (pr : json -> string) (o : list (string * json)) : string :=
  match o with
  | [] => "}"
  | (k, y) :: o' => "," +:+ quote k +:+ ":" +:+ pr y +:+ members_rest pr o'
  end.

(** [JSON.stringify] without indentation: no white space is produced,
    properties come in the object's own order, and a number that is not
    finite is written [null]. *)
Fixpoint stringify (v : json) : string :=
  match v with
  | JNull => "null"
  | JBool true => "true"
  | JBool false => "false"
  | JNum n => if Number.finite n then Number.toString n else "null"
  | JStr s => quote s
  | JArr [] => "[]"
  | JArr (x :: l) => "[" +:+ stringify x +:+ elems_rest stringify l
  | JObj [] => "{}"
  | JObj ((k, x) :: o) =>
      "{" +:+ quote k +:+ ":" +:+ stringify x +:+ members_rest stringify o
  end.

(** ** Values that JSON carries *)

(** A high surrogate with a low surrogate after it: the two would be one
    code point, held in four bytes. *)
Definition pair_at (s : string) : bool :=
  match s with
  | String a (String a1 (String a2 (String b (String b1 (String b2 _))))) =>
      match surrogate_unit a a1 a2, surrogate_unit b b1 b2 with
      | Some hi, Some lo =>
          Unicode.is_high_surrogate hi && Unicode.is_low_surrogate lo
      | _, _ => false
      end
  | _ => false
  end.

(** The bytes are those of a string: no surrogate pair is held as two
    surrogates. *)
Fixpoint well_formed (s : string) : bool :=
  match s with
  | EmptyString => true
  | String _ r => negb (pair_at s) && well_formed r
  end.

Definition is_index (k : string) : bool :=
  match array_index k with Some _ => true | None => false end.

(** The names in the engine's order: the array indices first, ascending,
    then the other names. *)
Fixpoint ordered (ks : list string) : bool :=
  match ks with
  | [] => true
  | k :: ks' =>
      match array_index k with
      | Some i =>
          forallb (fun k' => match array_index k' with
                             | Some j => (i <? j)%N
                             | None => true
                             end) ks'
      | None => forallb (fun k' => negb (is_index k')) ks'
      end && ordered ks'
  end.

(** The values that the engine holds and JSON carries unchanged: every
    number is a finite double, every string is well formed, no object
    has two properties of one name and the properties are in the
    engine's order. *)
Fixpoint serializable (v : json) : bool :=
  match v with
  | JNum n => Number.canonical n && Number.finite n
  | JStr s => well_formed s
  | JArr l => forallb serializable l
  | JObj o =>
      bool_decide (NoDup (List.map fst o))
      && ordered (List.map fst o)
      && forallb (fun kv => well_formed (fst kv) && serializable (snd kv)) o
  | _ => true
  end.

(** ** Reading *)

Definition is_ws (c : ascii) : bool :=
  let n := nat_of_ascii c in
  ((n =? 32) || (n =? 9) || (n =? 10) || (n =? 13))%nat.

Fixpoint skip_ws (s : string) : string :=
  match s with
  | EmptyString => EmptyString
  | String c r => if is_ws c then skip_ws r else s
  end.

Definition hex_val (c : ascii) : option N :=
  let n := Unicode.byte c in
  if ((48 <=? n) && (n <=? 57))%N then Some (n - 48)%N
  else if ((97 <=? n) && (n <=? 102))%N then Some (n - 87)%N
  else if ((65 <=? n) && (n <=? 70))%N then Some (n - 55)%N
  else None.

Definition hex4 (a b c d : ascii) : option N :=
  match hex_val a, hex_val b, hex_val c, hex_val d with
  | Some x, Some y, Some z, Some w => Some (((x * 16 + y) * 16 + z) * 16 + w)%N
  | _, _, _, _ => None
  end.

Definition unescape (c : ascii) : option ascii :=
  if (c =? dquote)%char then Some dquote
  else if (c =? backslash)%char then Some backslash
  else if (c =? "/")%char then Some "/"%char
  else if (c =? "b")%char then Some (ascii_of_nat 8)
  else if (c =? "f")%char then Some (ascii_of_nat 12)
  else if (c =? "n")%char then Some (ascii_of_nat 10)
  else if (c =? "r")%char then Some (ascii_of_nat 13)
  else if (c =? "t")%char then Some (ascii_of_nat 9)
  else None.

Definition cons_char (c : ascii) (p : string * string) : string * string :=
  (String c (fst p), snd p).

Definition cons_text (t : string) (p : string * string) : string * string :=
  (t +:+ fst p, snd p).

(** The characters of a string literal after its opening quote, up to and
    including the closing quote; the result is the string and the text
    that follows. The escape of a high surrogate and the escape of a low
    surrogate right after it give one code point. *)
Fixpoint parse_chars (s : string) : option (string * string) :=
  match s with
  | EmptyString => None
  | String c r =>
      if (c =? dquote)%char then Some (EmptyString, r)
      else if (c =? backslash)%char then
        match r with
        | String e r' =>
            if (e =? "u")%char then
              match r' with
              | String h1 (String h2 (String h3 (String h4 r''))) =>
                  match hex4 h1 h2 h3 h4 with
                  | Some n =>
                      let alone :=
                        option_map (cons_text (Unicode.encode n)) (parse_chars r'') in
                      if Unicode.is_high_surrogate n then
                        match r'' with
                        | String b r1 =>
                            if (b =? backslash)%char then
                              match r1 with
                              | String u r2 =>
                                  if (u =? "u")%char then
                                    match r2 with
                                    | String g1 (String g2 (String g3 (String g4 r3))) =>
                                        match hex4 g1 g2 g3 g4 with
                                        | Some lo =>
                                            if Unicode.is_low_surrogate lo then
                                              option_map
                                                (cons_text
                                                   (Unicode.encode
                                                      (Unicode.of_surrogates n lo)))
                                                (parse_chars r3)
                                            else alone
                                        | None => alone
                                        end
                                    | _ => alone
                                    end
                                  else alone
                              | EmptyString => alone
                              end
                            else alone
                        | EmptyString => alone
                        end
                      else alone
                  | None => None
                  end
              | _ => None
              end
            else
              match unescape e with
              | Some ch => option_map (cons_char ch) (parse_chars r')
              | None => None
              end
        | EmptyString => None
        end
      else if (nat_of_ascii c <? 32)%nat then None
      else option_map (cons_char c) (parse_chars r)
  end.

(** A number, by [Number.read]. *)
Definition parse_number (s : string) : option (json * string) :=
  match Number.read s with
  | Some (x, r) => Some (JNum x, r)
  | None => None
  end.

(** [s] without its prefix [lit], when it has it. *)
Fixpoint strip_prefix (lit s : string) : option string :=
  match lit with
  | EmptyString => Some s
  | String a lit' =>
      match s with
      | String b s' => if (a =? b)%char then strip_prefix lit' s' else None
      | EmptyString => None
      end
  end.

(** [s] without its first character, when that is [c]. *)
Definition starts_with (c : ascii) (s : string) : option string :=
  match s with
  | String c' r => if (c' =? c)%char then Some r else None
  | EmptyString => None
  end.

Fixpoint parse_value (fuel : nat) (s : string) {struct fuel}
  : option (json * string) :=
  match fuel with
  | O => None
  | S fuel' =>
      match s with
      | EmptyString => None
      | String c r =>
          if (c =? "[")%char then
            match starts_with "]" (skip_ws r) with
            | Some r' => Some (JArr [], r')
            | None =>
                match parse_elements fuel' (skip_ws r) with
                | Some (l, r') => Some (JArr l, r')
                | None => None
                end
            end
          else if (c =? "{")%char then
            match starts_with "}" (skip_ws r) with
            | Some r' => Some (JObj [], r')
            | None =>
                match parse_members fuel' (skip_ws r) [] with
                | Some (o, r') => Some (JObj o, r')
                | None => None
                end
            end
          else if (c =? dquote)%char then
            match parse_chars r with
            | Some (str, r') => Some (JStr str, r')
            | None => None
            end
          else if (c =? "n")%char then
            option_map (pair JNull) (strip_prefix "ull" r)
          else if (c =? "t")%char then
            option_map (pair (JBool true)) (strip_prefix "rue" r)
          else if (c =? "f")%char then
            option_map (pair (JBool false)) (strip_prefix "alse" r)
          else parse_number s
      end
  end
with parse_elements (fuel : nat) (s : string) {struct fuel}
  : option (list json * string) :=
  match fuel with
  | O => None
  | S fuel' =>
      match parse_value fuel' s with
      | Some (v, r) =>
          match skip_ws r with
          | String c r' =>
              if (c =? ",")%char then
                match parse_elements fuel' (skip_ws r') with
                | Some (l, r'') => Some (v :: l, r'')
                | None => None
                end
              else if (c =? "]")%char then Some ([v], r')
              else None
          | EmptyString => None
          end
      | None => None
      end
  end
with parse_members (fuel : nat) (s : string) (acc : list (string * json))
  {struct fuel} : option (list (string * json) * string) :=
  match fuel with
  | O => None
  | S fuel' =>
      match starts_with dquote s with
      | Some r =>
          match parse_chars r with
          | Some (k, r1) =>
              match starts_with ":" (skip_ws r1) with
              | Some r2 =>
                  match parse_value fuel' (skip_ws r2) with
                  | Some (v, r3) =>
                      match skip_ws r3 with
                      | String c r4 =>
                          if (c =? ",")%char then
                            parse_members fuel' (skip_ws r4) (obj_set k v acc)
                          else if (c =? "}")%char then
                            Some (obj_set k v acc, r4)
                          else None
                      | EmptyString => None
                      end
                  | None => None
                  end
              | None => None
              end
          | None => None
          end
      | None => None
      end
  end.

(** Number of nodes of a value: fuel enough to read its text back. *)
Fixpoint size (v : json) : nat :=
  match v with
  | JArr l => S (list_sum (List.map (fun x => S (size x)) l))
  | JObj o => S (list_sum (List.map (fun kv => S (size (snd kv))) o))
  | _ => 1
  end.

(** The first character of a printed value. *)
Definition value_head (c : ascii) : bool :=
  negb (is_ws c) && negb (c =? "]")%char && negb (c =? "}")%char.

(** [JSON.parse]: one value, white space around it, nothing else; a
    property given twice keeps its last value. [None] is the
    [SyntaxError]. *)
Definition parse (s : string) : option json :=
  match parse_value (S (String.length s)) (skip_ws s) with
  | Some (v, r) =>
      match skip_ws r with
      | EmptyString => Some v
      | _ => None
      end
  | None => None
  end.

(** ** Vocabulary of the round trip *)

(** The escape of a low surrogate at the head of the text. *)
Definition low_escape (r : string) : option (N * string) :=
  match r with
  | String b r1 =>
      if (b =? backslash)%char then
        match r1 with
        | String u r2 =>
            if (u =? "u")%char then
              match r2 with
              | String g1 (String g2 (String g3 (String g4 r3))) =>
                  match hex4 g1 g2 g3 g4 with
                  | Some lo =>
                      if Unicode.is_low_surrogate lo then Some (lo, r3) else None
                  | None => None
                  end
              | _ => None
              end
            else None
        | EmptyString => None
        end
      else None
  | EmptyString => None
  end.

(** The bytes of a low surrogate at the head of the string. *)
Definition low_at (s : string) : bool :=
  match s with
  | String c (String c1 (String c2 _)) =>
      match surrogate_unit c c1 c2 with
      | Some u => Unicode.is_low_surrogate u
      | None => false
      end
  | _ => false
  end.

(** The bytes, and the second and third bytes of the surrogates. *)
Definition bytes : list N := List.map N.of_nat (seq 0 256).

Definition surrogate_bytes : list (N * N) :=
  list_prod (List.map N.of_nat (seq 160 32)) (List.map N.of_nat (seq 128 64)).

(** The unit that four hexadecimal digits give. *)
Definition hex4_of_text (t : string) : option N :=
  match t with
  | String a (String b (String c (String d EmptyString))) => hex4 a b c d
  | _ => None
  end.

End JSON.


(* ================================================================== *)
(** * The browser: requests, responses, storage, effects *)
(* ================================================================== *)

Module Browser.

(** The [fetch] call of both pages: a POST of a JSON text. *)
Record request := {
  req_url : string;
  req_method : string;
  req_content_type : string;
  req_body : string
}.

(** What [response.json()] gives: the parsed body, or a rejection with
    the engine's message when the body is not JSON. *)
Inductive body_result :=
| JsonBody (v : json)
| JsonRejects (message : string).

(** What [await fetch(..)] gives: a rejection (network failure) with the
    engine's message, or a response with its [ok] flag. *)
Inductive fetch_result :=
| FetchRejects (message : string)
| FetchResponse (ok : bool) (body : body_result).

(** The back end as the pages see it. *)
Definition server := request -> fetch_result.

(** Effects of a handler, in the order they happen. *)
Inductive effect :=
| Fetch (r : request)
| SetItem (key value : string)
| RouterPush (path : string)
| ConsoleError (label : string)
| Alert (message : string).

Definition is_fetch (e : effect) : bool :=
  match e with Fetch _ => true | _ => false end.

(** The requests among the effects. *)
Fixpoint requests (t : list effect) : list request :=
  match t with
  | [] => []
  | Fetch r :: t' => r :: requests t'
  | _ :: t' => requests t'
  end.

(** [process.env.NEXT_PUBLIC_BACKEND_URL || "http://localhost:8000"]. *)
Definition backendUrl (env : option string) : string :=
  match env with
  | Some u => if (u =? "") then "http://localhost:8000" else u
  | None => "http://localhost:8000"
  end.

(** An object literal: [JSON.stringify] leaves out the properties whose
    value is [undefined]. *)
Fixpoint object_literal (fields : list (string * jsval)) : list (string * json) :=
  match fields with
  | [] => []
  | (k, Some v) :: fs => (k, v) :: object_literal fs
  | (_, None) :: fs => object_literal fs
  end.

Definition search_request (env : option string) (payload : list (string * jsval))
  : request :=
  {| req_url := backendUrl env +:+ "/search";
     req_method := "POST";
     req_content_type := "application/json";
     req_body := JSON.stringify (JObj (object_literal payload)) |}.

(** The key under which the envelope travels from one page to the other. *)
Definition storage_key : string := "searchResults".

End Browser.
Export Browser.

(* ================================================================== *)
(** * The search page, [src/frontend/pages/index.js] *)
(* ================================================================== *)

Module IndexJs.

Record HomeState := {
  name : string;
  searchType : string;
  loading : bool;
  error : string
}.

(** [useState] initial values. *)
Definition initial : HomeState :=
  {| name := ""; searchType := "person"; loading := false; error := "" |}.

Definition setName (v : string) (st : HomeState) : HomeState :=
  {| name := v; searchType := searchType st;
     loading := loading st; error := error st |}.

Definition setSearchType (v : string) (st : HomeState) : HomeState :=
  {| name := name st; searchType := v;
     loading := loading st; error := error st |}.

Definition validation_message : string :=
  "Introduceti un nume sau o entitate pentru cautare".

(** [err.message || "A aparut o eroare in timpul cautarii"]. *)
Definition shown_message (message : string) : string :=
  if (message =? "") then "A aparut o eroare in timpul cautarii" else message.

(** The message of [new Error(errData.detail || "Cautarea a esuat")], or
    the [TypeError] of reading [detail] on [null]. *)
Definition failure_message (type_error : string) (errData : json) : string :=
  match get errData "detail" with
  | Done d =>
      if truthy_val d then to_string_val d else "Cautarea a esuat"
  | _ => type_error
  end.

(** [handleSubmit]: the state after the handler has run to its end, the
    session storage, and the effects. [type_error] is the engine's message
    for a property read on [null]. *)
Definition handleSubmit (type_error : string) (env : option string)
    (backend : server) (st : HomeState) (storage : gmap string string)
  : HomeState * gmap string string * list effect :=
  if (trim (name st) =? "") then
    ({| name := name st; searchType := searchType st;
        loading := loading st; error := validation_message |},
     storage, [])
  else
    let req := search_request env
                 [("name", Some (JStr (trim (name st))));
                  ("search_type", Some (JStr (searchType st)))] in
    let failed (message : string) (t : list effect) :=
      ({| name := name st; searchType := searchType st;
          loading := false; error := shown_message message |},
       storage, t ++ [ConsoleError "Search error:"])%list in
    match backend req with
    | FetchRejects m => failed m [Fetch req]
    | FetchResponse false (JsonBody errData) =>
        failed (failure_message type_error errData) [Fetch req]
    | FetchResponse false (JsonRejects m) => failed m [Fetch req]
    | FetchResponse true (JsonRejects m) => failed m [Fetch req]
    | FetchResponse true (JsonBody data) =>
        ({| name := name st; searchType := searchType st;
            loading := false; error := "" |},
         <[storage_key := JSON.stringify data]> storage,
         [Fetch req; SetItem storage_key (JSON.stringify data);
          RouterPush "/results"])
    end.

End IndexJs.

(* ================================================================== *)
(** * The search page, revision [src/unnamed/part_000] *)
(* ================================================================== *)

(** The same page in the revision that upper-cases the name it sends, has
    its messages with diacritics and no [finally] clause. *)
Module Part000.

Record HomeState := {
  name : string;
  searchType : string;
  loading : bool;
  error : string
}.

Definition initial : HomeState :=
  {| name := ""; searchType := "person"; loading := false; error := "" |}.

Definition validation_message : string :=
  "Introduceți un nume sau o companie pentru căutare".

Definition shown_message (message : string) : string :=
  if (message =? "") then "A apărut o eroare în timpul căutării" else message.

Definition failure_message (type_error : string) (errData : json) : string :=
  match get errData "detail" with
  | Done d =>
      if truthy_val d then to_string_val d else "Căutarea a eșuat"
  | _ => type_error
  end.

Definition handleSubmit (type_error : string) (env : option string)
    (backend : server) (st : HomeState) (storage : gmap string string)
  : HomeState * gmap string string * list effect :=
  if (trim (name st) =? "") then
    ({| name := name st; searchType := searchType st;
        loading := loading st; error := validation_message |},
     storage, [])
  else
    let req := search_request env
                 [("name", Some (JStr (toUpperCase (trim (name st)))));
                  ("search_type", Some (JStr (searchType st)))] in
    let failed (message : string) (t : list effect) :=
      ({| name := name st; searchType := searchType st;
          loading := false; error := shown_message message |},
       storage, t ++ [ConsoleError "Search error:"])%list in
    match backend req with
    | FetchRejects m => failed m [Fetch req]
    | FetchResponse false (JsonBody errData) =>
        failed (failure_message type_error errData) [Fetch req]
    | FetchResponse false (JsonRejects m) => failed m [Fetch req]
    | FetchResponse true (JsonRejects m) => failed m [Fetch req]
    | FetchResponse true (JsonBody data) =>
        ({| name := name st; searchType := searchType st;
            loading := true; error := "" |},
         <[storage_key := JSON.stringify data]> storage,
         [Fetch req; SetItem storage_key (JSON.stringify data);
          RouterPush "/results"])
    end.

End Part000.

(* ================================================================== *)
(** * The results page, [src/frontend/pages/results.js] *)
(* ================================================================== *)

(** The component function [Results] of the current revision (the one
    with the person selection), its mount effect and its handlers. A view
    is the tree of elements the function returns, reduced to the parts
    that depend on the state; the values put in the tree are kept as they
    are, React turning them into text afterwards. *)
Module Results.

Record ResultsState := {
  results : json;
  loading : bool;
  showConfirmation : bool;
  selectedPerson : json;
  searching : bool
}.

(** [useState(null)], [useState(true)], [useState(false)],
    [useState(null)], [useState(false)]. *)
Definition initial : ResultsState :=
  {| results := JNull; loading := true; showConfirmation := false;
     selectedPerson := JNull; searching := false |}.

(** The effect run on mount. *)
Definition useEffect (storage : gmap string string) (st : ResultsState)
  : ResultsState * list effect :=
  let done (r : json) :=
    {| results := r; loading := false;
       showConfirmation := showConfirmation st;
       selectedPerson := selectedPerson st; searching := searching st |} in
  match storage !! storage_key with
  | Some stored =>
      if (stored =? "") then (done (results st), [RouterPush "/"])
      else
        match JSON.parse stored with
        | Some v => (done v, [])
        | None =>
            (done (results st),
             [ConsoleError "Failed to parse results:"; RouterPush "/"])
        end
  | None => (done (results st), [RouterPush "/"])
  end.

(** ** Helper functions *)

Definition getRiskBadgeClass (risk : jsval) : outcome string :=
  if negb (truthy_val risk) then Done "badge-low"
  else
    match risk with
    | Some (JStr s) =>
        let r := toUpperCase s in
        if (r =? "CRITICAL") || (r =? "CRITIC") then Done "badge-critical"
        else if (r =? "HIGH") || (r =? "RIDICAT") then Done "badge-high"
        else if (r =? "MEDIUM") || (r =? "MEDIU") then Done "badge-medium"
        else Done "badge-low"
    | _ => Throws
    end.

Definition getRiskLabel (risk : jsval) : outcome string :=
  if negb (truthy_val risk) then Done "SCĂZUT"
  else
    match risk with
    | Some (JStr s) =>
        let r := toUpperCase s in
        if (r =? "CRITICAL") then Done "CRITIC"
        else if (r =? "HIGH") then Done "RIDICAT"
        else if (r =? "MEDIUM") then Done "MEDIU"
        else if (r =? "LOW") then Done "SCĂZUT"
        else Done s
    | _ => Throws
    end.

(** The text shown when the envelope has no summary. *)
Definition fallback_summary : string := "Nu există analiza disponibilă.".

Definition getSearchTypeLabel (type : jsval) : string :=
  if is_str type "person" then "Persoană" else "Companie".

(** ** Handlers *)

Definition handlePersonSelect (person : json) (st : ResultsState) : ResultsState :=
  {| results := results st; loading := loading st;
     showConfirmation := true; selectedPerson := person;
     searching := searching st |}.

Definition handleCancelSearch (st : ResultsState) : ResultsState :=
  {| results := results st; loading := loading st;
     showConfirmation := false; selectedPerson := JNull;
     searching := searching st |}.

Definition setResults (r : json) (st : ResultsState) : ResultsState :=
  {| results := r; loading := loading st;
     showConfirmation := showConfirmation st;
     selectedPerson := selectedPerson st; searching := searching st |}.

(** [handleConfirmSearch], run to its end. *)
Definition handleConfirmSearch (env : option string) (backend : server)
    (st : ResultsState) (storage : gmap string string)
  : ResultsState * gmap string string * list effect :=
  if negb (truthy (selectedPerson st)) then (st, storage, [])
  else
    let failed (t : list effect) :=
      ({| results := results st; loading := loading st;
          showConfirmation := false; selectedPerson := selectedPerson st;
          searching := false |},
       storage,
       t ++ [ConsoleError "Search error:";
             Alert "A apărut o eroare în timpul căutării"])%list in
    match get (selectedPerson st) "name", get (results st) "search_type" with
    | Done person_name, Done search_type =>
        let req := search_request env
                     [("name", person_name); ("search_type", search_type)] in
        match backend req with
        | FetchResponse true (JsonBody data) =>
            ({| results := data; loading := loading st;
                showConfirmation := false;
                selectedPerson := selectedPerson st; searching := false |},
             <[storage_key := JSON.stringify data]> storage,
             [Fetch req; SetItem storage_key (JSON.stringify data)])
        | _ => failed [Fetch req]
        end
    | _, _ => failed []
    end.

(** ** Views *)

(** The child [x && <element/>]: the element, or the falsy [x]. *)
Inductive guarded (A : Type) : Type :=
| Shown (a : A)
| Hidden (v : jsval).
Arguments Shown {A} a.
Arguments Hidden {A} v.

Definition guard {A} (x : jsval) (a : A) : guarded A :=
  if truthy_val x then Shown a else Hidden x.

(** An item of the list of the EU card. *)
Inductive eu_item :=
| EuPerson (name : jsval)
| EuRegime (title : jsval) (specification : guarded string)
    (country : guarded jsval) (measures : guarded string).

(** An item of the list of the UN card. *)
Record un_item := {
  un_name : jsval;
  un_reference : guarded jsval;
  un_listed_on : guarded jsval
}.

(** The card of one source: the [found] flag as shown (card class, badge
    class, badge text) and the list of matches, [None] for the "no match"
    text. *)
Record source_card (I : Type) := {
  card_class : string;
  badge_class : string;
  badge_text : string;
  card_items : option (list I)
}.
Arguments card_class {I} _.
Arguments badge_class {I} _.
Arguments badge_text {I} _.
Arguments card_items {I} _.

Record final_view := {
  fv_query : jsval;
  fv_description : string;
  fv_page_class : string;
  fv_risk_badge : string;
  fv_risk_label : string;
  fv_type_label : string;
  fv_banner : guarded unit;
  fv_summary_class : string;
  fv_summary : jsval;
  fv_eu : source_card eu_item;
  fv_un : source_card un_item;
  fv_eu_evidence : guarded jsval;
  fv_un_evidence : guarded jsval;
  fv_audit_folder : guarded jsval
}.

Record selection_view := {
  sv_query : jsval;
  sv_count : nat;
  sv_persons : list (jsval * json);
  sv_modal : guarded jsval;
  sv_overlay : guarded jsval
}.

Inductive view :=
| Spinner
| PersonSelection (v : selection_view)
| FinalResults (v : final_view).

(** An array method ([filter], [map] after [slice]) called on [v]: a
    [TypeError] unless [v] is an array. *)
Definition as_array (v : jsval) : outcome (list json) :=
  match v with
  | Some (JArr l) => Done l
  | _ => Throws
  end.

(** [(m) => m.type === "person_match"]. *)
Definition is_person_match (m : json) : outcome bool :=
  let! t := get m "type" in Done (is_str t "person_match").

(** [l.filter(f)]. *)
Fixpoint filterM (f : json -> outcome bool) (l : list json) : outcome (list json) :=
  match l with
  | [] => Done []
  | x :: l' =>
      let! b := f x in
      let! r := filterM f l' in
      Done (if b then x :: r else r)
  end.

(** [v?.filter((m) => m.type === "person_match")], [None] for the
    [undefined] of the short-circuit. *)
Definition person_matches (v : jsval) : outcome (option (list json)) :=
  match v with
  | None | Some JNull => Done None
  | _ => let! l := as_array v in
         let! r := filterM is_person_match l in Done (Some r)
  end.

(** [results && !results.eu_found && !results.un_found &&
     results.eu_matches?.filter(..).length > 1], as a boolean. *)
Definition shouldShowPersonSelection (r : json) : outcome bool :=
  if negb (truthy r) then Done false
  else
    let! eu_found := get r "eu_found" in
    if truthy_val eu_found then Done false
    else
      let! un_found := get r "un_found" in
      if truthy_val un_found then Done false
      else
        let! eu_matches := get r "eu_matches" in
        let! persons := person_matches eu_matches in
        match persons with
        | None => Done false
        | Some l => Done (1 <? List.length l)%nat
        end.

(** [results && (results.eu_found || results.un_found)]. *)
Definition isHighRisk (r : json) : outcome jsval :=
  if negb (truthy r) then Done (Some r)
  else
    let! eu_found := get r "eu_found" in
    let! un_found := get r "un_found" in
    Done (js_or eu_found un_found).

(** [x?.length > 0]. *)
Definition nonempty (x : jsval) : outcome bool :=
  let! len := get_opt x "length" in js_gt len 0.

Definition render_eu_item (m : json) : outcome eu_item :=
  let! type := get m "type" in
  if is_str type "person_match" then
    let! n := get m "name" in Done (EuPerson n)
  else
    let! acronym := get m "acronym" in
    let! specification := get m "specification" in
    let! spec :=
      (if truthy_val specification then
         match specification with
         | Some (JStr s) => Done (Shown (substring0 100 s))
         | _ => Throws
         end
       else Done (Hidden specification)) in
    let! country := get m "country" in
    let! measures := get m "measures" in
    let! has_measures := nonempty measures in
    let! shown_measures :=
      (if has_measures then
         let! l := as_array measures in
         Done (Shown (join_values ", " (List.filter truthy l)))
       else Done (Hidden (Some (JBool false)))) in
    Done (EuRegime (js_or acronym (Some (JStr "Regim"))) spec
            (guard country country) shown_measures).

Definition render_un_item (m : json) : outcome un_item :=
  let! n := get m "name" in
  let! reference_number := get m "reference_number" in
  let! listed_on := get m "listed_on" in
  Done {| un_name := js_or n (Some (JStr "Necunoscut"));
          un_reference := guard reference_number reference_number;
          un_listed_on := guard listed_on listed_on |}.

(** The card of a source: [found && matches?.length > 0 ?
    matches.slice(0, 5).map(item) : "no match"]. *)
Definition render_card {I} (item : json -> outcome I) (found matches : jsval)
  : outcome (source_card I) :=
  let! items :=
    (if truthy_val found then
       let! filled := nonempty matches in
       if filled then
         let! l := as_array matches in
         let! shown := mapM item (firstn 5 l) in Done (Some shown)
       else Done None
     else Done None) in
  Done {| card_class := if truthy_val found then "result-card-danger" else "";
          badge_class := if truthy_val found then "badge-high" else "badge-low";
          badge_text := if truthy_val found then "GĂSIT" else "NEGĂSIT";
          card_items := items |}.

Definition render_final (r : json) : outcome final_view :=
  let! query := get r "query" in
  let! high := isHighRisk r in
  let! risk_score := get r "risk_score" in
  let! badge := getRiskBadgeClass risk_score in
  let! label := getRiskLabel risk_score in
  let! search_type := get r "search_type" in
  let! ai_summary := get r "ai_summary" in
  let! eu_found := get r "eu_found" in
  let! eu_matches := get r "eu_matches" in
  let! eu := render_card render_eu_item eu_found eu_matches in
  let! un_found := get r "un_found" in
  let! un_matches := get r "un_matches" in
  let! un := render_card render_un_item un_found un_matches in
  let! evidence_urls := get r "evidence_urls" in
  let! eu_evidence := get_opt evidence_urls "eu_evidence" in
  let! un_evidence := get_opt evidence_urls "un_evidence" in
  let! audit_folder := get r "audit_folder" in
  Done {| fv_query := query;
          fv_description := "Rezultatele verificării pentru " +:+ to_string_val query;
          fv_page_class := if truthy_val high then "high-risk-page" else "";
          fv_risk_badge := badge;
          fv_risk_label := label;
          fv_type_label := getSearchTypeLabel search_type;
          fv_banner := guard high tt;
          fv_summary_class := if truthy_val high then "summary-card-warning" else "";
          fv_summary := js_or ai_summary (Some (JStr fallback_summary));
          fv_eu := eu;
          fv_un := un;
          fv_eu_evidence := guard eu_evidence eu_evidence;
          fv_un_evidence := guard un_evidence un_evidence;
          fv_audit_folder := guard audit_folder audit_folder |}.

Definition render_person (p : json) : outcome (jsval * json) :=
  let! n := get p "name" in Done (n, p).

Definition render_selection (st : ResultsState) : outcome selection_view :=
  let r := results st in
  let! eu_matches := get r "eu_matches" in
  let! l := as_array eu_matches in
  let! personMatches := filterM is_person_match l in
  let! query := get r "query" in
  let! persons := mapM render_person personMatches in
  let! modal :=
    (if showConfirmation st then
       if truthy (selectedPerson st) then
         let! n := get (selectedPerson st) "name" in Done (Shown n)
       else Done (Hidden (Some (selectedPerson st)))
     else Done (Hidden (Some (JBool false)))) in
  let! overlay :=
    (if searching st then
       let! n := get_opt (Some (selectedPerson st)) "name" in Done (Shown n)
     else Done (Hidden (Some (JBool false)))) in
  Done {| sv_query := query;
          sv_count := List.length personMatches;
          sv_persons := persons;
          sv_modal := modal;
          sv_overlay := overlay |}.

(** The component function. *)
Definition render (st : ResultsState) : outcome view :=
  if loading st || negb (truthy (results st)) then Done Spinner
  else
    let! selection := shouldShowPersonSelection (results st) in
    let! high := isHighRisk (results st) in
    if selection then
      let! v := render_selection st in Done (PersonSelection v)
    else
      let! v := render_final (results st) in Done (FinalResults v).

(** Envelopes with the fields typed as the page uses them: the match
    lists are absent, [null] or arrays of objects, a regime's
    [specification] is absent, [null] or a string and its [measures]
    absent, [null] or an array, the risk score is absent, [null] or a
    string. *)
Definition absent_or (p : json -> bool) (v : jsval) : bool :=
  match v with
  | None | Some JNull => true
  | Some x => p x
  end.

Definition is_string (v : json) : bool :=
  match v with JStr _ => true | _ => false end.

Definition is_array (v : json) : bool :=
  match v with JArr _ => true | _ => false end.

Definition well_formed_match (m : json) : bool :=
  match m with
  | JObj o =>
      absent_or is_string (lookup_prop "specification" o)
      && absent_or is_array (lookup_prop "measures" o)
  | _ => false
  end.

Definition array_of (p : json -> bool) (v : json) : bool :=
  match v with
  | JArr l => forallb p l
  | _ => false
  end.

Definition well_formed (r : json) : bool :=
  match r with
  | JObj o =>
      absent_or (array_of well_formed_match) (lookup_prop "eu_matches" o)
      && absent_or (array_of well_formed_match) (lookup_prop "un_matches" o)
      && absent_or is_string (lookup_prop "risk_score" o)
  | _ => false
  end.

End Results.

(* ================================================================== *)
(** * Vocabulary of the statements *)
(* ================================================================== *)

Module Envelope.

(** The data property [k] of an envelope. *)
Definition field (r : json) (k : string) : jsval :=
  match r with
  | JObj o => lookup_prop k o
  | _ => None
  end.

(** The element of a match list is a person candidate. *)
Definition is_person (m : json) : bool :=
  is_str (field m "type") "person_match".

(** The properties of the envelope that [results.js] reads. *)
Definition read_keys : list string :=
  ["query"; "search_type"; "eu_found"; "un_found"; "eu_matches";
   "un_matches"; "risk_score"; "ai_summary"; "evidence_urls";
   "audit_folder"].

(** The results page showing the envelope [r], once the mount effect has
    run and with no selection under way. *)
Definition showing (r : json) : Results.ResultsState :=
  {| Results.results := r; Results.loading := false;
     Results.showConfirmation := false; Results.selectedPerson := JNull;
     Results.searching := false |}.

(** Neither source reports a match and the live (EU) source lists more
    than one person candidate. *)
Definition selection_condition (r : json) : Prop :=
  truthy_val (field r "eu_found") = false
  /\ truthy_val (field r "un_found") = false
  /\ exists l, field r "eu_matches" = Some (JArr l)
               /\ 1 < List.length (List.filter is_person l).


Definition person_match (n : string) : json :=
  JObj [("type", JStr "person_match"); ("name", JStr n)].

(** An envelope with three person candidates and no match reported. *)
Definition candidates_envelope : json :=
  JObj [("query", JStr "ION POPESCU"); ("search_type", JStr "person");
        ("eu_found", JBool false); ("un_found", JBool false);
        ("eu_matches",
         JArr [person_match "Ion POPESCU"; person_match "Ion Popescu-Negru";
               person_match "Ioan POPESCU"]);
        ("un_matches", JArr [])].

End Envelope.
Export Envelope.

(* ================================================================== *)
(** * Concrete searches *)
(* ================================================================== *)

Module Scenario.

(** A regime match of the live (EU) source, under the property names
    that [results.js] reads. *)
Definition regime_match (acronym specification country : string)
    (measures : list string) : json :=
  JObj [("type", JStr "regime_match"); ("acronym", JStr acronym);
        ("specification", JStr specification); ("country", JStr country);
        ("measures", JArr (List.map JStr measures))].


(** The envelope of the search for "ACME HOLDINGS": no match in the list
    (UN) source, one regime match from the live (EU) source. The
    property [score], which the page does not read, holds a number that
    is no integer. *)
Definition acme_envelope : json :=
  JObj [("query", JStr "ACME HOLDINGS");
        ("search_type", JStr "entity");
        ("eu_found", JBool true);
        ("un_found", JBool false);
        ("eu_matches",
         JArr [regime_match "XYZ" "Restrictive measures" "Freedonia"
                 ["asset freeze"; "travel ban"]]);
        ("un_matches", JArr []);
        ("risk_score", JStr "HIGH");
        ("score", JNum (Number.of_decimal false 85 (-2)));
        ("ai_summary",
         JStr "ACME HOLDINGS: match found in the EU sanctions map.")].



(** An envelope without risk score and without summary. *)
Definition bare_envelope : json :=
  JObj [("query", JStr "ACME HOLDINGS"); ("search_type", JStr "entity");
        ("eu_found", JBool false); ("un_found", JBool false)].

End Scenario.

(* ================================================================== *)
(** * The search form, [Home] of [index.js] and of [part_000] *)
(* ================================================================== *)

(** The form the component function [Home] returns, in
    [src/frontend/pages/index.js]: the controlled input and select, the
    error box [error && <div>{error}</div>], the submit button and the
    note shown while the search runs. *)
Module IndexJsView.
Import IndexJs.

Record form_view := {
  input_value : string;
  input_disabled : bool;
  select_value : string;
  select_disabled : bool;
  error_box : Results.guarded string;
  button_disabled : bool;
  button_spinner : bool;
  button_label : string;
  loading_note : bool
}.

Definition render (st : HomeState) : form_view :=
  {| input_value := name st;
     input_disabled := loading st;
     select_value := searchType st;
     select_disabled := loading st;
     error_box := Results.guard (Some (JStr (error st))) (error st);
     button_disabled := loading st;
     button_spinner := loading st;
     button_label := if loading st then "Se verifica..." else "Incepe Verificarea";
     loading_note := loading st |}.

(** The state while [handleSubmit] awaits the answer: after
    [setLoading(true); setError("")], when the name passed the check. *)
Definition pending (st : HomeState) : option HomeState :=
  if (trim (name st) =? "") then None
  else Some {| name := name st; searchType := searchType st;
               loading := true; error := "" |}.

End IndexJsView.

(** The same in [src/unnamed/part_000], which adds an overlay while the
    search runs. *)
Module Part000View.
Import Part000.

Record form_view := {
  input_value : string;
  input_disabled : bool;
  select_value : string;
  select_disabled : bool;
  error_box : Results.guarded string;
  button_disabled : bool;
  button_spinner : bool;
  button_label : string;
  loading_note : bool;
  loading_overlay : bool
}.

Definition setName (v : string) (st : HomeState) : HomeState :=
  {| name := v; searchType := searchType st;
     loading := loading st; error := error st |}.

Definition setSearchType (v : string) (st : HomeState) : HomeState :=
  {| name := name st; searchType := v;
     loading := loading st; error := error st |}.

Definition render (st : HomeState) : form_view :=
  {| input_value := name st;
     input_disabled := loading st;
     select_value := searchType st;
     select_disabled := loading st;
     error_box := Results.guard (Some (JStr (error st))) (error st);
     button_disabled := loading st;
     button_spinner := loading st;
     button_label := if loading st then "Se verifică..." else "Începe verificarea";
     loading_note := loading st;
     loading_overlay := loading st |}.

Definition pending (st : HomeState) : option HomeState :=
  if (trim (name st) =? "") then None
  else Some {| name := name st; searchType := searchType st;
               loading := true; error := "" |}.

End Part000View.

(* ================================================================== *)
(** * Vocabulary of the further properties *)
(* ================================================================== *)

Module Text.

(** Every code point of [s] is white space. *)
Fixpoint all_space_from (fuel : nat) (s : string) : bool :=
  match fuel with
  | O => match s with EmptyString => true | _ => false end
  | S fuel' =>
      match s with
      | EmptyString => true
      | _ =>
          match Unicode.next s with
          | Some (cp, _, r) => Unicode.is_white cp && all_space_from fuel' r
          | None => false
          end
      end
  end.

Definition all_space (s : string) : bool := all_space_from (String.length s) s.

(** Every byte of [s] belongs to a code point. *)
Fixpoint valid_from (fuel : nat) (s : string) : bool :=
  match s with
  | EmptyString => true
  | _ =>
      match fuel with
      | O => false
      | S fuel' =>
          match Unicode.next s with
          | Some (_, _, r) => valid_from fuel' r
          | None => false
          end
      end
  end.

Definition valid (s : string) : bool := valid_from (String.length s) s.

(** The first code units of the code points above [U+FFFF]. *)
Definition high_surrogates : list N :=
  List.map (fun i => (55296 + N.of_nat i)%N) (seq 0 1024).

(** [s] begins with a white-space code point. *)
Definition starts_white (s : string) : bool :=
  match Unicode.next s with
  | Some (cp, _, _) => Unicode.is_white cp
  | None => false
  end.

(** [p] is the beginning of [s]. *)
Fixpoint is_prefix (p s : string) : bool :=
  match p, s with
  | EmptyString, _ => true
  | String a p', String b s' => (a =? b)%char && is_prefix p' s'
  | String _ _, EmptyString => false
  end.


(** The effects that leave a trace outside the page: stored text and
    navigation. *)
Definition is_store_or_push (e : effect) : bool :=
  match e with
  | SetItem _ _ | RouterPush _ => true
  | _ => false
  end.

Definition is_alert (e : effect) : bool :=
  match e with Alert _ => true | _ => false end.

(** The property is missing or [null]. *)
Definition absent (v : jsval) : bool :=
  match v with
  | None | Some JNull => true
  | _ => false
  end.

(** The properties of the envelope that the final view guards or
    defaults. *)
Definition optional_keys : list string :=
  ["risk_score"; "ai_summary"; "eu_matches"; "un_matches"; "evidence_urls";
   "audit_folder"].

End Text.
Export Text.

(* ================================================================== *)
(** * The results page while the follow-up search runs *)
(* ================================================================== *)

Module ResultsWait.
Import Results.

(** The state while [handleConfirmSearch] awaits the answer: after
    [setShowConfirmation(false); setSearching(true)], when a person is
    selected. *)
Definition awaiting (st : ResultsState) : option ResultsState :=
  if negb (truthy (selectedPerson st)) then None
  else Some {| results := results st; loading := loading st;
               showConfirmation := false;
               selectedPerson := selectedPerson st; searching := true |}.

End ResultsWait.
Export ResultsWait.

(* ================================================================== *)
(** * The results page before the person selection,
      [src/frontend/pages/results.js], second revision *)
(* ================================================================== *)

(** The second of the three revisions of [results.js]: the page without
    the person selection and without the warning styling. Its helper
    functions ([getRiskBadgeClass], [getRiskLabel], [getSearchTypeLabel])
    and the items of its two lists are, character for character, those
    of the third revision, modelled in [Results]. *)
Module ResultsRev2.

Record ResultsState := {
  results : json;
  loading : bool
}.

(** [useState(null)], [useState(true)]. *)
Definition initial : ResultsState := {| results := JNull; loading := true |}.

(** The effect run on mount. *)
Definition useEffect (storage : gmap string string) (st : ResultsState)
  : ResultsState * list effect :=
  let done (r : json) := {| results := r; loading := false |} in
  match storage !! storage_key with
  | Some stored =>
      if (stored =? "") then (done (results st), [RouterPush "/"])
      else
        match JSON.parse stored with
        | Some v => (done v, [])
        | None =>
            (done (results st),
             [ConsoleError "Failed to parse results:"; RouterPush "/"])
        end
  | None => (done (results st), [RouterPush "/"])
  end.

(** The card of one source: the badge of the [found] flag and the list of
    matches, [None] for the "no match" text. *)
Record source_card (I : Type) := {
  badge_class : string;
  badge_text : string;
  card_items : option (list I)
}.
Arguments badge_class {I} _.
Arguments badge_text {I} _.
Arguments card_items {I} _.

Record final_view := {
  fv_query : jsval;
  fv_description : string;
  fv_risk_badge : string;
  fv_risk_label : string;
  fv_type_label : string;
  fv_summary : jsval;
  fv_eu : source_card Results.eu_item;
  fv_un : source_card Results.un_item;
  fv_eu_evidence : Results.guarded jsval;
  fv_un_evidence : Results.guarded jsval;
  fv_audit_folder : Results.guarded jsval
}.

Inductive view :=
| Spinner
| FinalResults (v : final_view).

(** [found && matches?.length > 0 ? matches.slice(0, 5).map(item) :
    "no match"]. *)
Definition render_card {I} (item : json -> outcome I) (found matches : jsval)
  : outcome (source_card I) :=
  let! items :=
    (if truthy_val found then
       let! filled := Results.nonempty matches in
       if filled then
         let! l := Results.as_array matches in
         let! shown := mapM item (firstn 5 l) in Done (Some shown)
       else Done None
     else Done None) in
  Done {| badge_class := if truthy_val found then "badge-high" else "badge-low";
          badge_text := if truthy_val found then "GĂSIT" else "NEGĂSIT";
          card_items := items |}.

Definition render_final (r : json) : outcome final_view :=
  let! query := get r "query" in
  let! risk_score := get r "risk_score" in
  let! badge := Results.getRiskBadgeClass risk_score in
  let! label := Results.getRiskLabel risk_score in
  let! search_type := get r "search_type" in
  let! ai_summary := get r "ai_summary" in
  let! eu_found := get r "eu_found" in
  let! eu_matches := get r "eu_matches" in
  let! eu := render_card Results.render_eu_item eu_found eu_matches in
  let! un_found := get r "un_found" in
  let! un_matches := get r "un_matches" in
  let! un := render_card Results.render_un_item un_found un_matches in
  let! evidence_urls := get r "evidence_urls" in
  let! eu_evidence := get_opt evidence_urls "eu_evidence" in
  let! un_evidence := get_opt evidence_urls "un_evidence" in
  let! audit_folder := get r "audit_folder" in
  Done {| fv_query := query;
          fv_description := "Rezultatele verificării pentru " +:+ to_string_val query;
          fv_risk_badge := badge;
          fv_risk_label := label;
          fv_type_label := Results.getSearchTypeLabel search_type;
          fv_summary := js_or ai_summary (Some (JStr Results.fallback_summary));
          fv_eu := eu;
          fv_un := un;
          fv_eu_evidence := Results.guard eu_evidence eu_evidence;
          fv_un_evidence := Results.guard un_evidence un_evidence;
          fv_audit_folder := Results.guard audit_folder audit_folder |}.

(** The component function. *)
Definition render (st : ResultsState) : outcome view :=
  if loading st || negb (truthy (results st)) then Done Spinner
  else let! v := render_final (results st) in Done (FinalResults v).

(** The state of this revision that holds what a state of the third
    one holds. *)
Definition of_state (st : Results.ResultsState) : ResultsState :=
  {| results := Results.results st; loading := Results.loading st |}.

(** The final view of the third revision without its warning styling. *)
Definition plain_card {I} (c : Results.source_card I) : source_card I :=
  {| badge_class := Results.badge_class c;
     badge_text := Results.badge_text c;
     card_items := Results.card_items c |}.

Definition plain (v : Results.final_view) : final_view :=
  {| fv_query := Results.fv_query v;
     fv_description := Results.fv_description v;
     fv_risk_badge := Results.fv_risk_badge v;
     fv_risk_label := Results.fv_risk_label v;
     fv_type_label := Results.fv_type_label v;
     fv_summary := Results.fv_summary v;
     fv_eu := plain_card (Results.fv_eu v);
     fv_un := plain_card (Results.fv_un v);
     fv_eu_evidence := Results.fv_eu_evidence v;
     fv_un_evidence := Results.fv_un_evidence v;
     fv_audit_folder := Results.fv_audit_folder v |}.

End ResultsRev2.

(* ================================================================== *)
(** * Properties of the texts of numbers *)
(* ================================================================== *)

Module TextFacts.

Lemma append_cons (c : ascii) (a b : string) :
  String c a +:+ b = String c (a +:+ b).
Proof. reflexivity. Qed.

Lemma append_nil_l (b : string) : "" +:+ b = b.
Proof. reflexivity. Qed.

Ltac norm_app := repeat (rewrite append_cons || rewrite append_nil_l).

Lemma append_assoc (a b c : string) : (a +:+ b) +:+ c = a +:+ (b +:+ c).
Proof. induction a as [|x a IH]; norm_app; [reflexivity | now rewrite IH]. Qed.

Ltac norm_str :=
  repeat (rewrite append_cons || rewrite append_nil_l || rewrite append_assoc).

Lemma append_empty_r (a : string) : a +:+ "" = a.
Proof. induction a as [|x a IH]; norm_app; [reflexivity | now rewrite IH]. Qed.

Lemma length_append (a b : string) :
  String.length (a +:+ b) = String.length a + String.length b.
Proof. induction a as [|x a IH]; norm_app; simpl; [reflexivity | now rewrite IH]. Qed.

End TextFacts.

Module NumberFacts.
Import Number TextFacts.

Lemma eqb_eq (x y : number) : eqb x y = true -> x = y.
Proof.
  destruct x as [|n m e|n], y as [|n' m' e'|n']; simpl; try discriminate;
    try reflexivity.
  - intros H. apply andb_true_iff in H as [H He].
    apply andb_true_iff in H as [Hn Hm].
    apply Bool.eqb_prop in Hn. apply Pos.eqb_eq in Hm. apply Z.eqb_eq in He.
    congruence.
  - intros H. apply Bool.eqb_prop in H. congruence.
Qed.

(** ** Reading a text that something follows *)

Lemma read_uint_end (b : string) :
  number_end b = true -> read_uint b = (Decimal.Nil, b).
Proof.
  destruct b as [|c b]; [reflexivity|]. simpl.
  destruct (digit_of_char c); [discriminate | reflexivity].
Qed.

Lemma read_uint_app (a b : string) (u : Decimal.uint) (r : string) :
  read_uint a = (u, r) ->
  (r = "" -> read_uint b = (Decimal.Nil, b)) ->
  read_uint (a +:+ b) = (u, r +:+ b).
Proof.
  revert u r. induction a as [|c a IH]; intros u r H Hb.
  - injection H as <- <-. norm_app. now apply Hb.
  - rewrite append_cons. simpl in *.
    destruct (digit_of_char c) as [d|].
    + destruct (read_uint a) as [u' r'] eqn:E. injection H as <- <-.
      now rewrite (IH u' r' eq_refl Hb).
    + injection H as <- <-. reflexivity.
Qed.

Lemma read_fraction_app (a b : string) (f : Decimal.uint) (r : string) :
  read_fraction a = Some (f, r) ->
  number_end b = true ->
  read_fraction (a +:+ b) = Some (f, r +:+ b).
Proof.
  intros H Hb. destruct a as [|c a].
  - injection H as <- <-. norm_app.
    destruct b as [|c b]; [reflexivity|]. simpl in *.
    destruct (digit_of_char c); [discriminate|].
    apply negb_true_iff in Hb. apply orb_false_iff in Hb as [Hb _].
    apply orb_false_iff in Hb as [Hb _]. now rewrite Hb.
  - rewrite append_cons. simpl in *.
    destruct (c =? ".")%char.
    + destruct (read_uint a) as [f' r'] eqn:E.
      rewrite (read_uint_app a b f' r' E (fun _ => read_uint_end b Hb)).
      destruct (is_nil f'); [discriminate|]. now injection H as <- <-.
    + now injection H as <- <-.
Qed.

Lemma read_exponent_app (a b : string) (x : Z) (r : string) :
  read_exponent a = Some (x, r) ->
  number_end b = true ->
  read_exponent (a +:+ b) = Some (x, r +:+ b).
Proof.
  intros H Hb. destruct a as [|c a].
  - injection H as <- <-. norm_app.
    destruct b as [|c b]; [reflexivity|]. simpl in *.
    destruct (digit_of_char c); [discriminate|].
    apply negb_true_iff in Hb. apply orb_false_iff in Hb as [Hb He].
    apply orb_false_iff in Hb as [_ Hb]. now rewrite Hb, He.
  - rewrite append_cons. simpl in *.
    destruct ((c =? "e") || (c =? "E"))%char; [|now injection H as <- <-].
    destruct a as [|g a].
    + simpl in H. discriminate.
    + rewrite append_cons.
      destruct (g =? "-")%char.
      * destruct (read_uint a) as [x' r'] eqn:E.
        rewrite (read_uint_app a b x' r' E (fun _ => read_uint_end b Hb)).
        destruct (is_nil x'); [discriminate|]. now injection H as <- <-.
      * destruct (g =? "+")%char.
        -- destruct (read_uint a) as [x' r'] eqn:E.
           rewrite (read_uint_app a b x' r' E (fun _ => read_uint_end b Hb)).
           destruct (is_nil x'); [discriminate|]. now injection H as <- <-.
        -- destruct (read_uint (String g a)) as [x' r'] eqn:E.
           rewrite <- append_cons.
           rewrite (read_uint_app (String g a) b x' r' E
                      (fun _ => read_uint_end b Hb)).
           destruct (is_nil x'); [discriminate|]. now injection H as <- <-.
Qed.

(** A text that is a number in full reads the same with something after
    it that cannot continue a number. *)
Lemma read_app (t b : string) (x : number) :
  read t = Some (x, "") ->
  number_end b = true ->
  read (t +:+ b) = Some (x, b).
Proof.
  intros H Hb. unfold read in *.
  assert (Hgen : forall s1 neg,
            (let (u, r1) := read_uint s1 in
             if valid_int u then
               match read_fraction r1 with
               | Some (f, r2) =>
                   match read_exponent r2 with
                   | Some (x0, r3) =>
                       Some (of_decimal neg (N.of_uint (Decimal.app u f))
                               (x0 - Z.of_nat (Decimal.nb_digits f)), r3)
                   | None => None
                   end
               | None => None
               end
             else None) = Some (x, "") ->
            (let (u, r1) := read_uint (s1 +:+ b) in
             if valid_int u then
               match read_fraction r1 with
               | Some (f, r2) =>
                   match read_exponent r2 with
                   | Some (x0, r3) =>
                       Some (of_decimal neg (N.of_uint (Decimal.app u f))
                               (x0 - Z.of_nat (Decimal.nb_digits f)), r3)
                   | None => None
                   end
               | None => None
               end
             else None) = Some (x, b)).
  { intros s1 neg H1.
    destruct (read_uint s1) as [u r1] eqn:Eu.
    rewrite (read_uint_app s1 b u r1 Eu (fun _ => read_uint_end b Hb)).
    destruct (valid_int u); [|discriminate].
    destruct (read_fraction r1) as [[f r2]|] eqn:Ef; [|discriminate].
    rewrite (read_fraction_app r1 b f r2 Ef Hb).
    destruct (read_exponent r2) as [[x0 r3]|] eqn:Ee; [|discriminate].
    rewrite (read_exponent_app r2 b x0 r3 Ee Hb).
    injection H1 as <- ->. reflexivity. }
  destruct t as [|c t].
  - simpl in H. discriminate.
  - rewrite append_cons.
    destruct (c =? "-")%char.
    + apply Hgen. exact H.
    + rewrite <- append_cons. apply Hgen. exact H.
Qed.

End NumberFacts.

Module RoundFacts.
Import Number TextFacts NumberFacts.

Local Open Scope Z_scope.

Lemma canonical_cases (neg : bool) (m : positive) (e : Z) :
  canonical (Finite neg m e) = true ->
  (2 ^ 52 <= Zpos m < 2 ^ 53 /\ -1074 <= e <= 971)
  \/ (Zpos m < 2 ^ 52 /\ e = -1074).
Proof.
  unfold canonical. intros H. apply orb_true_iff in H as [H|H].
  - left. repeat (apply andb_true_iff in H as [H ?]). lia.
  - right. apply andb_true_iff in H as [H1 H2]. lia.
Qed.

(** The result when the division at the exponent chosen is exact. *)
Lemma round_rat_at (neg : bool) (N D : Z) (m : positive) (e d : Z) :
  exponent_of N D = e ->
  scaled_div N D e = (Zpos m, 0, d) ->
  0 < d -> Zpos m < 2 ^ 53 -> e <= 971 ->
  round_rat neg N D = Finite neg m e.
Proof.
  intros He Hs Hd Hm He'. unfold round_rat. rewrite He, Hs.
  replace (2 * 0 ?= d) with Lt by (symmetry; apply Z.compare_lt_iff; lia).
  cbv zeta. replace (Zpos m =? 0) with false by reflexivity.
  replace (Zpos m =? 2 ^ 53) with false by (symmetry; apply Z.eqb_neq; lia).
  replace (971 <? e) with false by (symmetry; apply Z.ltb_ge; lia).
  reflexivity.
Qed.

Lemma log2_normal (m : positive) :
  2 ^ 52 <= Zpos m < 2 ^ 53 -> Z.log2 (Zpos m) = 52.
Proof. intros H. apply Z.log2_unique; [lia | exact H]. Qed.

(** A double that is an integer is the Number value of that integer. *)
Lemma round_exact_pos (neg : bool) (m : positive) (e : Z) :
  canonical (Finite neg m e) = true -> 0 <= e ->
  round_rat neg (Zpos m * 2 ^ e) 1 = Finite neg m e.
Proof.
  intros Hc He. destruct (canonical_cases _ _ _ Hc) as [[Hm Hr]|[_ ?]]; [|lia].
  assert (Hp : 0 < 2 ^ e) by (apply Z.pow_pos_nonneg; lia).
  assert (Hdiv : scaled_div (Zpos m * 2 ^ e) 1 e = (Zpos m, 0, 2 ^ e)).
  { unfold scaled_div. rewrite (proj2 (Z.leb_le 0 e) He), Z.mul_1_l.
    rewrite Z.div_mul, Z.mod_mul by lia. reflexivity. }
  apply (round_rat_at neg _ _ m e (2 ^ e)); try lia; [|exact Hdiv].
  unfold exponent_of.
  rewrite Z.log2_mul_pow2 by lia. rewrite (log2_normal m Hm).
  change (Z.log2 1) with 0. replace (e + 52 - 0 - 52) with e by lia.
  rewrite Hdiv. cbn [fst].
  replace (Zpos m <? 2 ^ 52) with false by (symmetry; apply Z.ltb_ge; lia).
  lia.
Qed.

Lemma pow10_split (k : Z) : 0 <= k -> 10 ^ k = 5 ^ k * 2 ^ k.
Proof. intros Hk. change 10 with (5 * 2). now rewrite Z.pow_mul_l. Qed.

(** A double below one is the Number value of its exact decimal. *)
Lemma round_exact_neg (neg : bool) (m : positive) (e : Z) :
  canonical (Finite neg m e) = true -> e < 0 ->
  round_rat neg (Zpos m * 5 ^ (- e)) (10 ^ (- e)) = Finite neg m e.
Proof.
  intros Hc He. set (k := - e). assert (Hk : 0 < k) by (unfold k; lia).
  assert (H5 : 0 < 5 ^ k) by (apply Z.pow_pos_nonneg; lia).
  assert (H2 : 0 < 2 ^ k) by (apply Z.pow_pos_nonneg; lia).
  assert (H10 : 10 ^ k = 5 ^ k * 2 ^ k) by (apply pow10_split; lia).
  assert (Hdiv : scaled_div (Zpos m * 5 ^ k) (10 ^ k) e = (Zpos m, 0, 10 ^ k)).
  { unfold scaled_div. replace (0 <=? e) with false by (symmetry; apply Z.leb_gt; lia).
    fold k. rewrite H10.
    rewrite <- (Z.mul_assoc (Zpos m)).
    rewrite Z.div_mul, Z.mod_mul by lia. reflexivity. }
  assert (Hlog : Z.log2 (10 ^ k) = k + Z.log2 (5 ^ k)).
  { rewrite H10. apply Z.log2_mul_pow2; lia. }
  assert (Hbelow := Z.log2_mul_below (Zpos m) (5 ^ k) ltac:(lia) H5).
  assert (Habove := Z.log2_mul_above (Zpos m) (5 ^ k) ltac:(lia) ltac:(lia)).
  assert (Hlm : 0 <= Z.log2 (Zpos m)) by apply Z.log2_nonneg.
  apply (round_rat_at neg _ _ m e (10 ^ k)); [|exact Hdiv|lia|..].
  - unfold exponent_of. fold k.
    set (e0 := Z.log2 (Zpos m * 5 ^ k) - Z.log2 (10 ^ k) - 52).
    destruct (canonical_cases _ _ _ Hc) as [[Hm Hr]|[Hm Hsub]].
    + assert (Hl := log2_normal m Hm).
      assert (Hcases : e0 = e \/ e0 = e + 1) by (unfold e0, k in *; lia).
      destruct Hcases as [->| ->].
      * fold k in Hdiv. rewrite Hdiv. cbn [fst].
        replace (Zpos m <? 2 ^ 52) with false by (symmetry; apply Z.ltb_ge; lia).
        lia.
      * assert (Hq : fst (fst (scaled_div (Zpos m * 5 ^ k) (10 ^ k) (e + 1))) < 2 ^ 52).
        { unfold scaled_div. destruct (0 <=? e + 1) eqn:E.
          - apply Z.leb_le in E. assert (e = -1) by lia. subst e.
            replace k with 1 in * by (unfold k; lia). cbn [fst].
            change (10 ^ 1 * 2 ^ (-1 + 1)) with (5 * 2).
            change (5 ^ 1) with 5.
            rewrite (Z.mul_comm (Zpos m) 5).
            rewrite Z.div_mul_cancel_l by lia.
            apply Z.div_lt_upper_bound; lia.
          - apply Z.leb_gt in E. cbn [fst].
            replace (- (e + 1)) with (k - 1) by (unfold k; lia).
            replace (10 ^ k) with ((5 ^ k * 2 ^ (k - 1)) * 2).
            2:{ rewrite H10. replace (2 ^ k) with (2 ^ (k - 1) * 2).
                - symmetry. apply Z.mul_assoc.
                - rewrite Z.mul_comm.
                  rewrite <- (Z.pow_succ_r 2 (k - 1)) by lia.
                  f_equal. lia. }
            rewrite <- (Z.mul_assoc (Zpos m)).
            rewrite (Z.mul_comm (Zpos m)).
            assert (0 < 2 ^ (k - 1)) by (apply Z.pow_pos_nonneg; lia).
            rewrite Z.div_mul_cancel_l by nia.
            apply Z.div_lt_upper_bound; lia. }
        apply Z.ltb_lt in Hq. rewrite Hq. lia.
    + assert (Hl : Z.log2 (Zpos m) < 52).
      { apply Z.log2_lt_pow2; lia. }
      assert (He0 : e0 <= e) by (unfold e0, k in *; lia).
      destruct (_ <? _); lia.
  - destruct (canonical_cases _ _ _ Hc) as [[Hm Hr]|[Hm Hsub]]; lia.
  - destruct (canonical_cases _ _ _ Hc) as [[Hm Hr]|[Hm Hsub]]; lia.
Qed.

End RoundFacts.

Module PrintFacts.
Import Number TextFacts NumberFacts RoundFacts.

Lemma digit_not_minus (c : ascii) :
  digit_of_char c <> None -> (c =? "-")%char = false.
Proof.
  destruct c as [[] [] [] [] [] [] [] []]; intros H; try reflexivity;
    now contradiction H.
Qed.

Lemma digit_not_mark (c : ascii) :
  digit_of_char c <> None -> ((c =? ".") || (c =? "e") || (c =? "E"))%char = false.
Proof.
  destruct c as [[] [] [] [] [] [] [] []]; intros H; try reflexivity;
    now contradiction H.
Qed.

Lemma read_uint_digits (u : Decimal.uint) (r : string) :
  read_uint r = (Decimal.Nil, r) ->
  read_uint (NilEmpty.string_of_uint u +:+ r) = (u, r).
Proof.
  intros Hr.
  induction u; simpl NilEmpty.string_of_uint; norm_app;
    [exact Hr | ..];
    (cbn [read_uint]; rewrite IHu; reflexivity).
Qed.

Lemma digits_head (p : positive) :
  exists c s, digits p = String c s /\ digit_of_char c <> None.
Proof.
  unfold digits. pose proof (Unsigned.to_uint_nonnil p) as Hn.
  destruct (Pos.to_uint p); [congruence | ..]; simpl; do 2 eexists;
    (split; [reflexivity | discriminate]).
Qed.

Lemma nzhead_not_D0 (u u' : Decimal.uint) : Decimal.nzhead u <> Decimal.D0 u'.
Proof. induction u; simpl; try discriminate. assumption. Qed.

Lemma valid_int_to_uint (p : positive) : valid_int (Pos.to_uint p) = true.
Proof.
  pose proof (DecimalPos.Unsigned.to_of (Pos.to_uint p)) as H.
  rewrite DecimalPos.Unsigned.of_to in H. simpl in H.
  pose proof (Unsigned.to_uint_nonnil p) as Hn.
  pose proof (Unsigned.to_uint_nonzero p) as Hz.
  destruct (Pos.to_uint p) as [|u|u|u|u|u|u|u|u|u|u]; try reflexivity.
  - congruence.
  - exfalso. unfold Decimal.unorm in H. simpl in H.
    destruct (Decimal.nzhead u) eqn:E2;
      try discriminate H; try (symmetry in H; inversion H; subst; congruence).
    apply (nzhead_not_D0 u u0). congruence.
Qed.

Lemma is_nil_to_uint (p : positive) : is_nil (Pos.to_uint p) = false.
Proof.
  pose proof (Unsigned.to_uint_nonnil p) as Hn.
  destruct (Pos.to_uint p); [congruence | ..]; reflexivity.
Qed.

Lemma N_of_uint_to_uint (p : positive) : N.of_uint (Pos.to_uint p) = Npos p.
Proof. unfold N.of_uint. apply DecimalPos.Unsigned.of_to. Qed.

Lemma Z_of_uint_to_uint (p : positive) : Z.of_uint (Pos.to_uint p) = Zpos p.
Proof. unfold Z.of_uint. now rewrite DecimalPos.Unsigned.of_to. Qed.

(** The sign is carried through the rounding. *)
Lemma of_decimal_sign (neg : bool) (d : N) (q : Z) :
  of_decimal neg d q
  = match of_decimal false d q with
    | Zero => Zero
    | Finite _ m e => Finite neg m e
    | Infinite _ => Infinite neg
    end.
Proof.
  unfold of_decimal. destruct d as [|p]; [reflexivity|].
  assert (H : forall N D,
            round_rat neg N D
            = match round_rat false N D with
              | Zero => Zero
              | Finite _ m e => Finite neg m e
              | Infinite _ => Infinite neg
              end).
  { intros N D. unfold round_rat.
    destruct (scaled_div N D (exponent_of N D)) as [[q0 r] d].
    destruct (_ =? 0)%Z; [reflexivity|].
    destruct (_ =? 2 ^ 53)%Z; destruct (971 <? _)%Z; reflexivity. }
  destruct (0 <=? q)%Z; apply H.
Qed.

(** The exact decimal of a double reads back as the double. *)
Lemma exact_text_reads (m : positive) (e : Z) :
  canonical (Finite false m e) = true ->
  read (exact_text m e) = Some (Finite false m e, "").
Proof.
  intros Hc. unfold exact_text.
  destruct (0 <=? e)%Z eqn:He.
  - apply Z.leb_le in He.
    assert (Hp : (0 < Zpos m * 2 ^ e)%Z).
    { apply Z.mul_pos_pos; [lia | apply Z.pow_pos_nonneg; lia]. }
    set (P := Z.to_pos (Zpos m * 2 ^ e)).
    destruct (digits_head P) as (c & s & Hd & Hc').
    unfold read. rewrite Hd, (digit_not_minus c Hc'), <- Hd.
    unfold digits. rewrite <- (append_empty_r (NilEmpty.string_of_uint _)).
    rewrite read_uint_digits by reflexivity.
    rewrite valid_int_to_uint. cbn [read_fraction read_exponent].
    rewrite DecimalFacts.app_nil_r, N_of_uint_to_uint.
    cbn [Decimal.nb_digits Z.of_nat Z.sub Z.opp]. unfold of_decimal.
    cbn [Z.leb Z.compare]. change (10 ^ 0)%Z with 1%Z. rewrite Z.mul_1_r.
    unfold P. rewrite Z2Pos.id by exact Hp.
    now rewrite (round_exact_pos false m e Hc He).
  - apply Z.leb_gt in He.
    assert (Hp : (0 < Zpos m * 5 ^ (- e))%Z).
    { apply Z.mul_pos_pos; [lia | apply Z.pow_pos_nonneg; lia]. }
    set (P := Z.to_pos (Zpos m * 5 ^ (- e))).
    set (K := Z.to_pos (- e)).
    destruct (digits_head P) as (c & s & Hd & Hc').
    unfold read. rewrite Hd. rewrite append_cons.
    rewrite (digit_not_minus c Hc'), <- append_cons, <- Hd.
    unfold digits at 1. rewrite read_uint_digits by reflexivity.
    rewrite valid_int_to_uint.
    change (read_fraction ("e-" +:+ digits K))
      with (Some (Decimal.Nil, "e-" +:+ digits K)).
    cbv iota beta.
    assert (Hexp : read_exponent ("e-" +:+ digits K) = Some (Zneg K, "")).
    { norm_app. cbn [read_exponent Ascii.eqb Bool.eqb orb].
      unfold digits. rewrite <- (append_empty_r (NilEmpty.string_of_uint _)).
      rewrite read_uint_digits by reflexivity.
      rewrite is_nil_to_uint, Z_of_uint_to_uint. reflexivity. }
    rewrite Hexp. cbv iota beta.
    rewrite DecimalFacts.app_nil_r, N_of_uint_to_uint.
    cbn [Decimal.nb_digits Z.of_nat]. rewrite Z.sub_0_r.
    unfold of_decimal. cbn [Z.leb Z.compare].
    change (- Zneg K)%Z with (Zpos K).
    unfold P, K. rewrite !Z2Pos.id by lia.
    now rewrite (round_exact_neg false m e Hc He).
Qed.

Lemma reads_as_read (m : positive) (e : Z) (t : string) :
  reads_as m e t = true -> read t = Some (Finite false m e, "").
Proof.
  unfold reads_as. destruct (read t) as [[y [|c r]]|]; try discriminate.
  intros H. apply eqb_eq in H. now subst.
Qed.

Lemma first_reading_reads (m : positive) (e : Z) (l : list (string * Z)) (t : string) :
  first_reading m e l = Some t -> reads_as m e t = true.
Proof.
  induction l as [|[ds n] l IH]; simpl; [discriminate|].
  destruct (reads_as m e (format ds n)) eqn:E; [|exact IH].
  now intros [= <-].
Qed.

Lemma shortest_reads (m : positive) (e n : Z) (from count : nat) (t : string) :
  shortest m e n from count = Some t -> reads_as m e t = true.
Proof.
  revert from. induction count as [|count IH]; intros from; simpl; [discriminate|].
  destruct (first_reading m e (neighbours m e n from)) as [t'|] eqn:E.
  - intros [= <-]. exact (first_reading_reads _ _ _ _ E).
  - apply IH.
Qed.

(** The text of a positive double reads back as the double. *)
Lemma toString_pos_reads (m : positive) (e : Z) :
  canonical (Finite false m e) = true ->
  read (toString_pos m e) = Some (Finite false m e, "").
Proof.
  intros Hc. unfold toString_pos.
  destruct (shortest m e (decimal_exponent m e) 1 17) as [t|] eqn:E.
  - apply reads_as_read. exact (shortest_reads _ _ _ _ _ _ E).
  - exact (exact_text_reads m e Hc).
Qed.

(** The text of a negative number is the text of its opposite after a
    minus sign. *)
Lemma read_minus (t : string) (m : positive) (e : Z) :
  read t = Some (Finite false m e, "") ->
  read (String "-" t) = Some (Finite true m e, "").
Proof.
  intros H. unfold read in *. cbn [Ascii.eqb Bool.eqb].
  assert (Hs : (let (neg, s1) :=
                  match t with
                  | String c r => if (c =? "-")%char then (true, r) else (false, t)
                  | EmptyString => (false, t)
                  end in (neg, s1)) = (false, t)).
  { destruct t as [|c r]; [reflexivity|].
    destruct (c =? "-")%char eqn:Ec; [|reflexivity].
    exfalso. destruct (read_uint r) as [u r1].
    destruct (valid_int u); [|discriminate].
    destruct (read_fraction r1) as [[f r2]|]; [|discriminate].
    destruct (read_exponent r2) as [[x r3]|]; [|discriminate].
    injection H as H _. rewrite of_decimal_sign in H.
    destruct (of_decimal false _ _); discriminate. }
  destruct t as [|c r]; [discriminate H|].
  destruct (c =? "-")%char; [discriminate Hs|].
  destruct (read_uint (String c r)) as [u r1].
  destruct (valid_int u); [|discriminate].
  destruct (read_fraction r1) as [[f r2]|]; [|discriminate].
  destruct (read_exponent r2) as [[x r3]|]; [|discriminate].
  injection H as H ->. rewrite of_decimal_sign, H. reflexivity.
Qed.

(** Number::toString then the reader: every finite double comes back. *)
Lemma toString_reads (x : number) :
  canonical x = true -> finite x = true ->
  read (toString x) = Some (x, "").
Proof.
  destruct x as [|[|] m e|n]; intros Hc Hf; try discriminate Hf.
  - reflexivity.
  - apply read_minus. apply toString_pos_reads. exact Hc.
  - apply toString_pos_reads. exact Hc.
Qed.

(** The text of a number begins with a digit or with the minus sign. *)
Lemma read_head (t : string) (x : number) (r : string) :
  read t = Some (x, r) ->
  exists c s, t = String c s
              /\ (digit_of_char c <> None \/ c = "-"%char).
Proof.
  unfold read. destruct t as [|c s]; [discriminate|].
  intros H. exists c, s. split; [reflexivity|].
  destruct (c =? "-")%char eqn:Ec.
  - right. now apply Ascii.eqb_eq.
  - left. simpl in H. destruct (digit_of_char c); [discriminate|].
    discriminate.
Qed.



End PrintFacts.

(* ================================================================== *)
(** * Properties of the JSON texts *)
(* ================================================================== *)

Module JSONFacts.
Import JSON TextFacts NumberFacts PrintFacts.
Export TextFacts.

(** ** Strings *)

(** Reading a [\uXXXX] escape. *)
Lemma parse_chars_u (h1 h2 h3 h4 : ascii) (r : string) (n : N) :
  hex4 h1 h2 h3 h4 = Some n ->
  parse_chars (String backslash (String "u"
                 (String h1 (String h2 (String h3 (String h4 r))))))
  = if Unicode.is_high_surrogate n then
      match low_escape r with
      | Some (lo, r3) =>
          option_map (cons_text (Unicode.encode (Unicode.of_surrogates n lo)))
            (parse_chars r3)
      | None => option_map (cons_text (Unicode.encode n)) (parse_chars r)
      end
    else option_map (cons_text (Unicode.encode n)) (parse_chars r).
Proof.
  intros H. cbn [parse_chars].
  change (backslash =? dquote)%char with false.
  change (backslash =? backslash)%char with true.
  change ("u" =? "u")%char with true. cbv iota. rewrite H. cbv zeta.
  destruct (Unicode.is_high_surrogate n); [|reflexivity].
  unfold low_escape.
  destruct r as [|b r1]; [reflexivity|].
  destruct (b =? backslash)%char; [|reflexivity].
  destruct r1 as [|u r2]; [reflexivity|].
  destruct (u =? "u")%char; [|reflexivity].
  destruct r2 as [|g1 [|g2 [|g3 [|g4 r3]]]]; try reflexivity.
  destruct (hex4 g1 g2 g3 g4) as [lo|]; [|reflexivity].
  destruct (Unicode.is_low_surrogate lo); reflexivity.
Qed.

Lemma in_bytes (u : N) : (u < 256)%N -> In u bytes.
Proof.
  intros H. unfold bytes. apply in_map_iff. exists (N.to_nat u). split.
  - apply N2Nat.id.
  - apply in_seq. lia.
Qed.

Lemma hex4_hex4_text_all :
  forallb (fun p : N * N =>
             let (h, l) := p in
             match hex4_of_text (hex4_text (h * 256 + l)) with
             | Some v => (v =? h * 256 + l)%N
             | None => false
             end) (list_prod bytes bytes) = true.
Proof. vm_compute. reflexivity. Qed.

(** The four digits written for a code unit read back as the unit. *)
Lemma hex4_hex4_text (u : N) :
  (u < 65536)%N ->
  exists a b c d, hex4_text u = String a (String b (String c (String d "")))
                  /\ hex4 a b c d = Some u.
Proof.
  intros H. pose proof hex4_hex4_text_all as Hall.
  rewrite forallb_forall in Hall.
  assert (Hu : (u = u / 256 * 256 + u mod 256)%N).
  { pose proof (N.div_mod u 256). lia. }
  assert (Hin : In (u / 256, u mod 256)%N (list_prod bytes bytes)).
  { apply in_prod; apply in_bytes.
    - apply N.Div0.div_lt_upper_bound. lia.
    - apply N.mod_lt. lia. }
  specialize (Hall _ Hin). cbv beta iota in Hall. rewrite <- Hu in Hall.
  unfold hex4_text in *. do 4 eexists. split; [reflexivity|].
  cbn [hex4_of_text] in Hall.
  destruct (hex4 _ _ _ _) as [v|]; [|discriminate].
  apply N.eqb_eq in Hall. now subst.
Qed.

Lemma encode_surrogate_all :
  forallb (fun p : N * N =>
             let (b1, b2) := p in
             match Unicode.encode (55296 + (b1 - 160) * 64 + (b2 - 128))%N with
             | String x (String y (String z EmptyString)) =>
                 (N_of_ascii x =? 237)%N && (N_of_ascii y =? b1)%N
                 && (N_of_ascii z =? b2)%N
             | _ => false
             end) surrogate_bytes = true.
Proof. vm_compute. reflexivity. Qed.

Lemma byte_eq (a b : ascii) : Unicode.byte a = Unicode.byte b -> a = b.
Proof.
  unfold Unicode.byte. intros H.
  rewrite <- (ascii_N_embedding a), <- (ascii_N_embedding b). now rewrite H.
Qed.

Lemma surrogate_unit_range (c c1 c2 : ascii) (u : N) :
  surrogate_unit c c1 c2 = Some u ->
  (55296 <= u <= 57343)%N
  /\ Unicode.encode u = String c (String c1 (String c2 "")).
Proof.
  unfold surrogate_unit, Unicode.continuation.
  destruct (_ && _) eqn:H; [|discriminate]. intros [= <-].
  repeat match goal with
    | Hx : _ && _ = true |- _ => apply andb_true_iff in Hx as [? ?]
    end.
  repeat match goal with
    | Hx : (_ =? _)%N = true |- _ => apply N.eqb_eq in Hx
    | Hx : (_ <=? _)%N = true |- _ => apply N.leb_le in Hx
    | Hx : (_ <? _)%N = true |- _ => apply N.ltb_lt in Hx
    end.
  split; [lia|].
  pose proof encode_surrogate_all as Hall. rewrite forallb_forall in Hall.
  specialize (Hall (Unicode.byte c1, Unicode.byte c2)).
  cbv beta iota in Hall.
  destruct (Unicode.encode _) as [|x [|y [|z [|? ?]]]] eqn:E;
    try (exfalso; discriminate Hall;
         [apply in_prod; apply in_map_iff; eexists;
          (split; [apply N2Nat.id | apply in_seq; lia])]).
  all: assert (Hin : In (Unicode.byte c1, Unicode.byte c2) surrogate_bytes)
    by (apply in_prod; apply in_map_iff;
        [exists (N.to_nat (Unicode.byte c1)) | exists (N.to_nat (Unicode.byte c2))];
        (split; [apply N2Nat.id | apply in_seq; lia])).
  all: specialize (Hall Hin); try discriminate Hall.
  repeat (apply andb_true_iff in Hall as [Hall ?]).
  repeat match goal with
    | Hx : (_ =? _)%N = true |- _ => apply N.eqb_eq in Hx
    end.
  f_equal; [|f_equal; [|f_equal]]; apply byte_eq; unfold Unicode.byte in *; congruence.
Qed.

(** Reading back one escaped character. *)
Lemma parse_chars_escape_char (c : ascii) (rest : string) :
  parse_chars (escape_char c +:+ rest) = option_map (cons_char c) (parse_chars rest).
Proof.
  destruct c as [[] [] [] [] [] [] [] []]; reflexivity.
Qed.

Lemma low_escape_escape_char (c : ascii) (rest : string) :
  low_escape (escape_char c +:+ rest) = None.
Proof.
  destruct c as [[] [] [] [] [] [] [] []]; reflexivity.
Qed.

Lemma well_formed_tail (c : ascii) (s : string) :
  well_formed (String c s) = true -> well_formed s = true.
Proof.
  cbn [well_formed]. intros H. now apply andb_true_iff in H as [_ H].
Qed.

Lemma low_escape_escape (s rest : string) :
  low_at s = false -> low_escape (escape s +:+ String dquote rest) = None.
Proof.
  intros H. destruct s as [|c [|c1 [|c2 s]]];
    try (cbn [escape]; rewrite ?append_assoc; apply low_escape_escape_char).
  - reflexivity.
  - cbn [escape low_at] in *.
    destruct (surrogate_unit c c1 c2) as [u|] eqn:Eu;
      [|rewrite ?append_assoc; apply low_escape_escape_char].
    destruct (surrogate_unit_range _ _ _ _ Eu) as [Hu _].
    destruct (hex4_hex4_text u) as (a & b & x & y & -> & Hh); [lia|].
    norm_app. cbn [low_escape].
    change (backslash =? backslash)%char with true.
    change ("u" =? "u")%char with true. cbv iota.
    now rewrite Hh, H.
Qed.

(** Reading back the escaped characters of a well-formed string. *)
Lemma parse_chars_escape_len (n : nat) :
  forall s rest, String.length s <= n -> well_formed s = true ->
    parse_chars (escape s +:+ String dquote rest) = Some (s, rest).
Proof.
  induction n as [|n IH]; intros s rest Hlen Hwf.
  - destruct s; [reflexivity | simpl in Hlen; lia].
  - destruct s as [|c s]; [reflexivity|].
    assert (Hchar : parse_chars ((escape_char c +:+ escape s) +:+ String dquote rest)
                    = Some (String c s, rest)).
    { rewrite append_assoc, parse_chars_escape_char.
      rewrite IH; [reflexivity | simpl in Hlen; lia |].
      eapply well_formed_tail, Hwf. }
    destruct s as [|c1 [|c2 s]]; try exact Hchar.
    cbn [escape] in *.
    destruct (surrogate_unit c c1 c2) as [u|] eqn:Eu; [|exact Hchar].
    clear Hchar.
    destruct (surrogate_unit_range _ _ _ _ Eu) as [Hu Henc].
    destruct (hex4_hex4_text u) as (a & b & x & y & -> & Hh); [lia|].
    norm_app. rewrite (parse_chars_u _ _ _ _ _ _ Hh).
    assert (Hs : well_formed s = true)
      by (do 3 apply well_formed_tail in Hwf; exact Hwf).
    assert (Hrest : option_map (cons_text (Unicode.encode u))
                      (parse_chars (escape s +:+ String dquote rest))
                    = Some (String c (String c1 (String c2 s)), rest)).
    { rewrite IH; [|simpl in Hlen; lia | exact Hs].
      cbn [option_map]. unfold cons_text. cbn [fst snd]. rewrite Henc.
      reflexivity. }
    destruct (Unicode.is_high_surrogate u) eqn:Ehi; [|exact Hrest].
    rewrite low_escape_escape; [exact Hrest|].
    cbn [well_formed] in Hwf. apply andb_true_iff in Hwf as [Hp _].
    apply negb_true_iff in Hp.
    destruct s as [|d [|d1 [|d2 s']]]; try reflexivity.
    cbn [pair_at low_at] in *. rewrite Eu in Hp.
    destruct (surrogate_unit d d1 d2) as [lo|]; [|reflexivity].
    now rewrite Ehi in Hp.
Qed.

Lemma parse_chars_escape (s rest : string) :
  well_formed s = true ->
  parse_chars (escape s +:+ String dquote rest) = Some (s, rest).
Proof. now apply (parse_chars_escape_len (String.length s)). Qed.

Lemma parse_chars_quote (s rest : string) :
  well_formed s = true ->
  exists body, quote s +:+ rest = String dquote body
               /\ parse_chars body = Some (s, rest).
Proof.
  intros Hwf. exists (escape s +:+ String dquote rest). split.
  - unfold quote. norm_str. reflexivity.
  - now apply parse_chars_escape.
Qed.

(** ** Numbers *)

Lemma parse_value_number (fuel : nat) (c : ascii) (s : string) :
  Number.digit_of_char c <> None \/ c = "-"%char ->
  parse_value (S fuel) (String c s) = parse_number (String c s).
Proof.
  destruct c as [[] [] [] [] [] [] [] []]; intros [H|H];
    try discriminate H; try (now elim H); reflexivity.
Qed.

Lemma number_head_value_head (c : ascii) :
  Number.digit_of_char c <> None \/ c = "-"%char -> value_head c = true.
Proof.
  destruct c as [[] [] [] [] [] [] [] []]; intros [H|H];
    try discriminate H; try (now elim H); reflexivity.
Qed.

Lemma toString_head (n : Number.number) :
  Number.canonical n = true -> Number.finite n = true ->
  exists c s, Number.toString n = String c s
              /\ (Number.digit_of_char c <> None \/ c = "-"%char).
Proof.
  intros Hc Hf. eapply read_head. apply toString_reads; assumption.
Qed.

Lemma stringify_head (v : json) :
  serializable v = true ->
  exists c s, stringify v = String c s /\ value_head c = true.
Proof.
  destruct v as [|[]|n|s|[|x l]|[|[k x] o]]; intros Hs; simpl; norm_app; eauto.
  simpl in Hs. apply andb_true_iff in Hs as [Hc Hf]. rewrite Hf.
  destruct (toString_head n Hc Hf) as (c & s & -> & Hh).
  eauto using number_head_value_head.
Qed.

Lemma skip_ws_head (c : ascii) (s : string) :
  is_ws c = false -> skip_ws (String c s) = String c s.
Proof. intros H. simpl. now rewrite H. Qed.

Lemma value_head_ws (c : ascii) : value_head c = true -> is_ws c = false.
Proof.
  unfold value_head. intros H.
  apply andb_true_iff in H as [H _]. apply andb_true_iff in H as [H _].
  now apply negb_true_iff in H.
Qed.

Lemma skip_ws_stringify (v : json) (r : string) :
  serializable v = true ->
  skip_ws (stringify v +:+ r) = stringify v +:+ r.
Proof.
  intros Hs. destruct (stringify_head v Hs) as (c & s & -> & Hc).
  rewrite append_cons. apply skip_ws_head, value_head_ws, Hc.
Qed.

Lemma starts_with_close_stringify (v : json) (r : string) :
  serializable v = true ->
  starts_with "]" (stringify v +:+ r) = None.
Proof.
  intros Hs. destruct (stringify_head v Hs) as (c & s & -> & Hc).
  rewrite append_cons. unfold starts_with, value_head in *.
  apply andb_true_iff in Hc as [Hc _]. apply andb_true_iff in Hc as [_ Hc].
  apply negb_true_iff in Hc. now rewrite Hc.
Qed.

(** ** Objects: reading ordered, distinct keys back *)

Lemma set_named_fresh (k : string) (v : json) (acc : list (string * json)) :
  k ∉ List.map fst acc -> set_named k v acc = (acc ++ [(k, v)])%list.
Proof.
  induction acc as [|[k' v'] acc IH]; simpl; intros Hk; [reflexivity|].
  destruct (String.eqb_spec k' k) as [->|Hne].
  - exfalso. apply Hk. left.
  - rewrite IH; [reflexivity|]. intros Hin. apply Hk. now right.
Qed.

Lemma set_index_fresh (i : N) (k : string) (v : json) (acc : list (string * json)) :
  array_index k = Some i ->
  k ∉ List.map fst acc ->
  ordered (List.map fst (acc ++ [(k, v)])%list) = true ->
  set_index i k v acc = (acc ++ [(k, v)])%list.
Proof.
  intros Ek. induction acc as [|[k' v'] acc IH]; intros Hk Ho; [reflexivity|].
  cbn [set_index]. destruct (String.eqb_spec k' k) as [->|Hne].
  { exfalso. apply Hk. left. }
  cbn [List.map app fst ordered] in Ho.
  apply andb_true_iff in Ho as [Hhead Ho].
  rewrite map_app in Hhead. cbn [List.map fst] in Hhead.
  destruct (array_index k') as [j|] eqn:Ek';
    rewrite forallb_app in Hhead; cbn [forallb] in Hhead.
  - apply andb_true_iff in Hhead as [_ Hhead]. rewrite Ek in Hhead.
    apply andb_true_iff in Hhead as [Hhead _]. rewrite Hhead.
    rewrite IH; [reflexivity | | exact Ho].
    intros Hin. apply Hk. now right.
  - apply andb_true_iff in Hhead as [_ Hhead]. unfold is_index in Hhead.
    rewrite Ek in Hhead. discriminate Hhead.
Qed.

Lemma obj_set_fresh (k : string) (v : json) (acc : list (string * json)) :
  k ∉ List.map fst acc ->
  ordered (List.map fst (acc ++ [(k, v)])%list) = true ->
  obj_set k v acc = (acc ++ [(k, v)])%list.
Proof.
  intros Hk Ho. unfold obj_set. destruct (array_index k) as [i|] eqn:Ek.
  - now apply set_index_fresh.
  - now apply set_named_fresh.
Qed.

Lemma ordered_app (a b : list string) :
  ordered (a ++ b)%list = true -> ordered a = true.
Proof.
  induction a as [|k a IH]; [reflexivity|]. cbn [app ordered]. intros H.
  apply andb_true_iff in H as [Hh Ho]. rewrite (IH Ho), andb_true_r.
  destruct (array_index k); rewrite forallb_app in Hh;
    now apply andb_true_iff in Hh as [Hh _].
Qed.

(** Reading back the elements of an array, given that each of them reads
    back. *)
Lemma parse_elements_rest (l : list json) :
  Forall (fun v => serializable v = true /\
            forall fuel r, size v <= fuel -> Number.number_end r = true ->
              parse_value fuel (stringify v +:+ r) = Some (v, r)) l ->
  forall x fuel r,
    (forall fuel r, size x <= fuel -> Number.number_end r = true ->
            parse_value fuel (stringify x +:+ r) = Some (x, r)) ->
    list_sum (List.map (fun y => S (size y)) (x :: l)) <= fuel ->
    parse_elements fuel (stringify x +:+ elems_rest stringify l +:+ r)
    = Some (x :: l, r).
Proof.
  induction 1 as [|y l [Hsy Hy] Hl IH]; intros x fuel r Hx Hfuel;
    (destruct fuel as [|fuel]; [simpl in Hfuel; lia|]);
    simpl in Hfuel; cbn [parse_elements elems_rest]; norm_str.
  - rewrite Hx by (reflexivity || lia). reflexivity.
  - rewrite Hx by (reflexivity || lia).
    cbn [skip_ws is_ws]. change (is_ws ",") with false. cbv iota.
    change ("," =? ",")%char with true. cbv iota.
    rewrite skip_ws_stringify by exact Hsy.
    rewrite IH; [reflexivity | assumption | simpl; lia].
Qed.

Lemma starts_with_quote (k rest : string) :
  well_formed k = true ->
  exists body, quote k +:+ rest = String dquote body
               /\ starts_with dquote (quote k +:+ rest) = Some body
               /\ skip_ws (quote k +:+ rest) = quote k +:+ rest
               /\ parse_chars body = Some (k, rest).
Proof.
  intros Hwf. destruct (parse_chars_quote k rest Hwf) as (body & Hq & Hbody).
  exists body. rewrite Hq. repeat split; assumption || reflexivity.
Qed.

Lemma starts_with_cons (c c' : ascii) (s : string) :
  starts_with c (String c' s) = if (c' =? c)%char then Some s else None.
Proof. reflexivity. Qed.

(** One step of reading over literal characters. *)
Ltac lit_step :=
  repeat (progress
    (cbn [skip_ws];
     repeat match goal with
       | |- context [is_ws (Ascii ?a ?b ?c ?d ?e ?f ?g ?h)] =>
           let v := eval vm_compute in (is_ws (Ascii a b c d e f g h)) in
           change (is_ws (Ascii a b c d e f g h)) with v
       end;
     cbv iota; rewrite ?starts_with_cons;
     cbn [Ascii.eqb Bool.eqb andb]; cbv iota)).

Lemma parse_members_rest (o : list (string * json)) :
  Forall (fun kv => (well_formed (fst kv) = true /\ serializable (snd kv) = true) /\
            forall fuel r, size (snd kv) <= fuel -> Number.number_end r = true ->
            parse_value fuel (stringify (snd kv) +:+ r) = Some (snd kv, r)) o ->
  forall k x acc fuel r,
    well_formed k = true -> serializable x = true ->
    (forall fuel r, size x <= fuel -> Number.number_end r = true ->
            parse_value fuel (stringify x +:+ r) = Some (x, r)) ->
    list_sum (List.map (fun kv => S (size (snd kv))) ((k, x) :: o)) <= fuel ->
    NoDup (List.map fst (acc ++ (k, x) :: o)%list) ->
    ordered (List.map fst (acc ++ (k, x) :: o)%list) = true ->
    parse_members fuel
      (quote k +:+ ":" +:+ stringify x +:+ members_rest stringify o +:+ r) acc
    = Some ((acc ++ (k, x) :: o)%list, r).
Proof.
  induction 1 as [|[k' y] o [[Hwk' Hsy] Hy] Ho IH];
    intros k x acc fuel r Hwk Hsx Hx Hfuel Hnd Hord;
    (destruct fuel as [|fuel]; [simpl in Hfuel; lia|]);
    simpl in Hfuel;
    assert (Hk : k ∉ List.map fst acc)
      by (rewrite map_app in Hnd; simpl in Hnd;
          apply NoDup_app in Hnd as (_ & Hnd & _);
          intros Hin; apply (Hnd k Hin); left);
    assert (Hord' : ordered (List.map fst (acc ++ [(k, x)])%list) = true)
      by (match type of Hord with
          | ordered (List.map fst (acc ++ (k, x) :: ?t)%list) = _ =>
              apply (ordered_app _ (List.map fst t));
              rewrite <- map_app, <- app_assoc; exact Hord
          end);
    match goal with
    | |- parse_members _ (quote k +:+ ?rest) _ = _ =>
        destruct (starts_with_quote k rest Hwk) as (body & _ & Hsw & _ & Hbody)
    end;
    cbn [parse_members]; rewrite Hsw, Hbody; norm_str; lit_step;
    rewrite skip_ws_stringify, Hx by (reflexivity || lia || assumption);
    cbn [members_rest]; norm_str; lit_step.
  - rewrite obj_set_fresh by assumption. reflexivity.
  - rewrite obj_set_fresh by assumption.
    match goal with
    | |- parse_members _ (skip_ws (quote k' +:+ ?rest)) _ = _ =>
        destruct (starts_with_quote k' rest Hwk') as (body' & _ & _ & Hws & _)
    end.
    rewrite Hws.
    specialize (IH k' y (acc ++ [(k, x)])%list fuel r Hwk' Hsy Hy).
    revert IH; norm_str; intros IH. rewrite IH.
    + now rewrite <- app_assoc.
    + simpl. simpl in Hy. lia.
    + now rewrite <- app_assoc.
    + now rewrite <- app_assoc.
Qed.

(** Reading back a printed value, whatever reasonable text follows it. *)
Lemma parse_value_stringify (v : json) :
  serializable v = true ->
  forall fuel r, size v <= fuel -> Number.number_end r = true ->
    parse_value fuel (stringify v +:+ r) = Some (v, r).
Proof.
  induction v as [|b|n|s|l IH|o IH] using json_ind; intros Hd fuel r Hfuel Hr;
    (destruct fuel as [|fuel]; [simpl in Hfuel; lia|]).
  - reflexivity.
  - destruct b; reflexivity.
  - simpl in Hd. apply andb_true_iff in Hd as [Hc Hf].
    cbn [stringify]. rewrite Hf.
    pose proof (read_app _ r _ (toString_reads n Hc Hf) Hr) as Hn.
    destruct (toString_head n Hc Hf) as (c & s & Hs & Hh).
    rewrite Hs in *. rewrite append_cons in *.
    rewrite parse_value_number by exact Hh.
    unfold parse_number. now rewrite Hn.
  - simpl in Hd. destruct (parse_chars_quote s r Hd) as (body & Hq & Hbody).
    simpl stringify. rewrite Hq. cbn [parse_value]. lit_step.
    change (dquote =? "[")%char with false.
    change (dquote =? "{")%char with false.
    change (dquote =? dquote)%char with true. cbv iota.
    now rewrite Hbody.
  - destruct l as [|x l]; [reflexivity|].
    simpl in Hd. apply andb_true_iff in Hd as [Hdx Hdl].
    simpl stringify. norm_str. cbn [parse_value]. lit_step.
    rewrite skip_ws_stringify, starts_with_close_stringify by exact Hdx.
    inversion IH as [|? ? IHx IHl]; subst.
    rewrite parse_elements_rest; [reflexivity | | auto | simpl in *; lia].
    clear -IHl Hdl. induction IHl as [|y l Hy Hl IH']; constructor.
    + simpl in Hdl. apply andb_true_iff in Hdl as [Hdy _]. auto.
    + simpl in Hdl. apply andb_true_iff in Hdl as [_ Hdl]. auto.
  - destruct o as [|[k x] o]; [reflexivity|].
    simpl in Hd. apply andb_true_iff in Hd as [Hnd Hd].
    apply andb_true_iff in Hnd as [Hnd Hord].
    apply bool_decide_eq_true in Hnd.
    apply andb_true_iff in Hd as [Hdx Hdo].
    apply andb_true_iff in Hdx as [Hwk Hdx].
    simpl stringify. norm_str. cbn [parse_value]. lit_step.
    match goal with
    | |- context [skip_ws (quote k +:+ ?rest)] =>
        destruct (starts_with_quote k rest Hwk) as (body & Hq & _ & Hws & _)
    end.
    rewrite Hws. rewrite Hq at 1. lit_step.
    change (dquote =? "}")%char with false. cbv iota.
    inversion IH as [|? ? IHx IHo]; subst. simpl in IHx.
    pose proof (parse_members_rest o) as Hm.
    specialize (Hm) with (acc := @nil (string * json)) (k := k) (x := x)
                         (fuel := fuel) (r := r).
    revert Hm; norm_str; intros Hm.
    rewrite Hm; [reflexivity | | exact Hwk | exact Hdx | auto | simpl in *; lia
                | exact Hnd | exact Hord].
    clear -IHo Hdo. induction IHo as [|[k' y] o Hy Ho IH']; constructor.
    + simpl in *. apply andb_true_iff in Hdo as [Hdy _].
      apply andb_true_iff in Hdy as [? ?]. auto.
    + simpl in Hdo. apply andb_true_iff in Hdo as [_ Hdo]. auto.
Qed.

Lemma string_length_pos (c : ascii) (s : string) : 1 <= String.length (String c s).
Proof. simpl. lia. Qed.

Lemma size_le_length (v : json) :
  serializable v = true -> size v <= String.length (stringify v).
Proof.
  induction v as [|b|n|s|l IH|o IH] using json_ind; intros Hs.
  - simpl. lia.
  - destruct b; simpl; lia.
  - destruct (stringify_head (JNum n) Hs) as (c & s & Heq & _). rewrite Heq.
    simpl. lia.
  - simpl. lia.
  - destruct l as [|x l]; [simpl; lia|].
    inversion IH as [|? ? IHx IHl]; subst.
    simpl in Hs. apply andb_true_iff in Hs as [Hsx Hsl].
    simpl stringify. norm_str. simpl String.length. rewrite length_append.
    simpl size. simpl list_sum. specialize (IHx Hsx).
    assert (S (list_sum (List.map (fun y => S (size y)) l))
            <= String.length (elems_rest stringify l)); [|lia].
    clear -IHl Hsl. induction IHl as [|y l Hy Hl IH']; simpl; [lia|].
    simpl in Hsl. apply andb_true_iff in Hsl as [Hsy Hsl].
    specialize (Hy Hsy). specialize (IH' Hsl).
    norm_str. simpl. rewrite length_append. lia.
  - destruct o as [|[k x] o]; [simpl; lia|].
    inversion IH as [|? ? IHx IHo]; subst. simpl in IHx.
    simpl in Hs. apply andb_true_iff in Hs as [_ Hs].
    apply andb_true_iff in Hs as [Hsx Hso].
    apply andb_true_iff in Hsx as [_ Hsx]. specialize (IHx Hsx).
    simpl stringify. norm_str. simpl String.length.
    rewrite !length_append.
    simpl size. simpl list_sum.
    assert (S (list_sum (List.map (fun kv => S (size (snd kv))) o))
            <= String.length (members_rest stringify o));
      [|simpl; rewrite ?length_append; simpl; lia].
    clear -IHo Hso. induction IHo as [|[k' y] o Hy Ho IH']; simpl; [lia|].
    simpl in Hso. apply andb_true_iff in Hso as [Hsy Hso].
    apply andb_true_iff in Hsy as [_ Hsy]. simpl in Hy.
    specialize (Hy Hsy). specialize (IH' Hso).
    norm_str. simpl. rewrite ?length_append. simpl in *.
    rewrite ?length_append. lia.
Qed.

(** [JSON.parse (JSON.stringify v)] is [v]. *)
Lemma parse_stringify (v : json) :
  serializable v = true -> parse (stringify v) = Some v.
Proof.
  intros Hd. unfold parse.
  rewrite <- (append_empty_r (stringify v)) at 2.
  rewrite skip_ws_stringify by exact Hd.
  rewrite parse_value_stringify;
    [reflexivity | assumption | | reflexivity].
  pose proof (size_le_length v Hd). lia.
Qed.

Lemma stringify_nonempty (v : json) :
  serializable v = true -> stringify v <> "".
Proof.
  intros Hs. destruct (stringify_head v Hs) as (c & s & -> & _). discriminate.
Qed.

End JSONFacts.
(** The engine's functions are not unfolded by [simpl] in what follows. *)
Arguments Number.of_nat : simpl never.
Arguments Number.ltb_Z : simpl never.
Arguments Number.toString : simpl never.
Arguments Number.of_decimal : simpl never.
Arguments toUpperCase : simpl never.
Arguments trim : simpl never.
Arguments trimStart : simpl never.
Arguments trimEnd : simpl never.
Arguments substring0 : simpl never.
Arguments utf16_length : simpl never.
Arguments JSON.stringify : simpl never.
Arguments JSON.parse : simpl never.

(* ================================================================== *)
(** * Properties of the results page *)
(* ================================================================== *)

Module ResultsFacts.
Import Results.

Lemma mapM_total {A B} (f : A -> outcome B) (l : list A) :
  Forall (fun x => exists y, f x = Done y) l ->
  exists ys, mapM f l = Done ys /\ List.length ys = List.length l.
Proof.
  induction 1 as [|x l [y Hy] _ [ys [Hys Hlen]]]; simpl.
  - exists []. split; reflexivity.
  - rewrite Hy, Hys. simpl. exists (y :: ys). split; [reflexivity|].
    simpl. now rewrite Hlen.
Qed.

Lemma mapM_length {A B} (f : A -> outcome B) (l : list A) (ys : list B) :
  mapM f l = Done ys -> List.length ys = List.length l.
Proof.
  revert ys. induction l as [|x l IH]; simpl; intros ys H.
  - now inversion H.
  - destruct (f x) as [y| |]; simpl in H; try discriminate.
    destruct (mapM f l) as [zs| |]; simpl in H; try discriminate.
    inversion H; subst. simpl. now rewrite (IH zs).
Qed.

Lemma well_formed_match_obj (m : json) :
  well_formed_match m = true -> exists o, m = JObj o.
Proof. destruct m; simpl; try discriminate. eauto. Qed.

Lemma forallb_firstn {A} (p : A -> bool) (n : nat) (l : list A) :
  forallb p l = true -> forallb p (firstn n l) = true.
Proof.
  revert n. induction l as [|x l IH]; intros [|n]; simpl; auto.
  intros H. apply andb_true_iff in H as [Hx Hl]. now rewrite Hx, IH.
Qed.

(** On a list of objects the filter of the page is the plain filter. *)
Lemma filterM_person (l : list json) :
  forallb well_formed_match l = true ->
  filterM is_person_match l = Done (List.filter is_person l).
Proof.
  induction l as [|m l IH]; simpl; [reflexivity|]. intros H.
  apply andb_true_iff in H as [Hm Hl].
  destruct (well_formed_match_obj m Hm) as [o ->].
  rewrite (IH Hl). reflexivity.
Qed.

Lemma mapM_render_person (l : list json) :
  forallb well_formed_match l = true ->
  mapM render_person (List.filter is_person l)
  = Done (List.map (fun p => (field p "name", p)) (List.filter is_person l)).
Proof.
  induction l as [|m l IH]; simpl; [reflexivity|]. intros H.
  apply andb_true_iff in H as [Hm Hl].
  destruct (well_formed_match_obj m Hm) as [o ->].
  destruct (is_person (JObj o)); [|auto].
  simpl. rewrite (IH Hl). reflexivity.
Qed.

Lemma render_eu_item_total (m : json) :
  well_formed_match m = true -> exists i, render_eu_item m = Done i.
Proof.
  intros H. destruct (well_formed_match_obj m H) as [o ->].
  simpl in H. apply andb_true_iff in H as [Hs Hm].
  unfold render_eu_item. simpl.
  destruct (is_str (lookup_prop "type" o) "person_match"); [eauto|].
  destruct (lookup_prop "specification" o) as [[| | |s| |]|];
    simpl in Hs; try discriminate;
  destruct (lookup_prop "measures" o) as [[| | | |ms|]|];
    simpl in Hm; try discriminate; simpl;
  repeat match goal with
    | |- context [if ?b then _ else _] => destruct b; simpl
    end; eauto.
Qed.

Lemma render_un_item_total (m : json) :
  well_formed_match m = true -> exists i, render_un_item m = Done i.
Proof.
  intros H. destruct (well_formed_match_obj m H) as [o ->].
  unfold render_un_item. simpl. eauto.
Qed.

Lemma render_card_total {I} (item : json -> outcome I) (found matches : jsval) :
  (forall m, well_formed_match m = true -> exists i, item m = Done i) ->
  absent_or (array_of well_formed_match) matches = true ->
  exists c, render_card item found matches = Done c.
Proof.
  intros Hitem H. unfold render_card.
  destruct (truthy_val found); [|simpl; eauto].
  destruct matches as [[| | | |l|]|]; simpl in H; try discriminate;
    simpl; eauto.
  destruct (Number.ltb_Z 0 (Number.of_nat (List.length l))); simpl; [|eauto].
  destruct (mapM_total item (firstn 5 l)) as (ys & Hys & _).
  - apply Forall_forall. intros m Hin. apply Hitem.
    pose proof (forallb_firstn _ 5 l H) as Hf.
    rewrite forallb_forall in Hf. apply Hf.
    now apply list_elem_of_In.
  - rewrite Hys. simpl. eauto.
Qed.

Lemma risk_badge_total (risk : jsval) :
  absent_or is_string risk = true ->
  (exists c, getRiskBadgeClass risk = Done c)
  /\ (exists l, getRiskLabel risk = Done l).
Proof.
  destruct risk as [[| | |s| |]|]; simpl; try discriminate; intros _;
    unfold getRiskBadgeClass, getRiskLabel; simpl; eauto.
  destruct (s =? ""); simpl; [eauto|].
  split;
    repeat match goal with
      | |- context [if ?b then _ else _] => destruct b
      end; eauto.
Qed.

(** The final view of a well-formed envelope is always produced. *)
Lemma render_final_total (r : json) :
  well_formed r = true -> exists v, render_final r = Done v.
Proof.
  destruct r as [| | | | |o]; simpl; try discriminate. intros H.
  apply andb_true_iff in H as [H Hrisk].
  apply andb_true_iff in H as [Heu Hun].
  unfold render_final, isHighRisk. simpl.
  destruct (risk_badge_total _ Hrisk) as [[c ->] [l ->]]. simpl.
  destruct (render_card_total render_eu_item (lookup_prop "eu_found" o) _
              render_eu_item_total Heu) as [ceu ->].
  simpl.
  destruct (render_card_total render_un_item (lookup_prop "un_found" o) _
              render_un_item_total Hun) as [cun ->].
  simpl.
  destruct (lookup_prop "evidence_urls" o) as [[| | |s|es|eo]|]; simpl;
    try (destruct (_ =? "length")); simpl; eauto.
Qed.


Lemma get_truthy (r : json) (k : string) :
  truthy r = true -> exists v, get r k = Done v.
Proof.
  destruct r; simpl; try discriminate; intros _; eauto;
    destruct (k =? "length"); eauto.
Qed.

Lemma should_show_spec (o : list (string * json)) :
  well_formed (JObj o) = true ->
  exists b, shouldShowPersonSelection (JObj o) = Done b
            /\ (b = true <-> selection_condition (JObj o)).
Proof.
  simpl. intros H.
  apply andb_true_iff in H as [H _]. apply andb_true_iff in H as [Heu _].
  unfold shouldShowPersonSelection, selection_condition. simpl.
  destruct (truthy_val (lookup_prop "eu_found" o)) eqn:E.
  { exists false. split; [reflexivity|]. split; [discriminate|].
    intros [? _]. discriminate. }
  destruct (truthy_val (lookup_prop "un_found" o)) eqn:U.
  { exists false. split; [reflexivity|]. split; [discriminate|].
    intros (_ & ? & _). discriminate. }
  destruct (lookup_prop "eu_matches" o) as [[| | | |l|]|];
    simpl in Heu; try discriminate; simpl.
  - exists false. split; [reflexivity|]. split; [discriminate|].
    intros (_ & _ & l & Hl & _). discriminate.
  - rewrite (filterM_person l Heu). simpl.
    exists (1 <? List.length (List.filter is_person l))%nat.
    split; [reflexivity|]. rewrite Nat.ltb_lt. split.
    + intros Hlt. repeat split. exists l. split; [reflexivity | assumption].
    + intros (_ & _ & l' & Hl' & Hlt). now inversion Hl'; subst.
  - exists false. split; [reflexivity|]. split; [discriminate|].
    intros (_ & _ & l & Hl & _). discriminate.
Qed.

Lemma render_selection_total (st : ResultsState) (l : list json) :
  field (results st) "eu_matches" = Some (JArr l) ->
  forallb well_formed_match l = true ->
  exists v, render_selection st = Done v
            /\ List.map snd (sv_persons v) = List.filter is_person l.
Proof.
  destruct st as [r ld sc sp sg]. simpl. intros Hl Hwf.
  destruct r as [| | | | |o]; simpl in Hl; try discriminate.
  unfold render_selection. simpl. rewrite Hl. simpl.
  rewrite (filterM_person l Hwf). simpl.
  rewrite (mapM_render_person l Hwf). simpl.
  assert (Hmodal : exists m,
    (if sc then
       if truthy sp then bind (get sp "name") (fun n => Done (Shown n))
       else Done (Hidden (Some sp))
     else Done (Hidden (Some (JBool false)))) = Done m).
  { destruct sc; [|eauto]. destruct (truthy sp) eqn:T; [|eauto].
    destruct (get_truthy sp "name" T) as [n ->]. simpl. eauto. }
  destruct Hmodal as [m ->]. simpl.
  destruct sg; [destruct sp|]; simpl;
    (eexists; split; [reflexivity|]; simpl;
     rewrite map_map; simpl; apply map_id).
Qed.


Lemma get_field (r : json) (k : string) :
  truthy r = true -> (k =? "length") = false -> get r k = Done (field r k).
Proof.
  destruct r; simpl; try discriminate; intros _ Hk; try reflexivity;
    now rewrite Hk.
Qed.

Lemma bind_done {A B} (m : outcome A) (f : A -> outcome B) (b : B) :
  bind m f = Done b -> exists a, m = Done a /\ f a = Done b.
Proof. destruct m; simpl; try discriminate. eauto. Qed.

Ltac bind_inv H :=
  repeat match type of H with
    | bind _ _ = Done _ =>
        let a := fresh "a" in
        let Ha := fresh "Ha" in
        apply bind_done in H as (a & Ha & H)
    end.

(** What the component function returns when it returns the final view. *)
Lemma render_final_view (st : ResultsState) (v : final_view) :
  render st = Done (FinalResults v) ->
  loading st = false /\ truthy (results st) = true
  /\ render_final (results st) = Done v.
Proof.
  unfold render. destruct (loading st); [discriminate|].
  destruct (truthy (results st)); [|discriminate]. simpl.
  intros H. bind_inv H.
  destruct a.
  - bind_inv H. discriminate.
  - bind_inv H. inversion H; subst. auto.
Qed.

Lemma render_selection_view (st : ResultsState) (v : selection_view) :
  render st = Done (PersonSelection v) ->
  loading st = false /\ truthy (results st) = true
  /\ shouldShowPersonSelection (results st) = Done true
  /\ render_selection st = Done v.
Proof.
  unfold render. destruct (loading st); [discriminate|].
  destruct (truthy (results st)); [|discriminate]. simpl.
  intros H. bind_inv H.
  destruct a.
  - bind_inv H. inversion H; subst. auto.
  - bind_inv H. discriminate.
Qed.

(** The parts of the final view, from the fields of the envelope. *)
Lemma render_final_parts (r : json) (v : final_view) :
  truthy r = true ->
  render_final r = Done v ->
  fv_query v = field r "query"
  /\ fv_banner v = guard (js_or (field r "eu_found") (field r "un_found")) tt
  /\ getRiskBadgeClass (field r "risk_score") = Done (fv_risk_badge v)
  /\ getRiskLabel (field r "risk_score") = Done (fv_risk_label v)
  /\ fv_type_label v = getSearchTypeLabel (field r "search_type")
  /\ fv_summary v = js_or (field r "ai_summary") (Some (JStr fallback_summary))
  /\ render_card render_eu_item (field r "eu_found") (field r "eu_matches")
     = Done (fv_eu v)
  /\ render_card render_un_item (field r "un_found") (field r "un_matches")
     = Done (fv_un v).
Proof.
  intros Ht H. unfold render_final, isHighRisk in H.
  rewrite Ht in H. simpl negb in H. cbv iota in H.
  rewrite !(get_field r _ Ht) in H by reflexivity.
  simpl bind in H. bind_inv H. inversion H; subst; simpl.
  repeat split; assumption || reflexivity.
Qed.

Lemma as_array_inv (x : jsval) (l : list json) :
  as_array x = Done l -> x = Some (JArr l).
Proof. destruct x as [[| | | |l'|]|]; simpl; try discriminate. now intros [= ->]. Qed.

(** The card of a source: the flag shown is the envelope's flag, and the
    items are the first five elements of the match list, in its order. *)
Lemma render_card_parts {I} (item : json -> outcome I) (found matches : jsval)
    (c : source_card I) :
  render_card item found matches = Done c ->
  badge_text c = (if truthy_val found then "GĂSIT" else "NEGĂSIT")
  /\ badge_class c = (if truthy_val found then "badge-high" else "badge-low")
  /\ forall items, card_items c = Some items ->
       truthy_val found = true
       /\ exists l, matches = Some (JArr l)
                    /\ mapM item (firstn 5 l) = Done items
                    /\ List.length items = Nat.min 5 (List.length l).
Proof.
  unfold render_card. intros H.
  apply bind_done in H as (its0 & Hits0 & H). inversion H; subst; simpl.
  split; [reflexivity|]. split; [reflexivity|]. intros its ->.
  destruct (truthy_val found); [|discriminate]. split; [reflexivity|].
  apply bind_done in Hits0 as (filled & _ & Hits0).
  destruct filled; [|discriminate].
  apply bind_done in Hits0 as (l & Hl & Hits0).
  apply bind_done in Hits0 as (shown & Hshown & Hits0).
  inversion Hits0; subst.
  apply as_array_inv in Hl. exists l. repeat split; try assumption.
  rewrite (mapM_length _ _ _ Hshown). apply length_firstn.
Qed.

End ResultsFacts.

Module HandlerFacts.
Import Results ResultsFacts.

Lemma mapM_In {A B} (f : A -> outcome B) (l : list A) (ys : list B) (y : B) :
  mapM f l = Done ys -> In y ys -> exists x, In x l /\ f x = Done y.
Proof.
  revert ys. induction l as [|x l IH]; simpl; intros ys H Hin.
  - inversion H; subst. contradiction.
  - apply bind_done in H as (b & Hb & H).
    apply bind_done in H as (bs & Hbs & H). inversion H; subst.
    destruct Hin as [<-|Hin]; [eauto|].
    destruct (IH bs Hbs Hin) as (x' & Hx' & Hf). eauto.
Qed.

Lemma filterM_In (f : json -> outcome bool) (l r : list json) (x : json) :
  filterM f l = Done r -> In x r -> In x l /\ f x = Done true.
Proof.
  revert r. induction l as [|y l IH]; simpl; intros r H Hin.
  - inversion H; subst. contradiction.
  - apply bind_done in H as (b & Hb & H).
    apply bind_done in H as (r' & Hr' & H). inversion H; subst.
    destruct b.
    + destruct Hin as [<-|Hin]; [auto|].
      destruct (IH r' Hr' Hin). auto.
    + destruct (IH r' Hr' Hin). auto.
Qed.

Lemma person_match_obj (p : json) :
  is_person_match p = Done true -> exists o, p = JObj o.
Proof.
  destruct p; simpl; try discriminate; eauto.
Qed.

(** A candidate of the selection view is an object of the envelope's EU
    match list, shown under its own [name]. *)
Lemma selection_candidate (st : ResultsState) (v : selection_view)
    (n : jsval) (p : json) :
  render st = Done (PersonSelection v) ->
  In (n, p) (sv_persons v) ->
  truthy (results st) = true /\ truthy p = true /\ get p "name" = Done n
  /\ exists l, field (results st) "eu_matches" = Some (JArr l) /\ In p l.
Proof.
  intros H Hin. apply render_selection_view in H as (_ & Ht & _ & H).
  split; [exact Ht|]. unfold render_selection in H.
  rewrite (get_field _ "eu_matches" Ht eq_refl) in H. simpl bind in H.
  apply bind_done in H as (l & Hl & H). apply as_array_inv in Hl.
  apply bind_done in H as (pm & Hpm & H).
  rewrite (get_field _ "query" Ht eq_refl) in H. simpl bind in H.
  apply bind_done in H as (ps & Hps & H).
  apply bind_done in H as (m & _ & H).
  apply bind_done in H as (ov & _ & H). inversion H; subst. simpl in Hin.
  destruct (mapM_In _ _ _ _ Hps Hin) as (x & Hx & Hrx).
  unfold render_person in Hrx. apply bind_done in Hrx as (n' & Hn' & Hrx).
  inversion Hrx; subst.
  destruct (filterM_In _ _ _ _ Hpm Hx) as [Hxl Hperson].
  destruct (person_match_obj _ Hperson) as [o ->].
  repeat split; try assumption. eauto.
Qed.

(** The requests of [handleSubmit], in both revisions of the search page. *)
Lemma search_validation_both (type_error : string) (env : option string)
    (backend : server) (storage : gmap string string) :
  (forall st : IndexJs.HomeState,
     if (trim (IndexJs.name st) =? "")
     then IndexJs.error (fst (fst (IndexJs.handleSubmit type_error env backend st storage)))
          = IndexJs.validation_message
          /\ snd (fst (IndexJs.handleSubmit type_error env backend st storage)) = storage
          /\ snd (IndexJs.handleSubmit type_error env backend st storage) = []
     else requests (snd (IndexJs.handleSubmit type_error env backend st storage))
          = [search_request env
               [("name", Some (JStr (trim (IndexJs.name st))));
                ("search_type", Some (JStr (IndexJs.searchType st)))]])
  /\ (forall st : Part000.HomeState,
        if (trim (Part000.name st) =? "")
        then Part000.error (fst (fst (Part000.handleSubmit type_error env backend st storage)))
             = Part000.validation_message
             /\ snd (fst (Part000.handleSubmit type_error env backend st storage)) = storage
             /\ snd (Part000.handleSubmit type_error env backend st storage) = []
        else requests (snd (Part000.handleSubmit type_error env backend st storage))
             = [search_request env
                  [("name", Some (JStr (toUpperCase (trim (Part000.name st)))));
                   ("search_type", Some (JStr (Part000.searchType st)))]]).
Proof.
  split; intros st.
  - unfold IndexJs.handleSubmit.
    destruct (trim (IndexJs.name st) =? ""); [auto|].
    destruct (backend _) as [m|[] [data|m]]; reflexivity.
  - unfold Part000.handleSubmit.
    destruct (trim (Part000.name st) =? ""); [auto|].
    destruct (backend _) as [m|[] [data|m]]; reflexivity.
Qed.


Lemma lookup_set_named_ne (k k' : string) (x : json) (o : list (string * json)) :
  k <> k' -> lookup_prop k' (set_named k x o) = lookup_prop k' o.
Proof.
  intros Hne. induction o as [|[k0 v0] o IH]; simpl.
  - destruct (String.eqb_spec k k'); [contradiction | reflexivity].
  - destruct (String.eqb_spec k0 k) as [->|Hk0]; simpl.
    + destruct (String.eqb_spec k k'); [contradiction | reflexivity].
    + now rewrite IH.
Qed.

Lemma lookup_set_index_ne (i : N) (k k' : string) (x : json)
    (o : list (string * json)) :
  k <> k' -> lookup_prop k' (set_index i k x o) = lookup_prop k' o.
Proof.
  intros Hne. induction o as [|[k0 v0] o IH]; simpl.
  - destruct (String.eqb_spec k k'); [contradiction | reflexivity].
  - destruct (String.eqb_spec k0 k) as [->|Hk0]; simpl.
    + destruct (String.eqb_spec k k'); [contradiction | reflexivity].
    + destruct (array_index k0) as [j|]; [destruct (j <? i)%N|]; simpl;
        rewrite ?IH;
        destruct (String.eqb_spec k k'); try contradiction; reflexivity.
Qed.

Lemma lookup_obj_set_ne (k k' : string) (x : json) (o : list (string * json)) :
  k <> k' -> lookup_prop k' (obj_set k x o) = lookup_prop k' o.
Proof.
  intros Hne. unfold obj_set. destruct (array_index k).
  - now apply lookup_set_index_ne.
  - now apply lookup_set_named_ne.
Qed.

(** An envelope that reports an EU match is shown in the final view. *)
Lemma render_final_of (r : json) :
  well_formed r = true ->
  truthy_val (field r "eu_found") = true ->
  exists v, render (showing r) = Done (FinalResults v)
            /\ render_final r = Done v.
Proof.
  intros Hwf Hf. destruct (render_final_total r Hwf) as [v Hv].
  exists v. split; [|exact Hv].
  destruct r as [| | | | |o]; try discriminate Hwf.
  unfold render, showing, shouldShowPersonSelection, isHighRisk.
  cbn [loading results truthy negb orb get bind].
  simpl in Hf. rewrite Hf. cbn [bind]. rewrite Hv. reflexivity.
Qed.

End HandlerFacts.

(* ================================================================== *)
(** * Properties of [trim] and [toUpperCase] *)
(* ================================================================== *)

Module StringFacts.
Import TextFacts.

(** What [Unicode.next] reads are the first bytes of the text, and it
    reads them whatever follows. *)
Lemma next_inv (s : string) (cp : N) (bs r : string) :
  Unicode.next s = Some (cp, bs, r) ->
  s = bs +:+ r
  /\ bs <> ""
  /\ forall x, Unicode.next (bs +:+ x) = Some (cp, bs, x).
Proof.
  intros H. unfold Unicode.next in H. destruct s as [|c s]; [discriminate|].
  cbv zeta in H.
  repeat match type of H with
    | (if ?b then _ else _) = _ => let E := fresh "E" in destruct b eqn:E
    | match ?x with EmptyString => _ | String _ _ => _ end = _ => destruct x
    | None = Some _ => discriminate H
    end;
    injection H as <- <- <-;
    (split; [reflexivity|]); (split; [discriminate|]);
    intros x; cbv [Unicode.next]; rewrite ?append_cons, ?append_nil_l;
    cbv beta iota zeta;
    repeat match goal with
      | Hx : ?b = _ |- context [if ?b then _ else _] => rewrite Hx
      end;
    reflexivity.
Qed.

Lemma next_length (s : string) (cp : N) (bs r : string) :
  Unicode.next s = Some (cp, bs, r) -> String.length r < String.length s.
Proof.
  intros H. apply next_inv in H as (-> & Hbs & _).
  rewrite length_append. destruct bs; [contradiction | simpl; lia].
Qed.

Lemma next_append (s : string) (cp : N) (bs r z : string) :
  Unicode.next s = Some (cp, bs, r) ->
  Unicode.next (s +:+ z) = Some (cp, bs, r +:+ z).
Proof.
  intros H. apply next_inv in H as (-> & _ & H).
  rewrite append_assoc. apply H.
Qed.

(** ** [trimStart] *)

Lemma trimStart_from_clean (fuel : nat) :
  forall s, String.length s <= fuel ->
    starts_white (trimStart_from fuel s) = false.
Proof.
  induction fuel as [|fuel IH]; intros s Hlen.
  - destruct s; [reflexivity | simpl in Hlen; lia].
  - cbn [trimStart_from]. unfold starts_white at 1.
    destruct (Unicode.next s) as [[[cp bs] r]|] eqn:E.
    + destruct (Unicode.is_white cp) eqn:W.
      * apply IH. apply next_length in E. lia.
      * unfold starts_white. now rewrite E.
    + unfold starts_white. now rewrite E.
Qed.

Lemma trimStart_clean (s : string) : starts_white (trimStart s) = false.
Proof. now apply trimStart_from_clean. Qed.

Lemma trimStart_from_id (fuel : nat) (s : string) :
  starts_white s = false -> trimStart_from fuel s = s.
Proof.
  unfold starts_white. intros H. destruct fuel; [reflexivity|].
  cbn [trimStart_from]. destruct (Unicode.next s) as [[[cp bs] r]|]; [|reflexivity].
  now rewrite H.
Qed.

(** ** [trimEnd] *)

Lemma trimEnd_cons (c : ascii) (r : string) :
  trimEnd (String c r)
  = if white_char (String c (trimEnd r)) then "" else String c (trimEnd r).
Proof. reflexivity. Qed.

Lemma trimEnd_prefix (s : string) : exists z, s = trimEnd s +:+ z.
Proof.
  induction s as [|c r [z Hz]]; [now exists ""|].
  rewrite trimEnd_cons. destruct (white_char _).
  - now exists (String c r).
  - exists z. rewrite append_cons. now f_equal.
Qed.

Lemma trimEnd_idem (s : string) : trimEnd (trimEnd s) = trimEnd s.
Proof.
  induction s as [|c r IH]; [reflexivity|].
  rewrite trimEnd_cons. destruct (white_char _) eqn:W; [reflexivity|].
  now rewrite trimEnd_cons, IH, W.
Qed.

Lemma trimEnd_clean (s : string) :
  starts_white s = false -> starts_white (trimEnd s) = false.
Proof.
  intros H. destruct (starts_white (trimEnd s)) eqn:W; [|reflexivity].
  unfold starts_white in W.
  destruct (Unicode.next (trimEnd s)) as [[[cp bs] r]|] eqn:E; [|discriminate].
  destruct (trimEnd_prefix s) as [z Hz].
  apply (next_append _ _ _ _ z) in E. rewrite <- Hz in E.
  unfold starts_white in H. rewrite E in H. congruence.
Qed.

(** Trimming what is trimmed changes nothing. *)
Lemma trim_idem (s : string) : trim (trim s) = trim s.
Proof.
  unfold trim at 1. unfold trimStart.
  rewrite trimStart_from_id.
  - apply trimEnd_idem.
  - apply trimEnd_clean, trimStart_clean.
Qed.

Lemma trimStart_from_suffix (fuel : nat) :
  forall s, exists a, s = a +:+ trimStart_from fuel s.
Proof.
  induction fuel as [|fuel IH]; intros s; [now exists ""|].
  cbn [trimStart_from].
  destruct (Unicode.next s) as [[[cp bs] r]|] eqn:E; [|now exists ""].
  destruct (Unicode.is_white cp); [|now exists ""].
  apply next_inv in E as (-> & _ & _). destruct (IH r) as [a Ha].
  exists (bs +:+ a). rewrite append_assoc. now f_equal.
Qed.

(** What [trim] gives is a part of the text. *)
Lemma trim_part (s : string) : exists a z, s = a +:+ trim s +:+ z.
Proof.
  unfold trim. destruct (trimStart_from_suffix (String.length s) s) as [a Ha].
  fold (trimStart s) in Ha. destruct (trimEnd_prefix (trimStart s)) as [z Hz].
  exists a, z. now rewrite <- Hz.
Qed.

(** ** The names that trim to nothing *)

Lemma trimEnd_empty (s : string) :
  starts_white s = false -> trimEnd s = "" -> s = "".
Proof.
  intros H Ht. destruct s as [|c r]; [reflexivity|]. exfalso.
  rewrite trimEnd_cons in Ht.
  destruct (white_char _) eqn:W; [|discriminate].
  unfold white_char in W.
  destruct (Unicode.next (String c (trimEnd r))) as [[[cp bs] [|? ?]]|] eqn:E;
    try discriminate.
  destruct (trimEnd_prefix r) as [z Hz].
  apply (next_append _ _ _ _ z) in E. rewrite append_cons, <- Hz in E.
  unfold starts_white in H. rewrite E in H. congruence.
Qed.

Lemma trimStart_from_empty (fuel : nat) :
  forall s, String.length s <= fuel ->
    (trimStart_from fuel s = "" <-> all_space_from fuel s = true).
Proof.
  induction fuel as [|fuel IH]; intros s Hlen.
  - destruct s; [simpl; tauto | simpl in Hlen; lia].
  - destruct s as [|c r]; [simpl; tauto|].
    cbn [trimStart_from all_space_from].
    destruct (Unicode.next (String c r)) as [[[cp bs] r']|] eqn:E.
    + destruct (Unicode.is_white cp); cbn [andb].
      * apply IH. apply next_length in E. lia.
      * split; discriminate.
    + split; discriminate.
Qed.

(** A text trims to the empty text exactly when it is made of white
    space only. *)
Lemma trim_empty (s : string) : trim s = "" <-> all_space s = true.
Proof.
  unfold trim, all_space. rewrite <- trimStart_from_empty by reflexivity.
  fold (trimStart s). split.
  - apply trimEnd_empty, trimStart_clean.
  - intros ->. reflexivity.
Qed.

Lemma trim_eqb_empty (s : string) : (trim s =? "") = all_space s.
Proof.
  destruct (String.eqb_spec (trim s) "") as [E|E].
  - symmetry. now apply trim_empty.
  - destruct (all_space s) eqn:A; [|reflexivity].
    apply trim_empty in A. contradiction.
Qed.

(** ** [toUpperCase] *)

Lemma find_special_In (cp : N) (l : list (N * list N)) (v : list N) :
  Unicode.find_special cp l = Some v -> In (cp, v) l.
Proof.
  induction l as [|[k w] l IH]; simpl; [discriminate|].
  destruct (N.eqb_spec k cp) as [->|_].
  - intros [= ->]. now left.
  - intros H. right. auto.
Qed.

Lemma upper_special_nonempty :
  forallb (fun kv : N * list N => negb (Nat.eqb (List.length (snd kv)) 0))
    Unicode.upper_special = true.
Proof. vm_compute. reflexivity. Qed.

Lemma upper_nonempty (cp : N) (l : list N) :
  Unicode.upper cp = Some l -> l <> [].
Proof.
  unfold Unicode.upper.
  destruct (Unicode.find_special cp Unicode.upper_special) as [v|] eqn:E.
  - intros [= <-]. apply find_special_In in E.
    pose proof upper_special_nonempty as H. rewrite forallb_forall in H.
    specialize (H _ E). destruct v; [discriminate H | discriminate].
  - destruct (Unicode.find_run cp Unicode.upper_runs); [|discriminate].
    intros [= <-]. discriminate.
Qed.

Lemma encode_nonempty (cp : N) : Unicode.encode cp <> "".
Proof.
  unfold Unicode.encode.
  repeat match goal with |- context [if ?b then _ else _] => destruct b end;
    discriminate.
Qed.

Lemma append_nonempty (a b : string) : a <> "" -> a +:+ b <> "".
Proof. destruct a; [contradiction|]. rewrite append_cons. discriminate. Qed.

(** Only the empty text has an empty upper case. *)
Lemma toUpperCase_empty (s : string) : toUpperCase s = "" <-> s = "".
Proof.
  split; [|intros ->; reflexivity].
  destruct s as [|c r]; [reflexivity|]. unfold toUpperCase.
  cbn [String.length upper_from]. intros H. exfalso. revert H.
  destruct (Unicode.next (String c r)) as [[[cp bs] r']|] eqn:E.
  - destruct (Unicode.upper cp) as [l|] eqn:U.
    + apply append_nonempty. apply upper_nonempty in U.
      destruct l as [|x l]; [contradiction|]. cbn [Unicode.encode_all].
      apply append_nonempty, encode_nonempty.
    + apply append_nonempty. now apply next_inv in E as (_ & Hbs & _).
  - discriminate.
Qed.

End StringFacts.

(* ================================================================== *)
(** * Properties of [length] and [substring] *)
(* ================================================================== *)

Module SubstringFacts.
Import TextFacts StringFacts.

Lemma length_from_fuel (f1 : nat) :
  forall f2 s, String.length s <= f1 -> String.length s <= f2 ->
    length_from f1 s = length_from f2 s.
Proof.
  induction f1 as [|f1 IH]; intros f2 s H1 H2.
  - destruct s; [|simpl in H1; lia]. destruct f2; reflexivity.
  - destruct f2 as [|f2].
    + destruct s; [reflexivity | simpl in H2; lia].
    + cbn [length_from].
      destruct (Unicode.next s) as [[[cp bs] r]|] eqn:E.
      * f_equal. apply next_length in E. apply IH; lia.
      * destruct s as [|c r]; [reflexivity|]. f_equal.
        simpl in H1, H2. apply IH; lia.
Qed.

Lemma utf16_length_next (s : string) (cp : N) (bs r : string) :
  Unicode.next s = Some (cp, bs, r) ->
  utf16_length s = (if (cp <? 65536)%N then 1 else 2) + utf16_length r.
Proof.
  intros E. pose proof (next_length _ _ _ _ E) as Hlen.
  unfold utf16_length. destruct s as [|c s]; [discriminate E|].
  cbn [String.length length_from] in *. rewrite E. f_equal.
  apply length_from_fuel; lia.
Qed.

Lemma utf16_length_raw (c : ascii) (r : string) :
  Unicode.next (String c r) = None ->
  utf16_length (String c r) = S (utf16_length r).
Proof.
  intros E. unfold utf16_length. cbn [String.length length_from].
  now rewrite E.
Qed.

Lemma utf16_length_pos (c : ascii) (r : string) : 1 <= utf16_length (String c r).
Proof.
  destruct (Unicode.next (String c r)) as [[[cp bs] r']|] eqn:E.
  - rewrite (utf16_length_next _ _ _ _ E). destruct (cp <? 65536)%N; lia.
  - rewrite (utf16_length_raw _ _ E). lia.
Qed.

Lemma substring0_S (n : nat) (s : string) :
  substring0 (S n) s
  = match Unicode.next s with
    | Some (cp, bs, r) =>
        if (cp <? 65536)%N then bs +:+ substring0 n r
        else
          match n with
          | O => Unicode.encode (Unicode.high_surrogate cp)
          | S n' => bs +:+ substring0 n' r
          end
    | None =>
        match s with
        | String c r => String c (substring0 n r)
        | EmptyString => EmptyString
        end
    end.
Proof. reflexivity. Qed.

(** A text of at most [n] code units is its own first [n] code units. *)
Lemma substring0_all (n : nat) :
  forall s, utf16_length s <= n -> substring0 n s = s.
Proof.
  induction n as [n IH] using lt_wf_ind. intros s H.
  destruct n as [|n].
  - destruct s as [|c r]; [reflexivity|].
    pose proof (utf16_length_pos c r). lia.
  - rewrite substring0_S.
    destruct (Unicode.next s) as [[[cp bs] r]|] eqn:E.
    + rewrite (utf16_length_next _ _ _ _ E) in H.
      apply next_inv in E as (-> & _ & _).
      destruct (cp <? 65536)%N.
      * rewrite (IH n) by lia. reflexivity.
      * destruct n as [|n]; [lia|]. rewrite (IH n) by lia. reflexivity.
    + destruct s as [|c r]; [reflexivity|].
      rewrite (utf16_length_raw _ _ E) in H. rewrite (IH n) by lia.
      reflexivity.
Qed.

Lemma valid_from_fuel (f1 : nat) :
  forall f2 s, String.length s <= f1 -> String.length s <= f2 ->
    valid_from f1 s = valid_from f2 s.
Proof.
  induction f1 as [|f1 IH]; intros f2 s H1 H2.
  - destruct s; [|simpl in H1; lia]. destruct f2; reflexivity.
  - destruct f2 as [|f2].
    + destruct s; [reflexivity | simpl in H2; lia].
    + cbn [valid_from]. destruct s as [|c s]; [reflexivity|].
      destruct (Unicode.next (String c s)) as [[[cp bs] r]|] eqn:E;
        [|reflexivity].
      apply next_length in E. apply IH; lia.
Qed.

Lemma valid_inv (s : string) :
  valid s = true ->
  s = "" \/ exists cp bs r, Unicode.next s = Some (cp, bs, r) /\ valid r = true.
Proof.
  unfold valid. destruct s as [|c s]; [now left|]. right.
  cbn [String.length valid_from] in H.
  destruct (Unicode.next (String c s)) as [[[cp bs] r]|] eqn:E; [|discriminate].
  exists cp, bs, r. split; [reflexivity|]. rewrite <- H.
  apply next_length in E. simpl in E. apply valid_from_fuel; lia.
Qed.

Lemma next_range (s : string) (cp : N) (bs r : string) :
  Unicode.next s = Some (cp, bs, r) -> (cp <= 1114111)%N.
Proof.
  intros H. unfold Unicode.next, Unicode.continuation in H.
  destruct s as [|c s]; [discriminate|]. cbv zeta in H.
  repeat match type of H with
    | (if ?b then _ else _) = _ => let E := fresh "E" in destruct b eqn:E
    | match ?x with EmptyString => _ | String _ _ => _ end = _ => destruct x
    | None = Some _ => discriminate H
    end;
    injection H as <- _ _;
    repeat match goal with
      | Hx : _ && _ = true |- _ => apply andb_true_iff in Hx as [? ?]
      | Hx : (_ <? _)%N = true |- _ => apply N.ltb_lt in Hx
      | Hx : (_ <? _)%N = false |- _ => apply N.ltb_ge in Hx
      | Hx : (_ <=? _)%N = true |- _ => apply N.leb_le in Hx
      end;
    lia.
Qed.

Lemma high_surrogates_read :
  forallb (fun u => match Unicode.next (Unicode.encode u) with
                    | Some (v, _, EmptyString) => (v =? u)%N
                    | _ => false
                    end) high_surrogates = true.
Proof. vm_compute. reflexivity. Qed.

(** The first code unit of a code point above [U+FFFF] is one code unit. *)
Lemma utf16_length_high (cp : N) :
  (65536 <= cp <= 1114111)%N ->
  utf16_length (Unicode.encode (Unicode.high_surrogate cp)) = 1.
Proof.
  intros H. pose proof high_surrogates_read as Hall.
  rewrite forallb_forall in Hall.
  assert (Hin : In (Unicode.high_surrogate cp) high_surrogates).
  { unfold high_surrogates, Unicode.high_surrogate. apply in_map_iff.
    exists (N.to_nat ((cp - 65536) / 1024)). split.
    - now rewrite N2Nat.id.
    - apply in_seq.
      assert (Hq : ((cp - 65536) / 1024 < 1024)%N)
        by (apply N.Div0.div_lt_upper_bound; lia).
      revert Hq. generalize ((cp - 65536) / 1024)%N. intros q Hq.
      change (0 + 1024) with 1024. lia. }
  specialize (Hall _ Hin).
  destruct (Unicode.next (Unicode.encode (Unicode.high_surrogate cp)))
    as [[[v bs] [|? ?]]|] eqn:E; try discriminate.
  rewrite (utf16_length_next _ _ _ _ E).
  apply N.eqb_eq in Hall. subst v.
  assert (Hlt : (Unicode.high_surrogate cp <? 65536)%N = true).
  { apply N.ltb_lt. unfold Unicode.high_surrogate.
    assert (Hq : ((cp - 65536) / 1024 < 1024)%N)
      by (apply N.Div0.div_lt_upper_bound; lia).
    revert Hq. generalize ((cp - 65536) / 1024)%N. intros q Hq. lia. }
  rewrite Hlt. reflexivity.
Qed.

(** The first [n] code units of a text are [n] code units, or the whole
    text. *)
Lemma substring0_length (n : nat) :
  forall s, valid s = true ->
    utf16_length (substring0 n s) = Nat.min n (utf16_length s).
Proof.
  induction n as [n IH] using lt_wf_ind. intros s Hv.
  destruct n as [|n]; [reflexivity|].
  rewrite substring0_S.
  destruct (valid_inv s Hv) as [->|(cp & bs & r & E & Hr)]; [reflexivity|].
  rewrite E, (utf16_length_next _ _ _ _ E).
  pose proof (next_range _ _ _ _ E) as Hmax.
  apply next_inv in E as (_ & _ & E).
  destruct (cp <? 65536)%N eqn:Hcp.
  - rewrite (utf16_length_next _ _ _ _ (E _)), Hcp, (IH n) by (lia || assumption).
    lia.
  - apply N.ltb_ge in Hcp. destruct n as [|n].
    + rewrite utf16_length_high by lia. reflexivity.
    + rewrite (utf16_length_next _ _ _ _ (E _)).
      apply N.ltb_ge in Hcp. rewrite Hcp, (IH n) by (lia || assumption). lia.
Qed.

End SubstringFacts.

(* ================================================================== *)
(** * Facts on the views and on the texts shown *)
(* ================================================================== *)

Module ViewFacts.
Import Results ResultsFacts JSONFacts StringFacts SubstringFacts.

(** Joining what [filter(Boolean)] keeps: no element is [null]. *)
Lemma join_values_truthy (sep : string) (l : list json) :
  join_values sep (List.filter truthy l)
  = join sep (List.map to_string (List.filter truthy l)).
Proof.
  unfold join_values. f_equal. apply map_ext_in.
  intros x Hx. apply filter_In in Hx as [_ Hx].
  destruct x; try reflexivity. discriminate.
Qed.

Lemma truthy_js_or (a b : jsval) :
  truthy_val (js_or a b) = truthy_val a || truthy_val b.
Proof. unfold js_or. destruct (truthy_val a) eqn:E; [exact E | reflexivity]. Qed.

(** The classes and the links of the final view, from the fields of the
    envelope. *)
Lemma render_final_classes (r : json) (v : final_view) :
  truthy r = true ->
  render_final r = Done v ->
  fv_page_class v
  = (if truthy_val (field r "eu_found") || truthy_val (field r "un_found")
     then "high-risk-page" else "")
  /\ fv_summary_class v
     = (if truthy_val (field r "eu_found") || truthy_val (field r "un_found")
        then "summary-card-warning" else "")
  /\ fv_description v
     = "Rezultatele verificării pentru " +:+ to_string_val (field r "query")
  /\ fv_audit_folder v = guard (field r "audit_folder") (field r "audit_folder")
  /\ get_opt (field r "evidence_urls") "eu_evidence"
     = Done (match fv_eu_evidence v with Shown x => x | Hidden x => x end)
  /\ get_opt (field r "evidence_urls") "un_evidence"
     = Done (match fv_un_evidence v with Shown x => x | Hidden x => x end).
Proof.
  intros Ht H. unfold render_final, isHighRisk in H.
  rewrite Ht in H. simpl negb in H. cbv iota in H.
  rewrite !(get_field r _ Ht) in H by reflexivity.
  simpl bind in H.
  apply bind_done in H as (badge & _ & H).
  apply bind_done in H as (label & _ & H).
  apply bind_done in H as (eu & _ & H).
  apply bind_done in H as (un & _ & H).
  apply bind_done in H as (ee & Hee & H).
  apply bind_done in H as (ue & Hue & H).
  inversion H; subst; simpl.
  rewrite !truthy_js_or.
  repeat split; try reflexivity.
  - rewrite Hee. unfold guard. now destruct (truthy_val ee).
  - rewrite Hue. unfold guard. now destruct (truthy_val ue).
Qed.

(** The card class goes with the flag. *)
Lemma render_card_class {I} (item : json -> outcome I) (found matches : jsval)
    (c : source_card I) :
  render_card item found matches = Done c ->
  card_class c = (if truthy_val found then "result-card-danger" else "").
Proof.
  unfold render_card. intros H.
  apply bind_done in H as (its0 & _ & H). now inversion H.
Qed.

(** The selection view, part by part. *)
Lemma render_selection_parts (st : ResultsState) (v : selection_view) :
  truthy (results st) = true ->
  render_selection st = Done v ->
  exists l persons,
    field (results st) "eu_matches" = Some (JArr l)
    /\ filterM is_person_match l = Done persons
    /\ mapM render_person persons = Done (sv_persons v)
    /\ sv_count v = List.length persons
    /\ sv_query v = field (results st) "query"
    /\ (if showConfirmation st then
          if truthy (selectedPerson st) then
            exists n, get (selectedPerson st) "name" = Done n
                      /\ sv_modal v = Shown n
          else sv_modal v = Hidden (Some (selectedPerson st))
        else sv_modal v = Hidden (Some (JBool false)))
    /\ (if searching st then
          exists n, get_opt (Some (selectedPerson st)) "name" = Done n
                    /\ sv_overlay v = Shown n
        else sv_overlay v = Hidden (Some (JBool false))).
Proof.
  intros Ht H. unfold render_selection in H.
  rewrite !(get_field _ _ Ht) in H by reflexivity.
  simpl bind in H.
  apply bind_done in H as (l & Hl & H).
  apply bind_done in H as (persons & Hp & H).
  apply bind_done in H as (shown & Hs & H).
  apply bind_done in H as (modal & Hm & H).
  apply bind_done in H as (overlay & Ho & H).
  inversion H; subst; simpl.
  apply as_array_inv in Hl.
  exists l, persons. repeat split; try assumption.
  - destruct (showConfirmation st).
    + destruct (truthy (selectedPerson st)).
      * apply bind_done in Hm as (n & Hn & Hm). inversion Hm; subst. eauto.
      * now inversion Hm.
    + now inversion Hm.
  - destruct (searching st).
    + apply bind_done in Ho as (n & Hn & Ho). inversion Ho; subst. eauto.
    + now inversion Ho.
Qed.

(** When the selection is due: the flags and the count. *)
Lemma should_show_inv (r : json) :
  truthy r = true ->
  shouldShowPersonSelection r = Done true ->
  truthy_val (field r "eu_found") = false
  /\ truthy_val (field r "un_found") = false
  /\ exists l persons,
       field r "eu_matches" = Some (JArr l)
       /\ filterM is_person_match l = Done persons
       /\ 1 < List.length persons.
Proof.
  intros Ht H. unfold shouldShowPersonSelection in H.
  rewrite Ht in H. simpl negb in H. cbv iota in H.
  rewrite !(get_field r _ Ht) in H by reflexivity.
  simpl bind in H.
  destruct (truthy_val (field r "eu_found")); [discriminate|].
  destruct (truthy_val (field r "un_found")); [discriminate|].
  apply bind_done in H as (persons & Hp & H).
  destruct persons as [persons|]; [|discriminate].
  injection H as Hlen. apply Nat.ltb_lt in Hlen.
  unfold person_matches in Hp.
  destruct (field r "eu_matches") as [[| | | |l|]|]; try discriminate.
  simpl in Hp. apply bind_done in Hp as (ps & Hps & Hp).
  injection Hp as ->.
  split; [reflexivity|]. split; [reflexivity|].
  exists l, persons. repeat split; try assumption.
Qed.

Lemma serializable_field (r : json) (k : string) (x : json) :
  JSON.serializable r = true -> field r k = Some x ->
  JSON.serializable x = true.
Proof.
  destruct r as [| | | | |o]; simpl; try discriminate.
  intros H Hk. apply andb_true_iff in H as [_ H].
  induction o as [|[k' x'] o IH]; simpl in *; [discriminate|].
  apply andb_true_iff in H as [Hx H].
  apply andb_true_iff in Hx as [_ Hx].
  destruct (k' =? k); [injection Hk as <-; exact Hx | exact (IH H Hk)].
Qed.

(** A request body made of two properties is read back as written. *)
Lemma parse_search_body (n t : jsval) :
  (forall x, n = Some x -> JSON.serializable x = true) ->
  (forall x, t = Some x -> JSON.serializable x = true) ->
  JSON.parse (JSON.stringify
                (JObj (object_literal [("name", n); ("search_type", t)])))
  = Some (JObj (object_literal [("name", n); ("search_type", t)])).
Proof.
  intros Hn Ht. apply parse_stringify.
  destruct n as [n|], t as [t|]; cbn -[JSON.well_formed];
    rewrite ?(Hn _ eq_refl), ?(Ht _ eq_refl); reflexivity.
Qed.

(** A property read that does not throw gives the data property. *)
Lemma get_done_field (r : json) (k : string) (x : jsval) :
  (k =? "length") = false -> get r k = Done x -> x = field r k.
Proof.
  intros Hk. destruct r; simpl; rewrite ?Hk; intros H;
    try discriminate; now injection H as <-.
Qed.

(** The selection view as a function of its parts. *)
Lemma render_selection_of (st : ResultsState) (l ps : list json)
    (shown : list (jsval * json)) :
  truthy (results st) = true ->
  field (results st) "eu_matches" = Some (JArr l) ->
  filterM is_person_match l = Done ps ->
  mapM render_person ps = Done shown ->
  render_selection st
  = (let! modal :=
       (if showConfirmation st then
          if truthy (selectedPerson st) then
            let! n := get (selectedPerson st) "name" in Done (Shown n)
          else Done (Hidden (Some (selectedPerson st)))
        else Done (Hidden (Some (JBool false)))) in
     let! overlay :=
       (if searching st then
          let! n := get_opt (Some (selectedPerson st)) "name" in Done (Shown n)
        else Done (Hidden (Some (JBool false)))) in
     Done {| sv_query := field (results st) "query";
             sv_count := List.length ps;
             sv_persons := shown;
             sv_modal := modal;
             sv_overlay := overlay |}).
Proof.
  intros Ht Hl Hps Hmap. unfold render_selection.
  rewrite !(get_field _ _ Ht) by reflexivity. rewrite Hl.
  simpl bind. rewrite Hps. simpl bind. rewrite Hmap. reflexivity.
Qed.

(** The page keeps showing the selection while only the selection state
    changes. *)
Lemma render_selection_state (st st' : ResultsState) (v : selection_view) :
  render st = Done (PersonSelection v) ->
  results st' = results st -> loading st' = loading st ->
  render st' = (let! v' := render_selection st' in Done (PersonSelection v')).
Proof.
  intros H Hr Hl. unfold render in *. rewrite Hr, Hl.
  destruct (loading st || negb (truthy (results st))); [discriminate|].
  destruct (shouldShowPersonSelection (results st)) as [[|]| |];
    simpl in *; try discriminate;
    destruct (isHighRisk (results st)); simpl in *; try discriminate.
  - reflexivity.
  - destruct (render_final (results st)); discriminate.
Qed.

(** The mount effect after an envelope was stored. *)
Lemma mount_after_store (data : json) (storage : gmap string string) :
  JSON.serializable data = true ->
  useEffect (<[storage_key := JSON.stringify data]> storage) initial
  = (showing data, []).
Proof.
  intros Hd. unfold useEffect. rewrite lookup_insert_eq.
  destruct (String.eqb_spec (JSON.stringify data) "") as [He|_].
  - now apply stringify_nonempty in He.
  - now rewrite (parse_stringify data Hd).
Qed.

(** The card of the second revision is the card of the third without its
    class. *)
Lemma render_card_plain {I} (item : json -> outcome I) (found matches : jsval) :
  ResultsRev2.render_card item found matches
  = (let! c := render_card item found matches in Done (ResultsRev2.plain_card c)).
Proof.
  unfold ResultsRev2.render_card, render_card.
  destruct (truthy_val found); [|reflexivity].
  destruct (nonempty matches) as [[|]| |]; try reflexivity.
  simpl bind. destruct (as_array matches) as [l| |]; try reflexivity.
  simpl bind. destruct (mapM item (firstn 5 l)); reflexivity.
Qed.

(** The final view of the second revision is that of the third without
    the warning styling. *)
Lemma render_final_plain (r : json) :
  truthy r = true ->
  ResultsRev2.render_final r
  = (let! v := render_final r in Done (ResultsRev2.plain v)).
Proof.
  intros Ht. unfold ResultsRev2.render_final, render_final, isHighRisk.
  rewrite Ht. simpl negb. cbv iota.
  rewrite !(get_field r _ Ht) by reflexivity. simpl bind.
  rewrite !render_card_plain.
  destruct (getRiskBadgeClass (field r "risk_score")); try reflexivity.
  destruct (getRiskLabel (field r "risk_score")); try reflexivity.
  simpl bind.
  destruct (render_card render_eu_item _ _); try reflexivity.
  simpl bind.
  destruct (render_card render_un_item _ _); try reflexivity.
  simpl bind.
  destruct (get_opt (field r "evidence_urls") "eu_evidence"); try reflexivity.
  simpl bind.
  destruct (get_opt (field r "evidence_urls") "un_evidence"); reflexivity.
Qed.



End ViewFacts.

(* ================================================================== *)
(** * The claims *)
(* ================================================================== *)

Import Results ResultsFacts JSONFacts HandlerFacts StringFacts ViewFacts.

(** C1. The person selection is shown if and only if the envelope reports
    neither source found and the EU match list holds more than one element
    of type ["person_match"]; for every other envelope the final results
    view is produced; and the candidates listed are the person matches of
    the EU list, in its order. The envelope is one whose fields have the
    types the page uses ([well_formed]). *)
Theorem person_selection_iff (st : ResultsState) :
  loading st = false ->
  well_formed (results st) = true ->
  ((exists v, render st = Done (PersonSelection v))
   <-> selection_condition (results st))
  /\ (~ selection_condition (results st) ->
      exists v, render st = Done (FinalResults v))
  /\ (forall v, render st = Done (PersonSelection v) ->
      exists l, field (results st) "eu_matches" = Some (JArr l)
                /\ List.map snd (sv_persons v) = List.filter is_person l).
Proof.
  intros Hload Hwf.
  destruct (results st) as [| | | | |o] eqn:Hr; try discriminate Hwf.
  destruct (should_show_spec o Hwf) as (b & Hb & Hiff).
  assert (Hrender : render st
            = if b then bind (render_selection st) (fun v => Done (PersonSelection v))
              else bind (render_final (JObj o)) (fun v => Done (FinalResults v))).
  { unfold render. rewrite Hload, Hr. simpl. rewrite Hb. reflexivity. }
  destruct b.
  - assert (Hc : selection_condition (JObj o)) by now apply Hiff.
    pose proof Hc as (_ & _ & l & Hl & _).
    destruct (render_selection_total st l) as (v & Hv & Hpersons).
    + now rewrite Hr.
    + simpl in Hwf. apply andb_true_iff in Hwf as [Hwf _].
      apply andb_true_iff in Hwf as [Heu _]. simpl in Hl.
      rewrite Hl in Heu. exact Heu.
    + split; [|split].
      * split; [intros _; exact Hc|].
        intros _. exists v. rewrite Hrender, Hv. reflexivity.
      * intros Hn. contradiction.
      * intros v' Hv'. rewrite Hrender, Hv in Hv'. inversion Hv'; subst.
        exists l. split; assumption.
  - assert (Hc : ~ selection_condition (JObj o))
      by (intros Hc; apply Hiff in Hc; discriminate).
    destruct (render_final_total (JObj o) Hwf) as [v Hv].
    split; [split; [|tauto] | split].
    + intros [v' Hv']. rewrite Hrender, Hv in Hv'. discriminate.
    + intros _. exists v. rewrite Hrender, Hv. reflexivity.
    + intros v' Hv'. rewrite Hrender, Hv in Hv'. discriminate.
Qed.

Lemma person_selection_iff_witness :
  ((exists v, render (showing candidates_envelope) = Done (PersonSelection v))
   <-> selection_condition candidates_envelope)
  /\ selection_condition candidates_envelope.
Proof.
  destruct (person_selection_iff (showing candidates_envelope) eq_refl eq_refl)
    as [Hiff _].
  split; [exact Hiff|]. apply Hiff.
  eexists. vm_compute. reflexivity.
Defined.

(** C3, the claim as stated fails on the revision [part_000] of the
    search page: for the input [" Acme "] the one request issued carries
    ["ACME"], the trimmed name upper-cased, and not the trimmed name
    ["Acme"]. *)
Lemma upper_cased_name_is_sent :
  trim " Acme " = "Acme"
  /\ requests
       (snd (Part000.handleSubmit "" None (fun _ => FetchRejects "offline")
               {| Part000.name := " Acme "; Part000.searchType := "person";
                  Part000.loading := false; Part000.error := "" |} ∅))
     = [search_request None
          [("name", Some (JStr "ACME")); ("search_type", Some (JStr "person"))]]
  /\ search_request None
       [("name", Some (JStr "ACME")); ("search_type", Some (JStr "person"))]
     <> search_request None
          [("name", Some (JStr (trim " Acme ")));
           ("search_type", Some (JStr "person"))].
Proof.
  split; [reflexivity|]. split; [reflexivity|].
  vm_compute. discriminate.
Qed.

(** C3, amended. When the name is empty after trimming, the search page
    (either revision) sets its validation message, issues no request and
    leaves the storage as it is; when it is not, exactly one request is
    issued, to [/search], carrying the trimmed name as typed in
    [index.js] and the trimmed name upper-cased in [part_000]. *)
Theorem search_validation (type_error : string) (env : option string)
    (backend : server) (storage : gmap string string) :
  (forall st : IndexJs.HomeState,
     if (trim (IndexJs.name st) =? "")
     then IndexJs.error (fst (fst (IndexJs.handleSubmit type_error env backend st storage)))
          = IndexJs.validation_message
          /\ snd (fst (IndexJs.handleSubmit type_error env backend st storage)) = storage
          /\ snd (IndexJs.handleSubmit type_error env backend st storage) = []
     else requests (snd (IndexJs.handleSubmit type_error env backend st storage))
          = [search_request env
               [("name", Some (JStr (trim (IndexJs.name st))));
                ("search_type", Some (JStr (IndexJs.searchType st)))]])
  /\ (forall st : Part000.HomeState,
        if (trim (Part000.name st) =? "")
        then Part000.error (fst (fst (Part000.handleSubmit type_error env backend st storage)))
             = Part000.validation_message
             /\ snd (fst (Part000.handleSubmit type_error env backend st storage)) = storage
             /\ snd (Part000.handleSubmit type_error env backend st storage) = []
        else requests (snd (Part000.handleSubmit type_error env backend st storage))
             = [search_request env
                  [("name", Some (JStr (toUpperCase (trim (Part000.name st)))));
                   ("search_type", Some (JStr (Part000.searchType st)))]]).
Proof.
  split; intros st.
  - unfold IndexJs.handleSubmit.
    destruct (trim (IndexJs.name st) =? ""); [auto|].
    destruct (backend _) as [m|[] [data|m]]; reflexivity.
  - unfold Part000.handleSubmit.
    destruct (trim (Part000.name st) =? ""); [auto|].
    destruct (backend _) as [m|[] [data|m]]; reflexivity.
Qed.

(** C4. When one candidate of the selection list is selected and
    confirmed, exactly one request is issued, to [/search]; its body names
    the candidate's [name] and carries the [search_type] of the envelope on
    display; and when the back end answers with an envelope, that envelope
    replaces the results on display and the stored ones. *)
Theorem confirm_issues_one_request (st : ResultsState) (v : selection_view)
    (n : jsval) (p : json) (env : option string) (backend : server)
    (storage : gmap string string) :
  render st = Done (PersonSelection v) ->
  In (n, p) (sv_persons v) ->
  n = field p "name"
  /\ requests (snd (handleConfirmSearch env backend (handlePersonSelect p st) storage))
     = [search_request env
          [("name", n); ("search_type", field (results st) "search_type")]]
  /\ req_url (search_request env
                [("name", n); ("search_type", field (results st) "search_type")])
     = backendUrl env +:+ "/search"
  /\ (forall candidate_name search_type,
        n = Some (JStr candidate_name) ->
        field (results st) "search_type" = Some (JStr search_type) ->
        req_body (search_request env
                    [("name", n); ("search_type", field (results st) "search_type")])
        = JSON.stringify (JObj [("name", JStr candidate_name);
                                ("search_type", JStr search_type)]))
  /\ (forall data,
        backend (search_request env
                   [("name", n); ("search_type", field (results st) "search_type")])
        = FetchResponse true (JsonBody data) ->
        results (fst (fst (handleConfirmSearch env backend
                             (handlePersonSelect p st) storage))) = data
        /\ snd (fst (handleConfirmSearch env backend
                       (handlePersonSelect p st) storage))
           = <[storage_key := JSON.stringify data]> storage).
Proof.
  intros Hr Hin.
  destruct (selection_candidate st v n p Hr Hin) as (Ht & Hp & Hn & l & Hl & Hpl).
  assert (Hname : n = field p "name").
  { rewrite (get_field p "name" Hp eq_refl) in Hn. now inversion Hn. }
  split; [exact Hname|].
  unfold handleConfirmSearch. simpl. rewrite Hp. simpl. rewrite Hn.
  rewrite (get_field _ "search_type" Ht eq_refl).
  split; [|split; [reflexivity|split]].
  - destruct (backend _) as [m|[] [data|m]]; reflexivity.
  - intros cn ty -> Hty. rewrite Hty. reflexivity.
  - intros data ->. simpl. auto.
Qed.

Lemma confirm_issues_one_request_witness :
  requests
    (snd (handleConfirmSearch None
            (fun _ => FetchResponse true (JsonBody Scenario.acme_envelope))
            (handlePersonSelect (person_match "Ion POPESCU")
               (showing candidates_envelope)) ∅))
  = [search_request None
       [("name", Some (JStr "Ion POPESCU"));
        ("search_type", field candidates_envelope "search_type")]]
  /\ results
       (fst (fst (handleConfirmSearch None
                    (fun _ => FetchResponse true (JsonBody Scenario.acme_envelope))
                    (handlePersonSelect (person_match "Ion POPESCU")
                       (showing candidates_envelope)) ∅)))
     = Scenario.acme_envelope.
Proof.
  assert (Hr : exists v,
             render (showing candidates_envelope) = Done (PersonSelection v)
             /\ In (Some (JStr "Ion POPESCU"), person_match "Ion POPESCU")
                  (sv_persons v)).
  { eexists. split; [vm_compute; reflexivity | left; reflexivity]. }
  destruct Hr as (v & Hv & Hin).
  destruct (confirm_issues_one_request (showing candidates_envelope) v
              (Some (JStr "Ion POPESCU")) (person_match "Ion POPESCU") None
              (fun _ => FetchResponse true (JsonBody Scenario.acme_envelope)) ∅
              Hv Hin)
    as (_ & Hreq & _ & _ & Hdata).
  split; [exact Hreq|]. now apply Hdata.
Defined.



(** C7, the claim as stated fails on the revision [part_000] of the
    search page: it sends the trimmed name upper-cased and nothing else
    of the input, so [" José "] and ["JOSÉ"] give the same request, which
    carries ["JOSÉ"]: the casing typed does not reach the back end, which
    builds the result, and is not preserved for display. *)
Lemma typed_casing_is_not_sent :
  requests
    (snd (Part000.handleSubmit "" None (fun _ => FetchRejects "offline")
            {| Part000.name := " José "; Part000.searchType := "person";
               Part000.loading := false; Part000.error := "" |} ∅))
  = requests
      (snd (Part000.handleSubmit "" None (fun _ => FetchRejects "offline")
              {| Part000.name := "JOSÉ"; Part000.searchType := "person";
                 Part000.loading := false; Part000.error := "" |} ∅))
  /\ requests
       (snd (Part000.handleSubmit "" None (fun _ => FetchRejects "offline")
               {| Part000.name := " José "; Part000.searchType := "person";
                  Part000.loading := false; Part000.error := "" |} ∅))
     = [search_request None
          [("name", Some (JStr "JOSÉ")); ("search_type", Some (JStr "person"))]]
  /\ trim " José " = "José"
  /\ trim " José " <> trim "JOSÉ".
Proof.
  split; [vm_compute; reflexivity|]. split; [vm_compute; reflexivity|].
  split; [vm_compute; reflexivity|]. vm_compute. discriminate.
Qed.

(** C7, amended. The name sent is the input trimmed: a part of the input,
    which trimming again leaves as it is. [index.js] sends it in the
    casing typed. [part_000] sends it upper-cased and sends nothing else
    of the input: two inputs that agree once trimmed and upper-cased give
    the same request, so the casing typed is not carried to the result. *)
Theorem search_key_normalization (type_error : string) (env : option string)
    (backend : server) (storage : gmap string string) :
  (forall raw, trim (trim raw) = trim raw
               /\ exists a z, raw = a +:+ trim raw +:+ z)
  /\ (forall st : IndexJs.HomeState,
        trim (IndexJs.name st) <> "" ->
        requests (snd (IndexJs.handleSubmit type_error env backend st storage))
        = [search_request env
             [("name", Some (JStr (trim (IndexJs.name st))));
              ("search_type", Some (JStr (IndexJs.searchType st)))]])
  /\ (forall st : Part000.HomeState,
        trim (Part000.name st) <> "" ->
        requests (snd (Part000.handleSubmit type_error env backend st storage))
        = [search_request env
             [("name", Some (JStr (toUpperCase (trim (Part000.name st)))));
              ("search_type", Some (JStr (Part000.searchType st)))]])
  /\ (forall st st' : Part000.HomeState,
        Part000.searchType st = Part000.searchType st' ->
        toUpperCase (trim (Part000.name st)) = toUpperCase (trim (Part000.name st')) ->
        requests (snd (Part000.handleSubmit type_error env backend st storage))
        = requests (snd (Part000.handleSubmit type_error env backend st' storage))).
Proof.
  destruct (search_validation_both type_error env backend storage) as [Hi Hp].
  split; [|split; [|split]].
  - intros raw. split; [apply trim_idem | apply trim_part].
  - intros st Hne. specialize (Hi st).
    destruct (String.eqb_spec (trim (IndexJs.name st)) ""); [contradiction|].
    exact Hi.
  - intros st Hne. specialize (Hp st).
    destruct (String.eqb_spec (trim (Part000.name st)) ""); [contradiction|].
    exact Hp.
  - intros st st' Hty Hk.
    pose proof (Hp st) as H. pose proof (Hp st') as H'.
    destruct (String.eqb_spec (trim (Part000.name st)) "") as [E|E];
      destruct (String.eqb_spec (trim (Part000.name st')) "") as [E'|E'].
    + destruct H as (_ & _ & ->). destruct H' as (_ & _ & ->). reflexivity.
    + exfalso. apply E'. apply toUpperCase_empty. rewrite <- Hk, E. reflexivity.
    + exfalso. apply E. apply toUpperCase_empty. rewrite Hk, E'. reflexivity.
    + rewrite H, H', Hk, Hty. reflexivity.
Qed.

(** C8. The narrative shown is never empty: whatever the envelope, the
    summary of the final view is a truthy value, and it is the fixed
    fallback text when the envelope's [ai_summary] is absent, [null] or
    the empty string. *)
Theorem narrative_never_empty (st : ResultsState) (v : final_view) :
  render st = Done (FinalResults v) ->
  truthy_val (fv_summary v) = true
  /\ fv_summary v <> Some (JStr "")
  /\ fallback_summary <> ""
  /\ (field (results st) "ai_summary" = None
      \/ field (results st) "ai_summary" = Some JNull
      \/ field (results st) "ai_summary" = Some (JStr "") ->
      fv_summary v = Some (JStr fallback_summary))
  /\ (forall s, field (results st) "ai_summary" = Some (JStr s) -> s <> "" ->
      fv_summary v = Some (JStr s)).
Proof.
  intros H. apply render_final_view in H as (_ & Ht & H).
  apply (render_final_parts _ _ Ht) in H as (_ & _ & _ & _ & _ & Hs & _).
  rewrite Hs. unfold js_or.
  assert (Hfb : fallback_summary <> "") by discriminate.
  split; [|split; [|split; [|split]]].
  - destruct (truthy_val (field (results st) "ai_summary")) eqn:E;
      [exact E | reflexivity].
  - destruct (truthy_val (field (results st) "ai_summary")) eqn:E.
    + intros Heq. rewrite Heq in E. discriminate.
    + discriminate.
  - exact Hfb.
  - intros [-> | [-> | ->]]; reflexivity.
  - intros s -> Hne. simpl.
    destruct (String.eqb_spec s ""); [contradiction | reflexivity].
Qed.

Lemma narrative_never_empty_witness :
  exists v,
    render (showing Scenario.bare_envelope) = Done (FinalResults v)
    /\ truthy_val (fv_summary v) = true
    /\ fv_summary v = Some (JStr fallback_summary).
Proof.
  eexists. split; [vm_compute; reflexivity|].
  match goal with
  | |- truthy_val (fv_summary ?v) = _ /\ _ =>
      destruct (narrative_never_empty (showing Scenario.bare_envelope) v eq_refl)
        as (Ht & _ & _ & Hfb & _)
  end.
  split; [exact Ht | apply Hfb; left; reflexivity].
Defined.

(** C9. The envelope stored by the search page under ["searchResults"]
    with [JSON.stringify] is recovered unchanged by the results page with
    [JSON.parse]: after a successful search, in either revision of the
    search page, the storage differs from the previous one at that key
    only, and the mount effect of the results page yields the page
    showing the very envelope the back end returned, with no redirect.
    The envelope is any value that JSON carries ([JSON.serializable]):
    its numbers are finite doubles, whole or not, and its strings and
    objects are as the engine holds them. *)
Theorem envelope_round_trip (data : json) :
  JSON.serializable data = true ->
  JSON.parse (JSON.stringify data) = Some data
  /\ (forall type_error env backend storage,
        (forall st,
           trim (IndexJs.name st) <> "" ->
           backend (search_request env
                      [("name", Some (JStr (trim (IndexJs.name st))));
                       ("search_type", Some (JStr (IndexJs.searchType st)))])
           = FetchResponse true (JsonBody data) ->
           snd (fst (IndexJs.handleSubmit type_error env backend st storage))
           = <[storage_key := JSON.stringify data]> storage
           /\ useEffect
                (snd (fst (IndexJs.handleSubmit type_error env backend st storage)))
                initial
              = (showing data, []))
        /\ (forall st,
              trim (Part000.name st) <> "" ->
              backend (search_request env
                         [("name", Some (JStr (toUpperCase (trim (Part000.name st)))));
                          ("search_type", Some (JStr (Part000.searchType st)))])
              = FetchResponse true (JsonBody data) ->
              snd (fst (Part000.handleSubmit type_error env backend st storage))
              = <[storage_key := JSON.stringify data]> storage
              /\ useEffect
                   (snd (fst (Part000.handleSubmit type_error env backend st storage)))
                   initial
                 = (showing data, []))).
Proof.
  intros Hd.
  assert (Hmount : forall storage,
            useEffect (<[storage_key := JSON.stringify data]> storage) initial
            = (showing data, [])).
  { intros storage. unfold useEffect. rewrite lookup_insert_eq.
    destruct (String.eqb_spec (JSON.stringify data) "") as [He|_].
    - now apply stringify_nonempty in He.
    - now rewrite (parse_stringify data Hd). }
  split; [exact (parse_stringify data Hd)|].
  intros type_error env backend storage. split; intros st Hname Hback.
  - unfold IndexJs.handleSubmit.
    destruct (String.eqb_spec (trim (IndexJs.name st)) ""); [contradiction|].
    rewrite Hback. simpl. split; [reflexivity | apply Hmount].
  - unfold Part000.handleSubmit.
    destruct (String.eqb_spec (trim (Part000.name st)) ""); [contradiction|].
    rewrite Hback. simpl. split; [reflexivity | apply Hmount].
Qed.

Lemma envelope_round_trip_witness :
  JSON.parse (JSON.stringify Scenario.acme_envelope) = Some Scenario.acme_envelope
  /\ useEffect
       (snd (fst (Part000.handleSubmit "" None
                    (fun _ => FetchResponse true (JsonBody Scenario.acme_envelope))
                    {| Part000.name := " Acme Holdings ";
                       Part000.searchType := "entity";
                       Part000.loading := false; Part000.error := "" |}
                    ∅)))
       initial
     = (showing Scenario.acme_envelope, []).
Proof.
  destruct (envelope_round_trip Scenario.acme_envelope eq_refl) as [Hp Hs].
  split; [exact Hp|].
  destruct (Hs "" None
              (fun _ => FetchResponse true (JsonBody Scenario.acme_envelope)) ∅)
    as [_ Hupper].
  apply Hupper; [discriminate | reflexivity].
Defined.

(** C10. On a visit to the results page with nothing stored under
    ["searchResults"], or with a stored text that is not JSON, the page
    redirects to the home page and shows only the spinner; an envelope is
    shown only when the stored text parses, and it is the parsed value. *)
Theorem stored_results_or_redirect (storage : gmap string string) :
  ((storage !! storage_key = None
    \/ exists s, storage !! storage_key = Some s /\ JSON.parse s = None) ->
   In (RouterPush "/") (snd (useEffect storage initial))
   /\ results (fst (useEffect storage initial)) = JNull
   /\ render (fst (useEffect storage initial)) = Done Spinner)
  /\ (forall v, render (fst (useEffect storage initial)) = Done v ->
        v <> Spinner ->
        exists s e, storage !! storage_key = Some s
                    /\ JSON.parse s = Some e
                    /\ results (fst (useEffect storage initial)) = e
                    /\ snd (useEffect storage initial) = []).
Proof.
  unfold useEffect.
  destruct (storage !! storage_key) as [s|] eqn:E.
  - destruct (String.eqb_spec s "") as [->|Hne].
    + split.
      * intros _. simpl. auto.
      * simpl. intros v [= <-] Hv. contradiction.
    + destruct (JSON.parse s) as [e|] eqn:P.
      * split.
        -- intros [H | (s' & Hs & H)]; congruence.
        -- simpl. intros v Hv Hs. exists s, e. auto.
      * split.
        -- intros _. simpl. auto.
        -- simpl. intros v [= <-] Hv. contradiction.
  - split.
    + intros _. simpl. auto.
    + simpl. intros v [= <-] Hv. contradiction.
Qed.

(* ================================================================== *)
(** * Further properties of the pages *)
(* ================================================================== *)

Import ViewFacts.

(** X1. The label shown for a risk score carries the same badge class as
    the score itself: the Romanian label that [getRiskLabel] returns,
    passed to [getRiskBadgeClass], gives the class of the original score,
    whatever the score. *)
Theorem risk_label_keeps_badge (risk : jsval) (label : string) :
  getRiskLabel risk = Done label ->
  getRiskBadgeClass (Some (JStr label)) = getRiskBadgeClass risk.
Proof.
  unfold getRiskLabel.
  destruct (truthy_val risk) eqn:T; cbn [negb].
  - destruct risk as [[| | |s| |]|]; try discriminate.
    intros H. unfold getRiskBadgeClass at 2. rewrite T. cbn [negb].
    destruct (toUpperCase s =? "CRITICAL") eqn:E1;
      [apply String.eqb_eq in E1; inversion H; subst; rewrite E1; reflexivity|].
    destruct (toUpperCase s =? "HIGH") eqn:E2;
      [apply String.eqb_eq in E2; inversion H; subst; rewrite E2; reflexivity|].
    destruct (toUpperCase s =? "MEDIUM") eqn:E3;
      [apply String.eqb_eq in E3; inversion H; subst; rewrite E3; reflexivity|].
    destruct (toUpperCase s =? "LOW") eqn:E4;
      [apply String.eqb_eq in E4; inversion H; subst; rewrite E4; reflexivity|].
    inversion H; subst. unfold getRiskBadgeClass. rewrite T, E1, E2, E3.
    reflexivity.
  - intros H. inversion H; subst.
    unfold getRiskBadgeClass at 2. rewrite T. reflexivity.
Qed.

Lemma risk_label_keeps_badge_witness :
  getRiskBadgeClass (Some (JStr "RIDICAT"))
  = getRiskBadgeClass (Some (JStr "High")).
Proof.
  apply (risk_label_keeps_badge (Some (JStr "High")) "RIDICAT"). reflexivity.
Defined.



(** X3. Cancelling the confirmation forgets the selection, whichever
    candidate was selected: select-then-cancel gives the state of a plain
    cancel, it gives back the state itself when nothing was selected
    before, and a confirmation after a cancel does nothing: no request,
    the storage and the state as they were. *)
Theorem cancel_discards_selection (st : ResultsState) (p : json)
    (env : option string) (backend : server) (storage : gmap string string) :
  handleCancelSearch (handlePersonSelect p st) = handleCancelSearch st
  /\ (showConfirmation st = false -> selectedPerson st = JNull ->
      handleCancelSearch (handlePersonSelect p st) = st)
  /\ handleConfirmSearch env backend
       (handleCancelSearch (handlePersonSelect p st)) storage
     = (handleCancelSearch st, storage, []).
Proof.
  split; [reflexivity|]. split.
  - destruct st as [r ld sc sp sg]. cbn. intros -> ->. reflexivity.
  - reflexivity.
Qed.

(** X4. When the follow-up search fails, because the request is rejected,
    the answer is not ok, or its body is not JSON, the results on display
    and the stored envelope stay as they were, nothing is stored and no
    navigation happens, one alert is raised, at most one request was
    issued, and the page is left with the confirmation closed and not
    searching. *)
Theorem failed_follow_up_keeps_results (env : option string) (backend : server)
    (st : ResultsState) (storage : gmap string string) :
  truthy (selectedPerson st) = true ->
  (forall req data, backend req <> FetchResponse true (JsonBody data)) ->
  results (fst (fst (handleConfirmSearch env backend st storage))) = results st
  /\ snd (fst (handleConfirmSearch env backend st storage)) = storage
  /\ searching (fst (fst (handleConfirmSearch env backend st storage))) = false
  /\ showConfirmation (fst (fst (handleConfirmSearch env backend st storage))) = false
  /\ List.filter is_alert (snd (handleConfirmSearch env backend st storage))
     = [Alert "A apărut o eroare în timpul căutării"]
  /\ List.filter is_store_or_push (snd (handleConfirmSearch env backend st storage)) = []
  /\ List.length (requests (snd (handleConfirmSearch env backend st storage))) <= 1.
Proof.
  intros Hsel Hfail. unfold handleConfirmSearch. rewrite Hsel. cbn [negb].
  destruct (get (selectedPerson st) "name") as [n| |];
    try (cbn; repeat split; lia).
  destruct (get (results st) "search_type") as [t| |];
    try (cbn; repeat split; lia).
  match goal with |- context [backend ?r] =>
    pose proof (Hfail r) as Hr; destruct (backend r) as [m|[|] [data|m]] end;
    try (cbn; repeat split; lia).
  exfalso. exact (Hr data eq_refl).
Qed.

Lemma failed_follow_up_keeps_results_witness :
  results (fst (fst (handleConfirmSearch None (fun _ => FetchRejects "offline")
                       (handlePersonSelect (person_match "Ion POPESCU") (showing candidates_envelope))
                       ∅)))
  = candidates_envelope
  /\ List.filter is_alert
       (snd (handleConfirmSearch None (fun _ => FetchRejects "offline")
               (handlePersonSelect (person_match "Ion POPESCU") (showing candidates_envelope))
               ∅))
     = [Alert "A apărut o eroare în timpul căutării"].
Proof.
  pose proof (failed_follow_up_keeps_results None (fun _ => FetchRejects "offline")
                (handlePersonSelect (person_match "Ion POPESCU") (showing candidates_envelope))
                ∅ eq_refl) as H.
  destruct H as (Hr & _ & _ & _ & Ha & _).
  - intros req data. discriminate.
  - split; [exact Hr | exact Ha].
Defined.

(** X5. A submission of the search form ends in one of two ways, in
    either revision of the page. Either the back end answered ok with a
    JSON body: then that body is stored under ["searchResults"], the page
    navigates to [/results] after storing, and no error message is set.
    Or it did not, or the name was blank: then nothing is stored, there is
    no navigation, the storage is as before, and the error message set is
    not empty. *)
Theorem submit_stores_or_reports (type_error : string) (env : option string)
    (backend : server) (storage : gmap string string) :
  (forall st : IndexJs.HomeState,
     ((exists req data,
         backend req = FetchResponse true (JsonBody data)
         /\ snd (IndexJs.handleSubmit type_error env backend st storage)
            = [Fetch req; SetItem storage_key (JSON.stringify data);
               RouterPush "/results"]
         /\ snd (fst (IndexJs.handleSubmit type_error env backend st storage))
            = <[storage_key := JSON.stringify data]> storage
         /\ IndexJs.error (fst (fst (IndexJs.handleSubmit type_error env backend st storage)))
            = "")
      \/ (List.filter is_store_or_push
            (snd (IndexJs.handleSubmit type_error env backend st storage)) = []
          /\ snd (fst (IndexJs.handleSubmit type_error env backend st storage)) = storage
          /\ IndexJs.error (fst (fst (IndexJs.handleSubmit type_error env backend st storage)))
             <> "")))
  /\ (forall st : Part000.HomeState,
        ((exists req data,
            backend req = FetchResponse true (JsonBody data)
            /\ snd (Part000.handleSubmit type_error env backend st storage)
               = [Fetch req; SetItem storage_key (JSON.stringify data);
                  RouterPush "/results"]
            /\ snd (fst (Part000.handleSubmit type_error env backend st storage))
               = <[storage_key := JSON.stringify data]> storage
            /\ Part000.error (fst (fst (Part000.handleSubmit type_error env backend st storage)))
               = "")
         \/ (List.filter is_store_or_push
               (snd (Part000.handleSubmit type_error env backend st storage)) = []
             /\ snd (fst (Part000.handleSubmit type_error env backend st storage)) = storage
             /\ Part000.error (fst (fst (Part000.handleSubmit type_error env backend st storage)))
                <> ""))).
Proof.
  assert (Hi : forall m, IndexJs.shown_message m <> "").
  { intros m. unfold IndexJs.shown_message.
    destruct (String.eqb_spec m ""); [discriminate | assumption]. }
  assert (Hp : forall m, Part000.shown_message m <> "").
  { intros m. unfold Part000.shown_message.
    destruct (String.eqb_spec m ""); [discriminate | assumption]. }
  split; intros st.
  - unfold IndexJs.handleSubmit.
    destruct (trim (IndexJs.name st) =? "").
    + right. cbn. repeat split. discriminate.
    + match goal with |- context [backend ?r] =>
        destruct (backend r) as [m|[|] [data|m]] eqn:Hb end;
        try (right; cbn; repeat split; apply Hi).
      left. eexists _, data. split; [exact Hb|]. cbn. repeat split.
  - unfold Part000.handleSubmit.
    destruct (trim (Part000.name st) =? "").
    + right. cbn. repeat split. discriminate.
    + match goal with |- context [backend ?r] =>
        destruct (backend r) as [m|[|] [data|m]] eqn:Hb end;
        try (right; cbn; repeat split; apply Hp).
      left. eexists _, data. split; [exact Hb|]. cbn. repeat split.
Qed.
(** X6. The mount effect of the results page can run twice (as under
    React's strict mode, which [next.config.js] turns on) without harm:
    run again on the state it produced, with the same storage, it gives
    the same state and the same effects; it always ends the loading
    phase; and it issues no request and stores nothing. *)
Theorem mount_effect_idempotent (storage : gmap string string) (st : ResultsState) :
  useEffect storage (fst (useEffect storage st)) = useEffect storage st
  /\ loading (fst (useEffect storage st)) = false
  /\ requests (snd (useEffect storage st)) = []
  /\ forall k v, ~ In (SetItem k v) (snd (useEffect storage st)).
Proof.
  unfold useEffect.
  destruct (storage !! storage_key) as [stored|];
    [destruct (stored =? ""); [|destruct (JSON.parse stored) as [v|]]|];
    cbn; repeat split; intros k x H;
    repeat (destruct H as [H|H]; [discriminate|]); exact H.
Qed.

(** X7. A stored text that parses to a falsy value ([null], [false], [0]
    or the empty string) is accepted by the mount effect: there is no
    redirect and no error is logged, the parsed value becomes the results,
    and the page shows the spinner for good, since the loading phase has
    ended and nothing else changes the results. *)
Theorem falsy_stored_value_keeps_spinner (storage : gmap string string)
    (stored : string) (v : json) :
  storage !! storage_key = Some stored ->
  JSON.parse stored = Some v ->
  truthy v = false ->
  useEffect storage initial
  = ({| results := v; loading := false; showConfirmation := false;
        selectedPerson := JNull; searching := false |}, [])
  /\ render (fst (useEffect storage initial)) = Done Spinner.
Proof.
  intros Hs Hp Hv.
  assert (He : (stored =? "") = false).
  { destruct (String.eqb_spec stored "") as [->|]; [|reflexivity].
    vm_compute in Hp. discriminate. }
  assert (Hu : useEffect storage initial
               = ({| results := v; loading := false; showConfirmation := false;
                     selectedPerson := JNull; searching := false |}, [])).
  { unfold useEffect. rewrite Hs, He, Hp. reflexivity. }
  split; [exact Hu|].
  rewrite Hu. unfold render. cbn. rewrite Hv. reflexivity.
Qed.

Lemma falsy_stored_value_keeps_spinner_witness :
  useEffect {[ storage_key := "null" ]} initial
  = ({| results := JNull; loading := false; showConfirmation := false;
        selectedPerson := JNull; searching := false |}, [])
  /\ render (fst (useEffect {[ storage_key := "null" ]} initial)) = Done Spinner.
Proof.
  pose proof (falsy_stored_value_keeps_spinner {[ storage_key := "null" ]}
                "null" JNull) as H.
  destruct H as (H1 & H2).
  - apply lookup_singleton_eq.
  - vm_compute. reflexivity.
  - reflexivity.
  - split; [exact H1 | exact H2].
Defined.
(** X8. An envelope in which the optional properties (risk score,
    summary, the two match lists, the evidence links, the audit folder)
    are missing or [null] is rendered without an exception, as the final
    view with the defaults: the lowest badge with the label of the lowest
    tier, the fallback summary, the "no match" text in both cards, and no
    evidence link and no audit folder. *)
Theorem absent_fields_get_defaults (o : list (string * json)) :
  forallb (fun k => absent (lookup_prop k o)) optional_keys = true ->
  exists v,
    render (showing (JObj o)) = Done (FinalResults v)
    /\ fv_risk_badge v = "badge-low"
    /\ fv_risk_label v = "SCĂZUT"
    /\ fv_summary v = Some (JStr fallback_summary)
    /\ card_items (fv_eu v) = None
    /\ card_items (fv_un v) = None
    /\ fv_eu_evidence v = Hidden None
    /\ fv_un_evidence v = Hidden None
    /\ fv_audit_folder v = Hidden (lookup_prop "audit_folder" o).
Proof.
  intros H. cbn [forallb optional_keys] in H.
  repeat (apply andb_true_iff in H as [? H]).
  unfold render, shouldShowPersonSelection, isHighRisk, render_final, render_card,
    showing.
  cbn [results loading truthy negb orb get bind].
  repeat match goal with
    | Ha : absent (lookup_prop ?k o) = true |- _ =>
        let E := fresh "E" in
        destruct (lookup_prop k o) as [[| | | | |]|] eqn:E; try discriminate Ha;
        clear Ha
    end;
    destruct (truthy_val (lookup_prop "eu_found" o));
    destruct (truthy_val (lookup_prop "un_found" o));
    cbn; eexists; (split; [reflexivity|]); cbn; repeat split; reflexivity.
Qed.

Lemma absent_fields_get_defaults_witness :
  exists v,
    render (showing Scenario.bare_envelope) = Done (FinalResults v)
    /\ fv_risk_badge v = "badge-low"
    /\ fv_risk_label v = "SCĂZUT"
    /\ fv_summary v = Some (JStr fallback_summary)
    /\ card_items (fv_eu v) = None
    /\ card_items (fv_un v) = None
    /\ fv_eu_evidence v = Hidden None
    /\ fv_un_evidence v = Hidden None
    /\ fv_audit_folder v = Hidden None.
Proof.
  exact (absent_fields_get_defaults
           [("query", JStr "ACME HOLDINGS"); ("search_type", JStr "entity");
            ("eu_found", JBool false); ("un_found", JBool false)] eq_refl).
Defined.
(** X9. The specification shown for a regime match is the beginning of
    the match's [specification] text, cut at 100 code units: the whole
    text when that has no more than 100 of them, and exactly 100 of them
    otherwise, for a text all of whose bytes belong to code points. It
    is shown only for a specification that is a non-empty string. *)
Theorem specification_preview_is_cut (m : json) (title : jsval)
    (txt : string) (country : guarded jsval) (measures : guarded string) :
  render_eu_item m = Done (EuRegime title (Shown txt) country measures) ->
  exists s,
    field m "specification" = Some (JStr s)
    /\ s <> ""
    /\ txt = substring0 100 s
    /\ (utf16_length s <= 100 -> txt = s)
    /\ (valid s = true -> utf16_length txt = Nat.min 100 (utf16_length s)).
Proof.
  intros H. unfold render_eu_item in H.
  apply bind_done in H as (type & Htype & H).
  destruct (is_str type "person_match").
  { apply bind_done in H as (n & _ & H). discriminate. }
  apply bind_done in H as (acronym & _ & H).
  apply bind_done in H as (specification & Hspec & H).
  apply bind_done in H as (spec & Hshown & H).
  apply bind_done in H as (c & _ & H).
  apply bind_done in H as (ms & _ & H).
  apply bind_done in H as (has & _ & H).
  apply bind_done in H as (shown & _ & H).
  injection H as _ -> _ _.
  destruct (truthy_val specification) eqn:T; [|discriminate].
  destruct specification as [[| | |s| |]|]; try discriminate.
  injection Hshown as <-.
  assert (Hf : field m "specification" = Some (JStr s)).
  { destruct m; simpl in Hspec; try discriminate;
      try (injection Hspec as Hspec; exact Hspec);
      try (destruct (_ =? _) in Hspec; discriminate). }
  exists s. split; [exact Hf|]. split.
  { intros ->. discriminate. }
  split; [reflexivity|].
  split; [exact (SubstringFacts.substring0_all 100 s)
         | exact (SubstringFacts.substring0_length 100 s)].
Qed.

Lemma specification_preview_is_cut_witness :
  exists s,
    field (Scenario.regime_match "XYZ" "Măsuri restrictive împotriva persoanelor și entităților răspunzătoare de acțiuni ce amenință pacea" "Freedonia" ["asset freeze"])
      "specification" = Some (JStr s)
    /\ s <> ""
    /\ "Măsuri restrictive împotriva persoanelor și entităților răspunzătoare de acțiuni ce amenință pacea" = substring0 100 s
    /\ (utf16_length s <= 100 -> "Măsuri restrictive împotriva persoanelor și entităților răspunzătoare de acțiuni ce amenință pacea" = s)
    /\ (valid s = true ->
        utf16_length "Măsuri restrictive împotriva persoanelor și entităților răspunzătoare de acțiuni ce amenință pacea" = Nat.min 100 (utf16_length s)).
Proof.
  exact (specification_preview_is_cut
           (Scenario.regime_match "XYZ" "Măsuri restrictive împotriva persoanelor și entităților răspunzătoare de acțiuni ce amenință pacea" "Freedonia" ["asset freeze"])
           (Some (JStr "XYZ")) "Măsuri restrictive împotriva persoanelor și entităților răspunzătoare de acțiuni ce amenință pacea"
           (Shown (Some (JStr "Freedonia"))) (Shown "asset freeze")
           eq_refl).
Defined.

(** X10. The measures line of a regime match is shown exactly for a
    non-empty [measures] array, and its text is the array's truthy
    elements, in order, joined with a comma and a space: elements that
    are [null], empty or otherwise falsy leave no trace and no stray
    separator. For an array of strings it is the non-empty strings joined;
    when every element is falsy the line is shown with an empty text. *)
Theorem measures_line_drops_falsy (m : json) (title : jsval)
    (spec : guarded string) (country : guarded jsval) (txt : string) :
  render_eu_item m = Done (EuRegime title spec country (Shown txt)) ->
  exists l,
    field m "measures" = Some (JArr l)
    /\ l <> []
    /\ txt = join ", " (List.map to_string (List.filter truthy l))
    /\ (forall strs, l = List.map JStr strs ->
          txt = join ", " (List.filter (fun s => negb (s =? "")) strs))
    /\ (List.filter truthy l = [] -> txt = "").
Proof.
  intros H. unfold render_eu_item in H.
  apply bind_done in H as (type & Htype & H).
  destruct (is_str type "person_match").
  { apply bind_done in H as (n & _ & H). discriminate. }
  apply bind_done in H as (acronym & _ & H).
  apply bind_done in H as (specification & _ & H).
  apply bind_done in H as (sp & _ & H).
  apply bind_done in H as (c & _ & H).
  apply bind_done in H as (ms & Hms & H).
  apply bind_done in H as (has & Hhas & H).
  apply bind_done in H as (shown & Hshown & H).
  injection H as _ _ _ ->.
  destruct has; [|discriminate].
  apply bind_done in Hshown as (l & Hl & Hshown).
  injection Hshown as <-.
  apply as_array_inv in Hl. subst ms.
  assert (Hf : field m "measures" = Some (JArr l)).
  { destruct m; simpl in Hms; try discriminate;
      try (injection Hms as Hms; exact Hms);
      try (destruct (_ =? _) in Hms; discriminate). }
  exists l. split; [exact Hf|]. split.
  { intros ->. discriminate. }
  rewrite join_values_truthy. split; [reflexivity|]. split.
  - intros strs ->. f_equal. clear.
    induction strs as [|s strs IH]; simpl; [reflexivity|].
    destruct (s =? ""); simpl; [exact IH | now rewrite IH].
  - intros ->. reflexivity.
Qed.

Lemma measures_line_drops_falsy_witness :
  exists l,
    field (Scenario.regime_match "XYZ" "Restrictive measures" "Freedonia"
             ["asset freeze"; ""; "travel ban"]) "measures" = Some (JArr l)
    /\ l <> []
    /\ "asset freeze, travel ban"
       = join ", " (List.map to_string (List.filter truthy l))
    /\ (forall strs, l = List.map JStr strs ->
          "asset freeze, travel ban"
          = join ", " (List.filter (fun s => negb (s =? "")) strs))
    /\ (List.filter truthy l = [] -> "asset freeze, travel ban" = "").
Proof.
  exact (measures_line_drops_falsy
           (Scenario.regime_match "XYZ" "Restrictive measures" "Freedonia"
              ["asset freeze"; ""; "travel ban"])
           (Some (JStr "XYZ")) (Shown "Restrictive measures")
           (Shown (Some (JStr "Freedonia"))) "asset freeze, travel ban"
           eq_refl).
Defined.
(** X11. Whenever the person selection is shown, the count in its heading
    is the number of candidates listed, there are at least two of them,
    neither found flag of the envelope is set, the query shown is the
    envelope's, and every candidate listed is an element of type
    ["person_match"] shown under its own [name]. *)
Theorem selection_lists_its_count (st : ResultsState) (v : selection_view) :
  render st = Done (PersonSelection v) ->
  sv_count v = List.length (sv_persons v)
  /\ 2 <= sv_count v
  /\ truthy_val (field (results st) "eu_found") = false
  /\ truthy_val (field (results st) "un_found") = false
  /\ sv_query v = field (results st) "query"
  /\ forall n p, In (n, p) (sv_persons v) ->
       is_person p = true /\ n = field p "name".
Proof.
  intros H. apply render_selection_view in H as (_ & Ht & Hshow & Hsel).
  apply (should_show_inv _ Ht) in Hshow as (Heu & Hun & l & ps & Hl & Hps & Hlen).
  apply (render_selection_parts _ _ Ht) in Hsel
    as (l' & ps' & Hl' & Hps' & Hmap & Hcount & Hq & _).
  rewrite Hl in Hl'. injection Hl' as <-.
  rewrite Hps in Hps'. injection Hps' as <-.
  split; [rewrite Hcount; symmetry; exact (mapM_length _ _ _ Hmap)|].
  split; [rewrite Hcount; lia|].
  split; [exact Heu|]. split; [exact Hun|]. split; [exact Hq|].
  intros n p Hin.
  destruct (mapM_In _ _ _ _ Hmap Hin) as (x & Hx & Hr).
  unfold render_person in Hr. apply bind_done in Hr as (n' & Hn & Hr).
  injection Hr as -> ->.
  destruct (filterM_In _ _ _ _ Hps Hx) as (_ & Hperson).
  destruct (person_match_obj _ Hperson) as (o & ->).
  unfold is_person_match in Hperson. simpl in Hperson. simpl in Hn.
  injection Hperson as Hperson. injection Hn as <-.
  split; [exact Hperson | reflexivity].
Qed.

Lemma selection_lists_its_count_witness :
  exists v, render (showing candidates_envelope) = Done (PersonSelection v)
            /\ sv_count v = List.length (sv_persons v)
            /\ 2 <= sv_count v.
Proof.
  eexists. split; [reflexivity|].
  pose proof (selection_lists_its_count (showing candidates_envelope) _ eq_refl)
    as (H1 & H2 & _).
  split; [exact H1 | exact H2].
Defined.

(** X12. In the final view the warning goes with the found flags and with
    nothing else: the banner is shown, the page and the summary card carry
    their warning classes, exactly when one of [eu_found], [un_found] is
    set, that is exactly when one of the two cards says "found"; each card
    carries its danger class and the high badge exactly when its own flag
    is set. The risk score has no part in it. *)
Theorem warning_follows_found_flags (st : ResultsState) (v : final_view) :
  render st = Done (FinalResults v) ->
  (fv_banner v = Shown tt
   <-> truthy_val (field (results st) "eu_found")
       || truthy_val (field (results st) "un_found") = true)
  /\ (fv_page_class v = "high-risk-page" <-> fv_banner v = Shown tt)
  /\ (fv_summary_class v = "summary-card-warning" <-> fv_banner v = Shown tt)
  /\ (fv_banner v = Shown tt
      <-> badge_text (fv_eu v) = "GĂSIT" \/ badge_text (fv_un v) = "GĂSIT")
  /\ (card_class (fv_eu v) = "result-card-danger"
      <-> truthy_val (field (results st) "eu_found") = true)
  /\ (card_class (fv_un v) = "result-card-danger"
      <-> truthy_val (field (results st) "un_found") = true)
  /\ (badge_class (fv_eu v) = "badge-high" <-> badge_text (fv_eu v) = "GĂSIT")
  /\ (badge_class (fv_un v) = "badge-high" <-> badge_text (fv_un v) = "GĂSIT").
Proof.
  intros H. apply render_final_view in H as (_ & Ht & H).
  destruct (render_final_parts _ _ Ht H)
    as (_ & Hbanner & _ & _ & _ & _ & Heu & Hun).
  destruct (render_final_classes _ _ Ht H) as (Hpage & Hsum & _).
  pose proof (render_card_class _ _ _ _ Heu) as Hceu.
  pose proof (render_card_class _ _ _ _ Hun) as Hcun.
  destruct (render_card_parts _ _ _ _ Heu) as (Hteu & Hbeu & _).
  destruct (render_card_parts _ _ _ _ Hun) as (Htun & Hbun & _).
  rewrite Hbanner, Hpage, Hsum, Hceu, Hcun, Hteu, Htun, Hbeu, Hbun.
  unfold guard. rewrite truthy_js_or.
  destruct (truthy_val (field (results st) "eu_found"));
    destruct (truthy_val (field (results st) "un_found")); cbn [orb];
    repeat split; intros; try reflexivity; try discriminate;
    try (left; reflexivity); try (right; reflexivity);
    try match goal with
      | Hd : _ \/ _ |- _ => destruct Hd; discriminate
      end.
Qed.

Lemma warning_follows_found_flags_witness :
  exists v, render (showing Scenario.acme_envelope) = Done (FinalResults v)
            /\ fv_banner v = Shown tt
            /\ card_class (fv_eu v) = "result-card-danger"
            /\ card_class (fv_un v) = "".
Proof.
  eexists. split; [reflexivity|].
  pose proof (warning_follows_found_flags (showing Scenario.acme_envelope) _ eq_refl)
    as (H1 & _ & _ & _ & H5 & _).
  split; [apply H1; reflexivity|]. split; [apply H5; reflexivity | reflexivity].
Defined.
(** X13. The search form rejects exactly the names made of white space
    only, the empty name among them: for such a name no effect happens at
    all and the validation message is set; for any other name exactly one
    request is issued. This holds in both revisions of the page. *)
Theorem blank_names_are_rejected (type_error : string) (env : option string)
    (backend : server) (storage : gmap string string) :
  (forall st : IndexJs.HomeState,
     (snd (IndexJs.handleSubmit type_error env backend st storage) = []
      <-> all_space (IndexJs.name st) = true)
     /\ (all_space (IndexJs.name st) = true ->
         IndexJs.error (fst (fst (IndexJs.handleSubmit type_error env backend st storage)))
         = IndexJs.validation_message)
     /\ (all_space (IndexJs.name st) = false ->
         List.length
           (requests (snd (IndexJs.handleSubmit type_error env backend st storage)))
         = 1))
  /\ (forall st : Part000.HomeState,
        (snd (Part000.handleSubmit type_error env backend st storage) = []
         <-> all_space (Part000.name st) = true)
        /\ (all_space (Part000.name st) = true ->
            Part000.error (fst (fst (Part000.handleSubmit type_error env backend st storage)))
            = Part000.validation_message)
        /\ (all_space (Part000.name st) = false ->
            List.length
              (requests (snd (Part000.handleSubmit type_error env backend st storage)))
            = 1)).
Proof.
  destruct (search_validation_both type_error env backend storage) as [Hi Hp].
  split; intros st.
  - specialize (Hi st). rewrite trim_eqb_empty in Hi.
    destruct (all_space (IndexJs.name st)).
    + destruct Hi as (He & _ & Ht). rewrite Ht.
      repeat split; auto; discriminate.
    + repeat split; try discriminate.
      * intros H. rewrite H in Hi. discriminate.
      * intros _. rewrite Hi. reflexivity.
  - specialize (Hp st). rewrite trim_eqb_empty in Hp.
    destruct (all_space (Part000.name st)).
    + destruct Hp as (He & _ & Ht). rewrite Ht.
      repeat split; auto; discriminate.
    + repeat split; try discriminate.
      * intros H. rewrite H in Hp. discriminate.
      * intros _. rewrite Hp. reflexivity.
Qed.

(** X14. The body of the request of the search form is read back by a
    JSON parser as the object written: a [name] and a [search_type], in
    this order, the name being the trimmed input ([index.js]) or the
    trimmed input upper-cased ([part_000]), whatever characters the name
    holds (quotes, backslashes, control characters, letters outside
    ASCII); the request is a POST with the JSON content type. The two
    strings sent are held as the engine holds them ([JSON.well_formed]). *)
Theorem search_request_decodes (type_error : string) (env : option string)
    (backend : server) (storage : gmap string string) :
  (forall (st : IndexJs.HomeState) r,
     JSON.well_formed (trim (IndexJs.name st)) = true ->
     JSON.well_formed (IndexJs.searchType st) = true ->
     In r (requests (snd (IndexJs.handleSubmit type_error env backend st storage))) ->
     req_method r = "POST"
     /\ req_content_type r = "application/json"
     /\ JSON.parse (req_body r)
        = Some (JObj [("name", JStr (trim (IndexJs.name st)));
                      ("search_type", JStr (IndexJs.searchType st))]))
  /\ (forall (st : Part000.HomeState) r,
        JSON.well_formed (toUpperCase (trim (Part000.name st))) = true ->
        JSON.well_formed (Part000.searchType st) = true ->
        In r (requests (snd (Part000.handleSubmit type_error env backend st storage))) ->
        req_method r = "POST"
        /\ req_content_type r = "application/json"
        /\ JSON.parse (req_body r)
           = Some (JObj [("name", JStr (toUpperCase (trim (Part000.name st))));
                         ("search_type", JStr (Part000.searchType st))])).
Proof.
  destruct (search_validation_both type_error env backend storage) as [Hi Hp].
  split; intros st r Hn Hty Hin.
  - specialize (Hi st). destruct (trim (IndexJs.name st) =? "").
    + destruct Hi as (_ & _ & Ht). rewrite Ht in Hin. destruct Hin.
    + rewrite Hi in Hin. destruct Hin as [<-|[]].
      split; [reflexivity|]. split; [reflexivity|].
      apply (parse_search_body (Some (JStr _)) (Some (JStr _)));
        intros x [= <-]; assumption.
  - specialize (Hp st). destruct (trim (Part000.name st) =? "").
    + destruct Hp as (_ & _ & Ht). rewrite Ht in Hin. destruct Hin.
    + rewrite Hp in Hin. destruct Hin as [<-|[]].
      split; [reflexivity|]. split; [reflexivity|].
      apply (parse_search_body (Some (JStr _)) (Some (JStr _)));
        intros x [= <-]; assumption.
Qed.

(** X15. The body of the follow-up request of the results page is read
    back as an object holding the selected candidate's [name] and the
    [search_type] of the envelope on display, each left out when the
    candidate or the envelope has no such property: a candidate without a
    name gives a request without a name. The envelope and the candidate
    are values that JSON carries ([JSON.serializable]). *)
Theorem follow_up_body_decodes (env : option string) (backend : server)
    (st : ResultsState) (storage : gmap string string) (r : request) :
  JSON.serializable (results st) = true ->
  JSON.serializable (selectedPerson st) = true ->
  In r (requests (snd (handleConfirmSearch env backend st storage))) ->
  JSON.parse (req_body r)
  = Some (JObj (object_literal
                  [("name", field (selectedPerson st) "name");
                   ("search_type", field (results st) "search_type")]))
  /\ (field (selectedPerson st) "name" = None ->
      forall o, JSON.parse (req_body r) = Some (JObj o) ->
                lookup_prop "name" o = None).
Proof.
  intros Hr Hs Hin.
  assert (Hbody : req_body r
                  = JSON.stringify
                      (JObj (object_literal
                               [("name", field (selectedPerson st) "name");
                                ("search_type", field (results st) "search_type")]))).
  { unfold handleConfirmSearch in Hin.
    destruct (truthy (selectedPerson st)); [|destruct Hin].
    cbn [negb] in Hin.
    destruct (get (selectedPerson st) "name") as [n| |] eqn:Hn;
      try (destruct Hin; fail).
    destruct (get (results st) "search_type") as [t| |] eqn:Ht;
      try (destruct Hin; fail).
    apply get_done_field in Hn; [|reflexivity].
    apply get_done_field in Ht; [|reflexivity]. subst n t.
    destruct (backend _) as [m|[|] [data|m]];
      cbn in Hin; destruct Hin as [<-|[]]; reflexivity. }
  assert (Hparse : JSON.parse (req_body r)
                   = Some (JObj (object_literal
                                   [("name", field (selectedPerson st) "name");
                                    ("search_type", field (results st) "search_type")]))).
  { rewrite Hbody. apply parse_search_body; intros x Hx;
      (eapply serializable_field; [|exact Hx]; assumption). }
  split; [exact Hparse|].
  intros Hn o Ho. rewrite Hparse in Ho. injection Ho as <-.
  rewrite Hn. simpl. destruct (field (results st) "search_type"); reflexivity.
Qed.

Lemma follow_up_body_decodes_witness :
  JSON.parse
    (req_body (search_request None
                 [("name", Some (JStr "Ion POPESCU"));
                  ("search_type", Some (JStr "person"))]))
  = Some (JObj [("name", JStr "Ion POPESCU"); ("search_type", JStr "person")]).
Proof.
  refine (proj1 (follow_up_body_decodes None (fun _ => FetchRejects "offline")
                   (handlePersonSelect (person_match "Ion POPESCU")
                      (showing candidates_envelope))
                   ∅ _ eq_refl eq_refl _)).
  left. reflexivity.
Defined.
(** X16. Clicking a candidate of the selection list opens the
    confirmation for that candidate and changes nothing else of the view:
    the same heading and the same list, with the dialog naming the
    candidate. Confirming replaces the dialog by the overlay naming the
    candidate while the follow-up search runs; cancelling closes the
    dialog and gives back the view as it was. No search is under way when
    the candidate is clicked. *)
Theorem select_opens_confirmation (st : ResultsState) (v : selection_view)
    (n : jsval) (p : json) :
  render st = Done (PersonSelection v) ->
  In (n, p) (sv_persons v) ->
  showConfirmation st = false ->
  searching st = false ->
  render (handlePersonSelect p st)
  = Done (PersonSelection
            {| sv_query := sv_query v; sv_count := sv_count v;
               sv_persons := sv_persons v;
               sv_modal := Shown n;
               sv_overlay := Hidden (Some (JBool false)) |})
  /\ (exists st',
        awaiting (handlePersonSelect p st) = Some st'
        /\ render st'
           = Done (PersonSelection
                     {| sv_query := sv_query v; sv_count := sv_count v;
                        sv_persons := sv_persons v;
                        sv_modal := Hidden (Some (JBool false));
                        sv_overlay := Shown n |}))
  /\ render (handleCancelSearch (handlePersonSelect p st)) = Done (PersonSelection v).
Proof.
  intros H Hin Hc Hs.
  destruct (selection_candidate _ _ _ _ H Hin) as (Ht & Hp & Hn & _).
  pose proof (render_selection_view _ _ H) as (_ & _ & _ & Hsel).
  destruct (render_selection_parts _ _ Ht Hsel)
    as (l & ps & Hl & Hps & Hmap & Hcount & Hq & Hmodal & Hover).
  rewrite Hc in Hmodal. rewrite Hs in Hover.
  assert (Hv : v = {| sv_query := field (results st) "query";
                      sv_count := List.length ps;
                      sv_persons := sv_persons v;
                      sv_modal := Hidden (Some (JBool false));
                      sv_overlay := Hidden (Some (JBool false)) |}).
  { destruct v; simpl in *. congruence. }
  assert (Hobj : get_opt (Some p) "name" = Done n).
  { destruct p; try discriminate Hp; exact Hn. }
  split; [|split].
  - rewrite (render_selection_state st (handlePersonSelect p st) v H eq_refl eq_refl).
    rewrite (render_selection_of (handlePersonSelect p st) l ps (sv_persons v) Ht Hl Hps Hmap).
    cbn [handlePersonSelect showConfirmation selectedPerson searching results].
    rewrite Hp, Hn, Hs, Hq, Hcount. reflexivity.
  - exists {| results := results st; loading := loading st;
              showConfirmation := false; selectedPerson := p;
              searching := true |}.
    split.
    { unfold awaiting. cbn [handlePersonSelect selectedPerson].
      rewrite Hp. reflexivity. }
    rewrite (render_selection_state st {| results := results st; loading := loading st; showConfirmation := false; selectedPerson := p; searching := true |} v H eq_refl eq_refl).
    rewrite (render_selection_of {| results := results st; loading := loading st; showConfirmation := false; selectedPerson := p; searching := true |} l ps (sv_persons v) Ht Hl Hps Hmap).
    cbn [showConfirmation selectedPerson searching results].
    rewrite Hobj, Hq, Hcount. reflexivity.
  - rewrite (render_selection_state st (handleCancelSearch (handlePersonSelect p st)) v H eq_refl eq_refl).
    rewrite (render_selection_of (handleCancelSearch (handlePersonSelect p st)) l ps (sv_persons v) Ht Hl Hps Hmap).
    cbn [handleCancelSearch handlePersonSelect showConfirmation selectedPerson
         searching results].
    rewrite Hs. symmetry. rewrite Hv at 1. reflexivity.
Qed.

Lemma select_opens_confirmation_witness :
  exists v,
    render (showing candidates_envelope) = Done (PersonSelection v)
    /\ render (handlePersonSelect (person_match "Ion POPESCU")
                 (showing candidates_envelope))
       = Done (PersonSelection
                 {| sv_query := sv_query v; sv_count := sv_count v;
                    sv_persons := sv_persons v;
                    sv_modal := Shown (Some (JStr "Ion POPESCU"));
                    sv_overlay := Hidden (Some (JBool false)) |}).
Proof.
  eexists. split; [reflexivity|].
  refine (proj1 (select_opens_confirmation (showing candidates_envelope) _
                   (Some (JStr "Ion POPESCU")) (person_match "Ion POPESCU")
                   eq_refl _ eq_refl eq_refl)).
  left. reflexivity.
Defined.
(** X17. The search form of [index.js] around a submission made while it
    is enabled. While the answer is awaited the input, the select and the
    button are disabled, the button says that the check runs, the note is
    shown and no error is shown. Once the handler has ended the form is
    enabled again in every case, with the name and the type as typed, and
    the error box is hidden exactly when the page navigated to the
    results; otherwise it shows a message that is not empty. *)
Theorem form_is_enabled_after_submit (type_error : string) (env : option string)
    (backend : server) (storage : gmap string string) (st : IndexJs.HomeState) :
  IndexJs.loading st = false ->
  (forall st1, IndexJsView.pending st = Some st1 ->
     IndexJsView.input_disabled (IndexJsView.render st1) = true
     /\ IndexJsView.select_disabled (IndexJsView.render st1) = true
     /\ IndexJsView.button_disabled (IndexJsView.render st1) = true
     /\ IndexJsView.button_label (IndexJsView.render st1) = "Se verifica..."
     /\ IndexJsView.loading_note (IndexJsView.render st1) = true
     /\ IndexJsView.error_box (IndexJsView.render st1) = Hidden (Some (JStr "")))
  /\ IndexJsView.input_value
       (IndexJsView.render
          (fst (fst (IndexJs.handleSubmit type_error env backend st storage))))
     = IndexJs.name st
  /\ IndexJsView.select_value
       (IndexJsView.render
          (fst (fst (IndexJs.handleSubmit type_error env backend st storage))))
     = IndexJs.searchType st
  /\ IndexJsView.input_disabled
       (IndexJsView.render
          (fst (fst (IndexJs.handleSubmit type_error env backend st storage))))
     = false
  /\ IndexJsView.button_disabled
       (IndexJsView.render
          (fst (fst (IndexJs.handleSubmit type_error env backend st storage))))
     = false
  /\ IndexJsView.button_label
       (IndexJsView.render
          (fst (fst (IndexJs.handleSubmit type_error env backend st storage))))
     = "Incepe Verificarea"
  /\ (IndexJsView.error_box
        (IndexJsView.render
           (fst (fst (IndexJs.handleSubmit type_error env backend st storage))))
      = Hidden (Some (JStr ""))
      <-> In (RouterPush "/results")
            (snd (IndexJs.handleSubmit type_error env backend st storage)))
  /\ (forall m,
        IndexJsView.error_box
          (IndexJsView.render
             (fst (fst (IndexJs.handleSubmit type_error env backend st storage))))
        = Shown m -> m <> "").
Proof.
  intros Hl.
  assert (Hbox : forall m, m <> "" ->
            guard (Some (JStr m)) m = Shown m).
  { intros m Hm. unfold guard. simpl.
    destruct (String.eqb_spec m ""); [contradiction | reflexivity]. }
  assert (Hi : forall m, IndexJs.shown_message m <> "").
  { intros m. unfold IndexJs.shown_message.
    destruct (String.eqb_spec m ""); [discriminate | assumption]. }
  split.
  { intros st1. unfold IndexJsView.pending.
    destruct (trim (IndexJs.name st) =? ""); [discriminate|].
    intros [= <-]. cbn. repeat split. }
  unfold IndexJs.handleSubmit.
  destruct (trim (IndexJs.name st) =? "").
  - cbn. rewrite Hl. repeat split; try discriminate.
    + intros [].
    + intros m [= <-]. discriminate.
  - destruct (backend _) as [m|[|] [data|m]]; cbn;
      unfold IndexJsView.render; cbn;
      rewrite ?Hbox by apply Hi;
      repeat split; try discriminate; auto;
      try (intros [H|[H|[]]]; discriminate);
      try (intros m0 [= <-]; apply Hi).
Qed.

Lemma form_is_enabled_after_submit_witness :
  IndexJsView.button_label
    (IndexJsView.render
       (fst (fst (IndexJs.handleSubmit "" None (fun _ => FetchRejects "offline")
                    {| IndexJs.name := "Acme"; IndexJs.searchType := "entity";
                       IndexJs.loading := false; IndexJs.error := "" |} ∅))))
  = "Incepe Verificarea"
  /\ IndexJsView.error_box
       (IndexJsView.render
          (fst (fst (IndexJs.handleSubmit "" None (fun _ => FetchRejects "offline")
                       {| IndexJs.name := "Acme"; IndexJs.searchType := "entity";
                          IndexJs.loading := false; IndexJs.error := "" |} ∅))))
     = Shown "offline".
Proof.
  pose proof (form_is_enabled_after_submit "" None (fun _ => FetchRejects "offline") ∅
                {| IndexJs.name := "Acme"; IndexJs.searchType := "entity";
                   IndexJs.loading := false; IndexJs.error := "" |} eq_refl)
    as (_ & _ & _ & _ & _ & H & _).
  split; [exact H | reflexivity].
Defined.

(** X18. The search form of [part_000] differs after a successful search:
    the handler does not end the loading phase on success, so the form
    stays disabled, with the overlay, until the navigation to the results
    replaces the page; after a failure or a rejected name it is enabled
    again and shows a message that is not empty. The form is disabled,
    after a submission made while enabled, exactly when the page
    navigated. *)
Theorem form_stays_busy_on_success (type_error : string) (env : option string)
    (backend : server) (storage : gmap string string) (st : Part000.HomeState) :
  Part000.loading st = false ->
  (Part000View.input_disabled
     (Part000View.render
        (fst (fst (Part000.handleSubmit type_error env backend st storage))))
   = true
   <-> In (RouterPush "/results")
         (snd (Part000.handleSubmit type_error env backend st storage)))
  /\ (Part000View.loading_overlay
        (Part000View.render
           (fst (fst (Part000.handleSubmit type_error env backend st storage))))
      = Part000View.input_disabled
          (Part000View.render
             (fst (fst (Part000.handleSubmit type_error env backend st storage)))))
  /\ (Part000View.button_disabled
        (Part000View.render
           (fst (fst (Part000.handleSubmit type_error env backend st storage))))
      = Part000View.input_disabled
          (Part000View.render
             (fst (fst (Part000.handleSubmit type_error env backend st storage)))))
  /\ (Part000View.error_box
        (Part000View.render
           (fst (fst (Part000.handleSubmit type_error env backend st storage))))
      = Hidden (Some (JStr ""))
      <-> In (RouterPush "/results")
            (snd (Part000.handleSubmit type_error env backend st storage)))
  /\ (forall m,
        Part000View.error_box
          (Part000View.render
             (fst (fst (Part000.handleSubmit type_error env backend st storage))))
        = Shown m -> m <> "")
  /\ Part000View.input_value
       (Part000View.render
          (fst (fst (Part000.handleSubmit type_error env backend st storage))))
     = Part000.name st.
Proof.
  intros Hl.
  assert (Hbox : forall m, m <> "" ->
            guard (Some (JStr m)) m = Shown m).
  { intros m Hm. unfold guard. simpl.
    destruct (String.eqb_spec m ""); [contradiction | reflexivity]. }
  assert (Hi : forall m, Part000.shown_message m <> "").
  { intros m. unfold Part000.shown_message.
    destruct (String.eqb_spec m ""); [discriminate | assumption]. }
  unfold Part000.handleSubmit.
  destruct (trim (Part000.name st) =? "").
  - cbn. rewrite Hl. repeat split; try discriminate.
    + intros [].
    + intros [].
    + intros m [= <-]. discriminate.
  - destruct (backend _) as [m|[|] [data|m]]; cbn;
      unfold Part000View.render; cbn;
      rewrite ?Hbox by apply Hi;
      repeat split; try discriminate; auto;
      try (intros [H|[H|[]]]; discriminate);
      try (intros m0 [= <-]; apply Hi).
Qed.

Lemma form_stays_busy_on_success_witness :
  Part000View.input_disabled
    (Part000View.render
       (fst (fst (Part000.handleSubmit ""
                    None (fun _ => FetchResponse true (JsonBody candidates_envelope))
                    {| Part000.name := "Ion Popescu"; Part000.searchType := "person";
                       Part000.loading := false; Part000.error := "" |} ∅))))
  = true.
Proof.
  pose proof (form_stays_busy_on_success ""
                None (fun _ => FetchResponse true (JsonBody candidates_envelope)) ∅
                {| Part000.name := "Ion Popescu"; Part000.searchType := "person";
                   Part000.loading := false; Part000.error := "" |} eq_refl)
    as (H & _).
  apply H. right. right. left. reflexivity.
Defined.
(** X20. An item of the match lists never has an empty title where the
    page provides a default: a UN match is titled by its [name], or
    "Necunoscut" when the name is missing or empty, and a regime match by
    its [acronym], or "Regim"; a person match of the EU list is shown
    under its [name] as it is, with no default. *)
Theorem listed_matches_have_titles (m : json) :
  (forall i, render_un_item m = Done i ->
     truthy_val (un_name i) = true
     /\ un_name i = js_or (field m "name") (Some (JStr "Necunoscut")))
  /\ (forall title spec country measures,
        render_eu_item m = Done (EuRegime title spec country measures) ->
        truthy_val title = true
        /\ title = js_or (field m "acronym") (Some (JStr "Regim"))
        /\ is_person m = false)
  /\ (forall n, render_eu_item m = Done (EuPerson n) ->
        n = field m "name" /\ is_person m = true).
Proof.
  assert (Hor : forall a s, s <> "" -> truthy_val (js_or a (Some (JStr s))) = true).
  { intros a s Hs. rewrite truthy_js_or. simpl.
    destruct (String.eqb_spec s ""); [contradiction|].
    apply orb_true_r. }
  split; [|split].
  - intros i H. unfold render_un_item in H.
    apply bind_done in H as (n & Hn & H).
    apply bind_done in H as (rn & _ & H).
    apply bind_done in H as (lo & _ & H).
    injection H as <-. cbn [un_name].
    apply get_done_field in Hn; [|reflexivity]. subst n.
    split; [apply Hor; discriminate | reflexivity].
  - intros title spec country measures H. unfold render_eu_item in H.
    apply bind_done in H as (type & Htype & H).
    apply get_done_field in Htype; [|reflexivity]. subst type.
    fold (is_person m) in H.
    destruct (is_person m).
    { apply bind_done in H as (n & _ & H). discriminate. }
    apply bind_done in H as (acronym & Ha & H).
    apply bind_done in H as (specification & _ & H).
    apply bind_done in H as (sp & _ & H).
    apply bind_done in H as (c & _ & H).
    apply bind_done in H as (ms & _ & H).
    apply bind_done in H as (has & _ & H).
    apply bind_done in H as (shown & _ & H).
    injection H as <- _ _ _.
    apply get_done_field in Ha; [|reflexivity]. subst acronym.
    split; [apply Hor; discriminate | split; reflexivity].
  - intros n H. unfold render_eu_item in H.
    apply bind_done in H as (type & Htype & H).
    apply get_done_field in Htype; [|reflexivity]. subst type.
    fold (is_person m) in H.
    destruct (is_person m).
    + apply bind_done in H as (n' & Hn & H). injection H as <-.
      apply get_done_field in Hn; [|reflexivity]. now subst.
    + apply bind_done in H as (acronym & Ha & H).
      apply bind_done in H as (specification & _ & H).
      apply bind_done in H as (sp & _ & H).
      apply bind_done in H as (c & _ & H).
      apply bind_done in H as (ms & _ & H).
      apply bind_done in H as (has & _ & H).
      apply bind_done in H as (shown & _ & H).
      discriminate.
Qed.

(** X21. What the follow-up search leaves on the screen is what a reload
    of the page shows: whenever [handleConfirmSearch] stored an envelope,
    the view of the state it ends in is the view of the page mounted anew
    on the storage it left, and that mount redirects nowhere. The bodies
    the back end answers are values that JSON carries
    ([JSON.serializable]). *)
Theorem follow_up_view_survives_reload (env : option string) (backend : server)
    (st : ResultsState) (storage : gmap string string) (txt : string) :
  loading st = false ->
  (forall req data, backend req = FetchResponse true (JsonBody data) ->
                    JSON.serializable data = true) ->
  In (SetItem storage_key txt) (snd (handleConfirmSearch env backend st storage)) ->
  render (fst (fst (handleConfirmSearch env backend st storage)))
  = render (fst (useEffect (snd (fst (handleConfirmSearch env backend st storage)))
                   initial))
  /\ snd (useEffect (snd (fst (handleConfirmSearch env backend st storage))) initial)
     = []
  /\ snd (fst (handleConfirmSearch env backend st storage)) !! storage_key
     = Some txt.
Proof.
  intros Hl Hback Hin. unfold handleConfirmSearch in *.
  destruct (truthy (selectedPerson st)); [|destruct Hin].
  cbn [negb] in *.
  destruct (get (selectedPerson st) "name") as [n| |];
    try (cbn in Hin; destruct Hin as [H|[H|[]]]; discriminate).
  destruct (get (results st) "search_type") as [t| |];
    try (cbn in Hin; destruct Hin as [H|[H|[]]]; discriminate).
  destruct (backend _) as [m|[|] [data|m]] eqn:Hb;
    try (cbn in Hin; destruct Hin as [H|[H|[H|[]]]]; discriminate).
  cbn in Hin. destruct Hin as [H|[H|[]]]; [discriminate|].
  injection H as <-.
  cbn [fst snd]. rewrite (mount_after_store data storage (Hback _ _ Hb)).
  cbn [fst snd]. split; [|split].
  - unfold render, render_selection, showing. cbn [results loading
      showConfirmation selectedPerson searching]. rewrite Hl. reflexivity.
  - reflexivity.
  - apply lookup_insert_eq.
Qed.

Lemma follow_up_view_survives_reload_witness :
  render (fst (fst (handleConfirmSearch None
                      (fun _ => FetchResponse true (JsonBody Scenario.acme_envelope))
                      (handlePersonSelect (person_match "Ion POPESCU")
                         (showing candidates_envelope)) ∅)))
  = render (fst (useEffect
                   (snd (fst (handleConfirmSearch None
                                (fun _ => FetchResponse true
                                            (JsonBody Scenario.acme_envelope))
                                (handlePersonSelect (person_match "Ion POPESCU")
                                   (showing candidates_envelope)) ∅)))
                   initial)).
Proof.
  refine (proj1 (follow_up_view_survives_reload None
                   (fun _ => FetchResponse true (JsonBody Scenario.acme_envelope))
                   (handlePersonSelect (person_match "Ion POPESCU")
                      (showing candidates_envelope)) ∅
                   (JSON.stringify Scenario.acme_envelope) eq_refl _ _)).
  - intros req data [= <-]. reflexivity.
  - right. left. reflexivity.
Defined.
(** X22. The third revision of the results page changed nothing of the
    report of the second beyond the warning styling: whenever the third
    shows the final view, the second, on the same results, shows that
    view without the banner and the warning classes, item for item; and
    both show the spinner in the same states. *)
Theorem earlier_revision_same_report (st : ResultsState) :
  (forall v, render st = Done (FinalResults v) ->
     ResultsRev2.render (ResultsRev2.of_state st)
     = Done (ResultsRev2.FinalResults (ResultsRev2.plain v)))
  /\ (render st = Done Spinner
      <-> ResultsRev2.render (ResultsRev2.of_state st) = Done ResultsRev2.Spinner)
  /\ (forall storage,
        ResultsRev2.useEffect storage (ResultsRev2.of_state st)
        = (ResultsRev2.of_state (fst (useEffect storage st)),
           snd (useEffect storage st))).
Proof.
  split; [|split].
  - intros v H. apply render_final_view in H as (Hl & Ht & H).
    unfold ResultsRev2.render, ResultsRev2.of_state.
    cbn [ResultsRev2.loading ResultsRev2.results].
    rewrite Hl, Ht, (render_final_plain _ Ht), H. reflexivity.
  - unfold render, ResultsRev2.render, ResultsRev2.of_state.
    cbn [ResultsRev2.loading ResultsRev2.results].
    destruct (loading st || negb (truthy (results st))); [tauto|].
    split; intros H.
    + destruct (shouldShowPersonSelection (results st)) as [[|]| |];
        simpl in H; try discriminate;
        destruct (isHighRisk (results st)); simpl in H; try discriminate;
        [destruct (render_selection st) | destruct (render_final (results st))];
        discriminate.
    + destruct (ResultsRev2.render_final (results st)); discriminate.
  - intros storage. unfold ResultsRev2.useEffect, useEffect, ResultsRev2.of_state.
    cbn [ResultsRev2.results].
    destruct (storage !! storage_key) as [stored|]; [|reflexivity].
    destruct (stored =? ""); [reflexivity|].
    destruct (JSON.parse stored); reflexivity.
Qed.

(** X23. Before the person selection was added, an envelope with several
    person candidates was reported as a plain "no match": where the third
    revision shows the selection (at least two candidates), the second
    revision, on the same results, shows the final view with both sources
    marked not found and no item listed in either card, so none of the
    candidates appears. The envelope has the fields typed as the page
    uses them. *)
Theorem earlier_revision_hides_candidates (st : ResultsState) (sv : selection_view) :
  render st = Done (PersonSelection sv) ->
  well_formed (results st) = true ->
  exists v,
    ResultsRev2.render (ResultsRev2.of_state st) = Done (ResultsRev2.FinalResults v)
    /\ ResultsRev2.badge_text (ResultsRev2.fv_eu v) = "NEGĂSIT"
    /\ ResultsRev2.badge_text (ResultsRev2.fv_un v) = "NEGĂSIT"
    /\ ResultsRev2.card_items (ResultsRev2.fv_eu v) = None
    /\ ResultsRev2.card_items (ResultsRev2.fv_un v) = None
    /\ 2 <= List.length (sv_persons sv).
Proof.
  intros H Hwf.
  pose proof (render_selection_view _ _ H) as (Hl & Ht & Hshow & Hsel).
  destruct (should_show_inv _ Ht Hshow) as (Heu & Hun & l & ps & Hm & Hps & Hlen).
  destruct (render_selection_parts _ _ Ht Hsel)
    as (l' & ps' & Hm' & Hps' & Hmap & _).
  rewrite Hm in Hm'. injection Hm' as <-.
  rewrite Hps in Hps'. injection Hps' as <-.
  destruct (render_final_total _ Hwf) as (v & Hv).
  destruct (render_final_parts _ _ Ht Hv) as (_ & _ & _ & _ & _ & _ & Hceu & Hcun).
  exists (ResultsRev2.plain v).
  split.
  { unfold ResultsRev2.render, ResultsRev2.of_state.
    cbn [ResultsRev2.loading ResultsRev2.results].
    rewrite Hl, Ht, (render_final_plain _ Ht), Hv. reflexivity. }
  cbn [ResultsRev2.plain ResultsRev2.fv_eu ResultsRev2.fv_un
       ResultsRev2.plain_card ResultsRev2.badge_text ResultsRev2.card_items].
  destruct (render_card_parts _ _ _ _ Hceu) as (Hteu & _ & Hieu).
  destruct (render_card_parts _ _ _ _ Hcun) as (Htun & _ & Hiun).
  rewrite Hteu, Htun, Heu, Hun.
  split; [reflexivity|]. split; [reflexivity|].
  split; [|split].
  - destruct (card_items (fv_eu v)) as [items|]; [|reflexivity].
    destruct (Hieu items eq_refl) as (Hf & _). rewrite Heu in Hf. discriminate.
  - destruct (card_items (fv_un v)) as [items|]; [|reflexivity].
    destruct (Hiun items eq_refl) as (Hf & _). rewrite Hun in Hf. discriminate.
  - rewrite (mapM_length _ _ _ Hmap). lia.
Qed.

Lemma earlier_revision_hides_candidates_witness :
  exists v,
    ResultsRev2.render (ResultsRev2.of_state (showing candidates_envelope))
    = Done (ResultsRev2.FinalResults v)
    /\ ResultsRev2.badge_text (ResultsRev2.fv_eu v) = "NEGĂSIT"
    /\ ResultsRev2.card_items (ResultsRev2.fv_eu v) = None.
Proof.
  destruct (earlier_revision_hides_candidates (showing candidates_envelope) _
              eq_refl eq_refl) as (v & H1 & H2 & _ & H4 & _).
  exists v. split; [exact H1|]. split; [exact H2 | exact H4].
Defined.
(** X24. What the search form shows after the back end refuses a search
    (an answer that is not ok, with a JSON body): the [detail] of the
    body when it is a non-empty string; the fixed "search failed" text
    when the body has no [detail] or a falsy one; and, for a [detail]
    that is a list holding one object, as a validation error is, the text
    ["[object Object]"]. In each case one request was made, the error was
    logged, nothing was stored and the page did not navigate. Both
    revisions behave so, each with its own fixed text. *)
Theorem refusal_detail_is_shown (type_error : string) (env : option string)
    (backend : server) (storage : gmap string string) (errData : json) :
  (forall st : IndexJs.HomeState,
     trim (IndexJs.name st) <> "" ->
     backend (search_request env
                [("name", Some (JStr (trim (IndexJs.name st))));
                 ("search_type", Some (JStr (IndexJs.searchType st)))])
     = FetchResponse false (JsonBody errData) ->
     (forall d, field errData "detail" = Some (JStr d) -> d <> "" ->
        IndexJs.error (fst (fst (IndexJs.handleSubmit type_error env backend st storage)))
        = d)
     /\ (errData <> JNull -> truthy_val (field errData "detail") = false ->
         IndexJs.error (fst (fst (IndexJs.handleSubmit type_error env backend st storage)))
         = "Cautarea a esuat")
     /\ (forall o, field errData "detail" = Some (JArr [JObj o]) ->
         IndexJs.error (fst (fst (IndexJs.handleSubmit type_error env backend st storage)))
         = "[object Object]")
     /\ snd (IndexJs.handleSubmit type_error env backend st storage)
        = [Fetch (search_request env
                    [("name", Some (JStr (trim (IndexJs.name st))));
                     ("search_type", Some (JStr (IndexJs.searchType st)))]);
           ConsoleError "Search error:"])
  /\ (forall st : Part000.HomeState,
        trim (Part000.name st) <> "" ->
        backend (search_request env
                   [("name", Some (JStr (toUpperCase (trim (Part000.name st)))));
                    ("search_type", Some (JStr (Part000.searchType st)))])
        = FetchResponse false (JsonBody errData) ->
        (forall d, field errData "detail" = Some (JStr d) -> d <> "" ->
           Part000.error (fst (fst (Part000.handleSubmit type_error env backend st storage)))
           = d)
        /\ (errData <> JNull -> truthy_val (field errData "detail") = false ->
            Part000.error (fst (fst (Part000.handleSubmit type_error env backend st storage)))
            = "Căutarea a eșuat")
        /\ (forall o, field errData "detail" = Some (JArr [JObj o]) ->
            Part000.error (fst (fst (Part000.handleSubmit type_error env backend st storage)))
            = "[object Object]")
        /\ snd (Part000.handleSubmit type_error env backend st storage)
           = [Fetch (search_request env
                       [("name", Some (JStr (toUpperCase (trim (Part000.name st)))));
                        ("search_type", Some (JStr (Part000.searchType st)))]);
              ConsoleError "Search error:"]).
Proof.
  assert (Hget : errData <> JNull -> get errData "detail" = Done (field errData "detail")).
  { intros Hn. destruct errData; try reflexivity. contradiction. }
  assert (Hnn : forall x, field errData "detail" = Some x -> errData <> JNull).
  { intros x Hx ->. discriminate. }
  split; intros st Hname Hback.
  - unfold IndexJs.handleSubmit.
    destruct (String.eqb_spec (trim (IndexJs.name st)) ""); [contradiction|].
    rewrite Hback. cbn [fst snd IndexJs.error app].
    unfold IndexJs.failure_message, IndexJs.shown_message.
    split; [|split; [|split]].
    + intros d Hd Hne. rewrite (Hget (Hnn _ Hd)), Hd.
      apply String.eqb_neq in Hne.
      cbn [truthy_val truthy to_string_val to_string].
      rewrite Hne. cbn [negb]. rewrite Hne. reflexivity.
    + intros Hn Hf. rewrite (Hget Hn), Hf. reflexivity.
    + intros o Hd. rewrite (Hget (Hnn _ Hd)), Hd. reflexivity.
    + reflexivity.
  - unfold Part000.handleSubmit.
    destruct (String.eqb_spec (trim (Part000.name st)) ""); [contradiction|].
    rewrite Hback. cbn [fst snd Part000.error app].
    unfold Part000.failure_message, Part000.shown_message.
    split; [|split; [|split]].
    + intros d Hd Hne. rewrite (Hget (Hnn _ Hd)), Hd.
      apply String.eqb_neq in Hne.
      cbn [truthy_val truthy to_string_val to_string].
      rewrite Hne. cbn [negb]. rewrite Hne. reflexivity.
    + intros Hn Hf. rewrite (Hget Hn), Hf. reflexivity.
    + intros o Hd. rewrite (Hget (Hnn _ Hd)), Hd. reflexivity.
    + reflexivity.
Qed.

(** X25. The results page reads ten properties of the envelope
    ([read_keys]) and no other: setting any other property to any value
    leaves what the page returns unchanged. *)
Theorem unread_flags_are_not_shown (st : ResultsState)
    (o : list (string * json)) (k : string) (x : json) :
  results st = JObj o ->
  ~ In k read_keys ->
  render (setResults (JObj (obj_set k x o)) st) = render st.
Proof.
  intros Hr Hk. unfold read_keys in Hk. simpl in Hk.
  assert (Hne : forall k', In k' read_keys -> k <> k').
  { intros k' Hin ->. apply Hk. exact Hin. }
  assert (Hl : forall k', In k' read_keys ->
             lookup_prop k' (obj_set k x o) = lookup_prop k' o).
  { intros k' Hin. apply lookup_obj_set_ne, Hne, Hin. }
  destruct st as [r ld sc sp sg]. simpl in Hr. subst r.
  unfold render, setResults, shouldShowPersonSelection,
    render_selection, render_final, isHighRisk.
  cbn [results loading showConfirmation selectedPerson searching
       truthy negb get bind].
  rewrite !Hl by (unfold read_keys; simpl; tauto).
  reflexivity.
Qed.

Lemma unread_flags_are_not_shown_witness :
  render (setResults
            (JObj (obj_set "score" (JNum (Number.of_nat 3))
                     [("query", JStr "ACME HOLDINGS"); ("search_type", JStr "entity");
                      ("eu_found", JBool false); ("un_found", JBool false)]))
            (showing Scenario.bare_envelope))
  = render (showing Scenario.bare_envelope).
Proof.
  apply (unread_flags_are_not_shown (showing Scenario.bare_envelope));
    [reflexivity|].
  simpl. intros H. repeat (destruct H as [H|H]; [discriminate H|]). exact H.
Defined.
